(** * mya.py: bonding-curve quotes, instruction encoding, base58 and wallet custody

  A shallow embedding of the parts of [mya.py] that build pump.fun
  instructions, price trades on the bonding curve and keep the wallet
  file, together with the properties stated about them.

  Conventions.
  - Python [int] is [Z]; [//] is [Z.div] guarded against a zero divisor.
  - Python [bytes] is [list byte]; [struct.pack('<Q', n)] is the
    little-endian split of coqutil, guarded by the range check that
    [struct] performs.
  - A raised exception is [None] (or a constructor of [outcome] where the
    kind of failure matters); [sys.exit(code)] is [Exit code]. *)

From Stdlib Require Import ZArith List Lia Bool String Ascii.
From coqutil Require Import Byte Word.LittleEndianList.
From stdpp Require Import gmap strings.

Import ListNotations.
Local Open Scope Z_scope.

(** ** Python integers *)

Module Py.

(** [a // b]: ZeroDivisionError when [b = 0], floor division otherwise. *)
Definition floordiv (a b : Z) : option Z :=
  if b =? 0 then None else Some (a / b).

(** [struct.pack('<I', n)] and [struct.pack('<Q', n)]: [struct.error]
    when [n] does not fit the unsigned field. *)
Definition pack_le (width : nat) (n : Z) : option (list byte) :=
  if (0 <=? n) && (n <? 2 ^ (8 * Z.of_nat width))
  then Some (le_split width n) else None.

Definition pack_I : Z -> option (list byte) := pack_le 4.
Definition pack_Q : Z -> option (list byte) := pack_le 8.

(** [struct.unpack('<Q', b)[0]]: [struct.error] unless [b] has 8 bytes. *)
Definition unpack_le (width : nat) (b : list byte) : option Z :=
  if (length b =? width)%nat then Some (le_combine b) else None.

Definition unpack_I : list byte -> option Z := unpack_le 4.
Definition unpack_Q : list byte -> option Z := unpack_le 8.

End Py.

(** ** Bonding-curve quotes *)

Module BondingCurve.

(** [calculate_sol_for_tokens] (sell quote). *)
Definition calculate_sol_for_tokens
    (token_amount virtual_token_reserves virtual_sol_reserves : Z) : option Z :=
  if token_amount <=? 0 then Some 0
  else
    let k := virtual_sol_reserves * virtual_token_reserves in
    let new_virtual_token := virtual_token_reserves + token_amount in
    match Py.floordiv k new_virtual_token with
    | None => None
    | Some new_virtual_sol =>
        let sol_out := virtual_sol_reserves - new_virtual_sol in
        Some (Z.max 0 sol_out)
    end.

(** [calculate_tokens_for_sol] (buy quote on the initial reserves). *)
Definition calculate_tokens_for_sol (sol_lamports : Z) : option Z :=
  let virtual_token_reserves := 1073000000000000 in
  let virtual_sol_reserves := 30000000000 in
  let k := virtual_token_reserves * virtual_sol_reserves in
  let new_sol_reserves := virtual_sol_reserves + sol_lamports in
  match Py.floordiv k new_sol_reserves with
  | None => None
  | Some new_token_reserves =>
      let tokens_out := virtual_token_reserves - new_token_reserves in
      Some tokens_out
  end.

(** The sell quote as the specification words it: no guard on the input,
    the product widened (here: unbounded), the result clamped at zero. *)
Definition quoteSolOutForTokensIn_spec
    (tokenAmountIn virtualTokenReserves virtualSolReserves : Z) : Z :=
  let k := virtualSolReserves * virtualTokenReserves in
  let newVirtualToken := virtualTokenReserves + tokenAmountIn in
  let newVirtualSol := k / newVirtualToken in
  Z.max 0 (virtualSolReserves - newVirtualSol).

Definition u64 (n : Z) : Prop := 0 <= n < 2 ^ 64.

End BondingCurve.

(** ** Base58 *)

Module Base58.

Definition B58_ALPHABET : string :=
  "123456789ABCDEFGHJKLMNPQRSTUVWXYZabcdefghijkmnopqrstuvwxyz".

(** [s.index(c)]: position of the first occurrence, [None] for ValueError. *)
Fixpoint str_index (c : ascii) (s : string) : option nat :=
  match s with
  | EmptyString => None
  | String c' s' =>
      if Ascii.eqb c c' then Some 0%nat
      else option_map S (str_index c s')
  end.

(** [B58_ALPHABET[rem]] for [0 <= rem < 58]. *)
Definition alphabet_at (rem : Z) : ascii :=
  match String.get (Z.to_nat rem) B58_ALPHABET with
  | Some c => c
  | None => "1"%char
  end.

(** [int.from_bytes(data, 'big')]. *)
Definition int_from_bytes_big (data : list byte) : Z := le_combine (rev data).

(** [num.bit_length()] for [num >= 0]. *)
Definition bit_length (num : Z) : Z :=
  if num =? 0 then 0 else Z.log2 num + 1.

(** [num.to_bytes(n, 'big')]: OverflowError when [num] needs more bytes. *)
Definition int_to_bytes_big (n : nat) (num : Z) : option (list byte) :=
  option_map (@rev byte) (Py.pack_le n num).

(** The loop [while num > 0: num, rem = divmod(num, 58); result = A[rem] + result].
    The fuel bounds the number of iterations; [b58_encode] passes enough. *)
Fixpoint b58_digits (fuel : nat) (num : Z) (result : string) : string :=
  match fuel with
  | O => result
  | S fuel' =>
      if num >? 0
      then b58_digits fuel' (num / 58) (String (alphabet_at (num mod 58)) result)
      else result
  end.

(** The loop [for byte in data: if byte == 0: result = '1' + result else: break]. *)
Fixpoint pad_ones (data : list byte) (result : string) : string :=
  match data with
  | b :: data' =>
      if byte.unsigned b =? 0 then pad_ones data' (String "1" result) else result
  | [] => result
  end.

Definition b58_encode (data : list byte) : string :=
  let num := int_from_bytes_big data in
  let result := b58_digits (Z.to_nat (bit_length num)) num EmptyString in
  let result := pad_ones data result in
  match result with
  | EmptyString => "1"
  | _ => result
  end.

(** The loop over the characters of [s] accumulating [num]. *)
Fixpoint b58_decode_num (s : string) (num : Z) : option Z :=
  match s with
  | EmptyString => Some num
  | String c s' =>
      match str_index c B58_ALPHABET with
      | None => None
      | Some i => b58_decode_num s' (num * 58 + Z.of_nat i)
      end
  end.

(** [len(s) - len(s.lstrip('1'))]. *)
Fixpoint leading_ones (s : string) : nat :=
  match s with
  | String c s' => if Ascii.eqb c "1" then S (leading_ones s') else O
  | EmptyString => O
  end.

Definition b58_decode (s : string) : option (list byte) :=
  match b58_decode_num s 0 with
  | None => None
  | Some num =>
      let result :=
        if num =? 0 then Some []
        else int_to_bytes_big (Z.to_nat ((bit_length num + 7) / 8)) num in
      let pad := leading_ones s in
      option_map (fun r => repeat Byte.x00 pad ++ r) result
  end.

(** [k] characters '1'. *)
Fixpoint ones (k : nat) : string :=
  match k with
  | O => EmptyString
  | S k' => String "1" (ones k')
  end.

(** The text starts with a character other than '1'. *)
Definition starts_not_one (s : string) : Prop :=
  match s with
  | String c _ => Ascii.eqb c "1" = false
  | EmptyString => False
  end.

(** The leading zero bytes and what follows them. *)
Fixpoint leading_zeros (data : list byte) : nat :=
  match data with
  | x :: data' => if byte.unsigned x =? 0 then S (leading_zeros data') else O
  | [] => O
  end.

Fixpoint strip_zeros (data : list byte) : list byte :=
  match data with
  | x :: data' => if byte.unsigned x =? 0 then strip_zeros data' else data
  | [] => []
  end.

End Base58.

(** ** UTF-8 *)

Module Utf8.

(** A Python [str]: its code points, each in [0, 0x10FFFF]. *)
Definition pystr := list Z.

(** No lone surrogate: what [str.encode('utf-8')] accepts. *)
Definition encodable (s : pystr) : Prop :=
  Forall (fun c => 0 <= c <= 1114111 /\ ~ (55296 <= c <= 57343)) s.

(** Short enough for its UTF-8 bytes (at most four per code point) to be
    counted in a 4-byte length prefix. *)
Definition short (s : pystr) : Prop := 4 * Z.of_nat (length s) < 2 ^ 32.

(** A continuation byte carrying the low six bits of [z]. *)
Definition cont (z : Z) : byte := byte.of_Z (128 + z mod 64).

(** One code point; [None] is UnicodeEncodeError (a surrogate). *)
Definition encode_char (c : Z) : option (list byte) :=
  if c <? 0 then None
  else if c <? 128 then Some [byte.of_Z c]
  else if c <? 2048 then Some [byte.of_Z (192 + c / 64); cont c]
  else if c <? 65536 then
    if (55296 <=? c) && (c <=? 57343) then None
    else Some [byte.of_Z (224 + c / 4096); cont (c / 64); cont c]
  else if c <? 1114112 then
    Some [byte.of_Z (240 + c / 262144); cont (c / 4096); cont (c / 64); cont c]
  else None.

(** [s.encode('utf-8')]. *)
Fixpoint encode (s : pystr) : option (list byte) :=
  match s with
  | [] => Some []
  | c :: s' =>
      match encode_char c, encode s' with
      | Some bs, Some rest => Some (bs ++ rest)
      | _, _ => None
      end
  end.

Definition is_cont (b : byte) : bool :=
  (128 <=? byte.unsigned b) && (byte.unsigned b <? 192).

Definition low6 (b : byte) : Z := byte.unsigned b - 128.

(** Strict decoding of well-formed UTF-8 (shortest form, no surrogates,
    at most U+10FFFF), as the reader of a length-prefixed string applies it. *)
Fixpoint decode (bs : list byte) : option pystr :=
  match bs with
  | [] => Some []
  | b0 :: r0 =>
      let u0 := byte.unsigned b0 in
      if u0 <? 128 then option_map (cons u0) (decode r0)
      else if u0 <? 194 then None
      else if u0 <? 224 then
        match r0 with
        | b1 :: r1 =>
            if is_cont b1
            then option_map (cons ((u0 - 192) * 64 + low6 b1)) (decode r1)
            else None
        | _ => None
        end
      else if u0 <? 240 then
        match r0 with
        | b1 :: b2 :: r2 =>
            let c := (u0 - 224) * 4096 + low6 b1 * 64 + low6 b2 in
            if is_cont b1 && is_cont b2 && (2048 <=? c)
               && negb ((55296 <=? c) && (c <=? 57343))
            then option_map (cons c) (decode r2)
            else None
        | _ => None
        end
      else if u0 <? 245 then
        match r0 with
        | b1 :: b2 :: b3 :: r3 =>
            let c := (u0 - 240) * 262144 + low6 b1 * 4096 + low6 b2 * 64 + low6 b3 in
            if is_cont b1 && is_cont b2 && is_cont b3
               && (65536 <=? c) && (c <? 1114112)
            then option_map (cons c) (decode r3)
            else None
        | _ => None
        end
      else None
  end.

End Utf8.

(** ** Instructions for the pump.fun program *)

Module Pump.

Import Utf8.

(** A [Pubkey] is its 32 bytes. *)
Definition Pubkey := list byte.

(** [Pubkey.from_string]: the base58 text of an address. *)
Definition Pubkey_from_string (s : string) : Pubkey :=
  match Base58.b58_decode s with
  | Some bs => bs
  | None => []
  end.

Record AccountMeta := mkAccountMeta {
  pubkey : Pubkey;
  is_signer : bool;
  is_writable : bool
}.

Record Instruction := mkInstruction {
  program_id : Pubkey;
  data : list byte;
  accounts : list AccountMeta
}.

(** What [Message.new_with_blockhash] is given. *)
Record Message := mkMessage {
  instructions : list Instruction;
  fee_payer : Pubkey;
  recent_blockhash : string
}.

(** [Pubkey.find_program_address(seeds, program_id)] of solders: the
    address and its bump. *)
Class AddressDeriver := {
  find_program_address : list (list byte) -> Pubkey -> Pubkey * Z
}.

(** The float arithmetic of [native_launch_with_buy]; [None] is the
    exception [int()] raises on an infinity or a NaN. *)
Class FloatArith := {
  float : Type;
  (** [initial_buy_sol > 0] *)
  float_positive : float -> bool;
  (** [int(initial_buy_sol * 1e9)] *)
  sol_to_lamports : float -> option Z;
  (** [int(expected_tokens * (10000 - slippage_bps) / 10000)] *)
  slippage_min_tokens : Z -> Z -> option Z;
  (** [int(sol_lamports * (1 + slippage_bps / 10000))] *)
  slippage_max_sol : Z -> Z -> option Z
}.

Definition PUMP_PROGRAM_ID : Pubkey :=
  Eval vm_compute in Pubkey_from_string "6EF8rrecthR5Dkzon8Nwu78hRvfCKubJ14M5uBEwF6P".
Definition PUMP_GLOBAL : Pubkey :=
  Eval vm_compute in Pubkey_from_string "4wTV1YmiEkRvAtNtsSGPtUrqRYQMe5SKy2uB4Jjaxnjf".
Definition PUMP_FEE_RECIPIENT : Pubkey :=
  Eval vm_compute in Pubkey_from_string "CebN5WGQ4jvEPvsVU4EoHEpgzq1VV7AbicfhtW4xC9iM".
Definition SOUL_TREASURY : Pubkey :=
  Eval vm_compute in Pubkey_from_string "5AwxRzXkUPgrG1p9MAZYTwpxNGadwDXXkav8yCRtN3QP".
Definition SOUL_PLATFORM_FEE : Z := 10000000.
Definition PUMP_EVENT_AUTHORITY : Pubkey :=
  Eval vm_compute in Pubkey_from_string "Ce6TQqeHC9p8KetsN6JsjHK7UTZk7nasjjnr7XxXp9F1".
Definition PUMP_MINT_AUTHORITY : Pubkey :=
  Eval vm_compute in Pubkey_from_string "TSLvdd1pWpHVjahSpsvCXUbgwsL3JAcvokwaKt1eokM".
Definition TOKEN_PROGRAM_ID : Pubkey :=
  Eval vm_compute in Pubkey_from_string "TokenkegQfeZyiNwAJbNbGKPFXCWuBvf9Ss623VQ5DA".
Definition ASSOCIATED_TOKEN_PROGRAM_ID : Pubkey :=
  Eval vm_compute in Pubkey_from_string "ATokenGPvbdGVxr1b2hvZbsiqW5xWH25efTNsLJA8knL".
Definition RENT_PROGRAM_ID : Pubkey :=
  Eval vm_compute in Pubkey_from_string "SysvarRent111111111111111111111111111111111".
Definition MPL_TOKEN_METADATA_PROGRAM_ID : Pubkey :=
  Eval vm_compute in Pubkey_from_string "metaqbxxUerdq28cj1RbAWkYQm3ybzjb6a8bt518x1s".
Definition FEE_PROGRAM_ID : Pubkey :=
  Eval vm_compute in Pubkey_from_string "pfeeUxB6jkeY1Hxd7CsFCAjcbHA9rWtchMGdZ6VojVZ".
(** [solders.system_program.ID] *)
Definition SYSTEM_PROGRAM_ID : Pubkey :=
  Eval vm_compute in Pubkey_from_string "11111111111111111111111111111111".

(** A bytes literal [b"..."]. *)
Definition b (s : string) : list byte := list_byte_of_string s.

(** [bytes([n0, n1, ...])] for small literals. *)
Definition bytes_of (l : list Z) : list byte := map byte.of_Z l.

Section Builders.
Context `{AddressDeriver}.

Definition derive_bonding_curve (mint : Pubkey) : Pubkey :=
  fst (find_program_address [b "bonding-curve"; mint] PUMP_PROGRAM_ID).

Definition derive_associated_bonding_curve (bonding_curve mint : Pubkey) : Pubkey :=
  fst (find_program_address [bonding_curve; TOKEN_PROGRAM_ID; mint]
         ASSOCIATED_TOKEN_PROGRAM_ID).

Definition derive_metadata (mint : Pubkey) : Pubkey :=
  fst (find_program_address [b "metadata"; MPL_TOKEN_METADATA_PROGRAM_ID; mint]
         MPL_TOKEN_METADATA_PROGRAM_ID).

Definition derive_user_ata (user mint : Pubkey) : Pubkey :=
  fst (find_program_address [user; TOKEN_PROGRAM_ID; mint] ASSOCIATED_TOKEN_PROGRAM_ID).

Definition derive_creator_vault (creator : Pubkey) : Pubkey :=
  fst (find_program_address [b "creator-vault"; creator] PUMP_PROGRAM_ID).

Definition derive_global_volume_accumulator : Pubkey :=
  fst (find_program_address [b "global_volume_accumulator"] PUMP_PROGRAM_ID).

Definition derive_user_volume_accumulator (user : Pubkey) : Pubkey :=
  fst (find_program_address [b "user_volume_accumulator"; user] PUMP_PROGRAM_ID).

Definition derive_fee_config : Pubkey :=
  fst (find_program_address [b "fee_config"; PUMP_PROGRAM_ID] FEE_PROGRAM_ID).

(** [encode_string]: [None] when the text cannot be encoded or its length
    does not fit the 4-byte prefix. *)
Definition encode_string (s : pystr) : option (list byte) :=
  match Utf8.encode s with
  | None => None
  | Some encoded =>
      match Py.pack_I (Z.of_nat (length encoded)) with
      | None => None
      | Some prefix => Some (prefix ++ encoded)
      end
  end.

Definition build_create_ata_instruction (payer ata owner mint : Pubkey) : Instruction :=
  let accounts := [
    mkAccountMeta payer true true;
    mkAccountMeta ata false true;
    mkAccountMeta owner false false;
    mkAccountMeta mint false false;
    mkAccountMeta SYSTEM_PROGRAM_ID false false;
    mkAccountMeta TOKEN_PROGRAM_ID false false
  ] in
  mkInstruction ASSOCIATED_TOKEN_PROGRAM_ID [] accounts.

Definition build_transfer_instruction (from_pubkey to_pubkey : Pubkey) (lamports : Z)
  : option Instruction :=
  match Py.pack_I 2, Py.pack_Q lamports with
  | Some idx, Some amount =>
      let data := idx ++ amount in
      let accounts := [
        mkAccountMeta from_pubkey true true;
        mkAccountMeta to_pubkey false true
      ] in
      Some (mkInstruction SYSTEM_PROGRAM_ID data accounts)
  | _, _ => None
  end.

Definition create_discriminator : list byte := bytes_of [24; 30; 200; 40; 5; 28; 7; 119].
Definition buy_discriminator : list byte := bytes_of [102; 6; 61; 18; 1; 218; 235; 234].
Definition sell_discriminator : list byte := bytes_of [51; 230; 133; 164; 1; 127; 131; 173].

Definition build_create_instruction (user mint : Pubkey) (name symbol uri : pystr)
  : option Instruction :=
  let bonding_curve := derive_bonding_curve mint in
  let associated_bonding_curve := derive_associated_bonding_curve bonding_curve mint in
  let metadata := derive_metadata mint in
  let discriminator := create_discriminator in
  match encode_string name, encode_string symbol, encode_string uri with
  | Some ename, Some esymbol, Some euri =>
      let data := discriminator ++ ename ++ esymbol ++ euri ++ user in
      let accounts := [
        mkAccountMeta mint true true;
        mkAccountMeta PUMP_MINT_AUTHORITY false false;
        mkAccountMeta bonding_curve false true;
        mkAccountMeta associated_bonding_curve false true;
        mkAccountMeta PUMP_GLOBAL false false;
        mkAccountMeta MPL_TOKEN_METADATA_PROGRAM_ID false false;
        mkAccountMeta metadata false true;
        mkAccountMeta user true true;
        mkAccountMeta SYSTEM_PROGRAM_ID false false;
        mkAccountMeta TOKEN_PROGRAM_ID false false;
        mkAccountMeta ASSOCIATED_TOKEN_PROGRAM_ID false false;
        mkAccountMeta RENT_PROGRAM_ID false false;
        mkAccountMeta PUMP_EVENT_AUTHORITY false false;
        mkAccountMeta PUMP_PROGRAM_ID false false
      ] in
      Some (mkInstruction PUMP_PROGRAM_ID data accounts)
  | _, _, _ => None
  end.

Definition build_buy_instruction (user mint creator : Pubkey)
    (token_amount max_sol_lamports : Z) : option Instruction :=
  let bonding_curve := derive_bonding_curve mint in
  let associated_bonding_curve := derive_associated_bonding_curve bonding_curve mint in
  let user_ata := derive_user_ata user mint in
  let creator_vault := derive_creator_vault creator in
  let global_volume_acc := derive_global_volume_accumulator in
  let user_volume_acc := derive_user_volume_accumulator user in
  let fee_config := derive_fee_config in
  let discriminator := buy_discriminator in
  let track_volume := 0 in
  match Py.pack_Q token_amount, Py.pack_Q max_sol_lamports with
  | Some amount, Some max_sol_cost =>
      let data := discriminator ++ amount ++ max_sol_cost ++ bytes_of [track_volume] in
      let accounts := [
        mkAccountMeta PUMP_GLOBAL false false;
        mkAccountMeta PUMP_FEE_RECIPIENT false true;
        mkAccountMeta mint false false;
        mkAccountMeta bonding_curve false true;
        mkAccountMeta associated_bonding_curve false true;
        mkAccountMeta user_ata false true;
        mkAccountMeta user true true;
        mkAccountMeta SYSTEM_PROGRAM_ID false false;
        mkAccountMeta TOKEN_PROGRAM_ID false false;
        mkAccountMeta creator_vault false true;
        mkAccountMeta PUMP_EVENT_AUTHORITY false false;
        mkAccountMeta PUMP_PROGRAM_ID false false;
        mkAccountMeta global_volume_acc false false;
        mkAccountMeta user_volume_acc false true;
        mkAccountMeta fee_config false false;
        mkAccountMeta FEE_PROGRAM_ID false false
      ] in
      Some (mkInstruction PUMP_PROGRAM_ID data accounts)
  | _, _ => None
  end.

Definition build_sell_instruction (user mint creator : Pubkey)
    (token_amount min_sol_lamports : Z) : option Instruction :=
  let bonding_curve := derive_bonding_curve mint in
  let associated_bonding_curve := derive_associated_bonding_curve bonding_curve mint in
  let user_ata := derive_user_ata user mint in
  let creator_vault := derive_creator_vault creator in
  let fee_config := derive_fee_config in
  let discriminator := sell_discriminator in
  match Py.pack_Q token_amount, Py.pack_Q min_sol_lamports with
  | Some amount, Some min_sol_output =>
      let data := discriminator ++ amount ++ min_sol_output in
      let accounts := [
        mkAccountMeta PUMP_GLOBAL false false;
        mkAccountMeta PUMP_FEE_RECIPIENT false true;
        mkAccountMeta mint false false;
        mkAccountMeta bonding_curve false true;
        mkAccountMeta associated_bonding_curve false true;
        mkAccountMeta user_ata false true;
        mkAccountMeta user true true;
        mkAccountMeta SYSTEM_PROGRAM_ID false false;
        mkAccountMeta creator_vault false true;
        mkAccountMeta TOKEN_PROGRAM_ID false false;
        mkAccountMeta PUMP_EVENT_AUTHORITY false false;
        mkAccountMeta PUMP_PROGRAM_ID false false;
        mkAccountMeta fee_config false false;
        mkAccountMeta FEE_PROGRAM_ID false false
      ] in
      Some (mkInstruction PUMP_PROGRAM_ID data accounts)
  | _, _ => None
  end.

End Builders.

Section Launch.
Context `{AddressDeriver} `{FloatArith}.

(** [native_launch_with_buy], up to the message it assembles. [mint] is the
    address of the fresh mint keypair and [blockhash] the answer of
    [get_recent_blockhash_native]; signing and sending follow and do not
    change the message. [None]: an exception before the message exists. *)
Definition native_launch_with_buy (user mint : Pubkey) (name symbol uri : pystr)
    (initial_buy_sol : float) (slippage_bps : Z) (blockhash : string)
  : option Message :=
  let instructions := [] in
  platform_fee_ix ← build_transfer_instruction user SOUL_TREASURY SOUL_PLATFORM_FEE;
  let instructions := instructions ++ [platform_fee_ix] in
  create_ix ← build_create_instruction user mint name symbol uri;
  let instructions := instructions ++ [create_ix] in
  if float_positive initial_buy_sol then
    sol_lamports ← sol_to_lamports initial_buy_sol;
    expected_tokens ← BondingCurve.calculate_tokens_for_sol sol_lamports;
    min_tokens ← slippage_min_tokens expected_tokens slippage_bps;
    max_sol_lamports ← slippage_max_sol sol_lamports slippage_bps;
    let user_ata := derive_user_ata user mint in
    let create_ata_ix := build_create_ata_instruction user user_ata user mint in
    let instructions := instructions ++ [create_ata_ix] in
    buy_ix ← build_buy_instruction user mint user min_tokens max_sol_lamports;
    let instructions := instructions ++ [buy_ix] in
    Some (mkMessage instructions user blockhash)
  else
    Some (mkMessage instructions user blockhash).

End Launch.

Section Sell.
Context `{AddressDeriver}.


End Sell.

End Pump.

(** ** Reading the payloads back *)

Module Wire.

Import Utf8 Pump.

(** Little-endian u64, byte by byte: byte [i] is [n / 256^i mod 256]. *)
Definition u64_le (n : Z) : list byte :=
  map (fun i => byte.of_Z (n / 256 ^ i)) [0; 1; 2; 3; 4; 5; 6; 7].

Definition bytes_eqb (x y : list byte) : bool :=
  bool_decide (map byte.unsigned x = map byte.unsigned y).

(** Modelled from the spec: the repository has no reader for the payloads
    it builds (the on-chain program reads them). "Strings are encoded as a
    4-byte little-endian length prefix followed by UTF-8 bytes": take the
    prefix, then that many bytes, and decode them. Returns the string and
    what follows it. *)
Definition decode_string (payload : list byte) : option (pystr * list byte) :=
  n ← Py.unpack_I (firstn 4 payload);
  let body := skipn 4 payload in
  if (Z.to_nat n <=? length body)%nat then
    s ← Utf8.decode (firstn (Z.to_nat n) body);
    Some (s, skipn (Z.to_nat n) body)
  else None.

(** A little-endian u64 field, read as [get_bonding_curve_state] reads the
    reserves: [struct.unpack('<Q', data[offset:offset+8])[0]]. *)
Definition decode_u64 (payload : list byte) : option (Z * list byte) :=
  n ← Py.unpack_Q (firstn 8 payload);
  Some (n, skipn 8 payload).

(** Modelled from the spec: "An optional-boolean argument is encoded as a
    single tag byte: 0 = absent, 1 = present-false, 2 = present-true". *)
Definition decode_option_bool (tag : byte) : option (option bool) :=
  let t := byte.unsigned tag in
  if t =? 0 then Some None
  else if t =? 1 then Some (Some false)
  else if t =? 2 then Some (Some true)
  else None.

(** Modelled from the spec: the create payload is the discriminator, then
    name, symbol and uri as strings, then the creator's 32 bytes. *)
Definition decode_create (payload : list byte)
  : option (pystr * pystr * pystr * Pubkey) :=
  if bytes_eqb (firstn 8 payload) create_discriminator then
    '(name, rest) ← decode_string (skipn 8 payload);
    '(symbol, rest) ← decode_string rest;
    '(uri, rest) ← decode_string rest;
    if (length rest =? 32)%nat then Some (name, symbol, uri, rest) else None
  else None.

(** Modelled from the spec: the buy payload is the discriminator, two u64
    fields and the tag byte of the optional boolean. *)
Definition decode_buy (payload : list byte) : option (Z * Z * option bool) :=
  if bytes_eqb (firstn 8 payload) buy_discriminator then
    '(amount, rest) ← decode_u64 (skipn 8 payload);
    '(max_sol_cost, rest) ← decode_u64 rest;
    match rest with
    | [tag] => track ← decode_option_bool tag; Some (amount, max_sol_cost, track)
    | _ => None
    end
  else None.

(** Modelled from the spec: the sell payload is the discriminator and two
    u64 fields. *)
Definition decode_sell (payload : list byte) : option (Z * Z) :=
  if bytes_eqb (firstn 8 payload) sell_discriminator then
    '(amount, rest) ← decode_u64 (skipn 8 payload);
    '(min_sol_output, rest) ← decode_u64 rest;
    match rest with
    | [] => Some (amount, min_sol_output)
    | _ => None
    end
  else None.

End Wire.

(** ** The bonding-curve account *)

Module CurveState.

Import Pump.

(** The dict [get_bonding_curve_state] returns. *)
Record BondingCurveState := mkState {
  virtual_token_reserves : Z;
  virtual_sol_reserves : Z;
  real_token_reserves : Z;
  real_sol_reserves : Z;
  token_total_supply : Z;
  complete : bool;
  creator : option Pubkey
}.

(** How the call ends: it returns [None], it returns the state, or an
    exception leaves it ([struct.error], [IndexError]). *)
Inductive fetched :=
| NoAccount
| State (st : BondingCurveState)
| Failed.

(** [data[a:b]] *)
Definition slice (a b : nat) (data : list byte) : list byte :=
  firstn (b - a) (skipn a data).

(** [get_bonding_curve_state] from the answer of the RPC node on:
    [account] is the decoded [result["value"]["data"][0]], or [None] when
    the node has no such account. *)
Definition get_bonding_curve_state (account : option (list byte)) : fetched :=
  match account with
  | None => NoAccount
  | Some data =>
      let offset := 8%nat in
      match Py.unpack_Q (slice offset (offset + 8) data),
            Py.unpack_Q (slice (offset + 8) (offset + 16) data),
            Py.unpack_Q (slice (offset + 16) (offset + 24) data),
            Py.unpack_Q (slice (offset + 24) (offset + 32) data),
            Py.unpack_Q (slice (offset + 32) (offset + 40) data),
            nth_error data (offset + 40) with
      | Some vt, Some vs, Some rt, Some rs, Some supply, Some flag =>
          let complete := negb (byte.unsigned flag =? 0) in
          let creator :=
            if (offset + 73 <=? length data)%nat
            then Some (slice (offset + 41) (offset + 73) data)
            else None in
          State (mkState vt vs rt rs supply complete creator)
      | _, _, _, _, _, _ => Failed
      end
  end.

(** The account as its comment lays it out: 8 bytes of discriminator, five
    u64, one bool, the creator's 32 bytes, and whatever follows. *)
Definition account_bytes (discriminator : list byte) (st : BondingCurveState)
    (creator_bytes rest : list byte) : list byte :=
  discriminator
  ++ le_split 8 (virtual_token_reserves st)
  ++ le_split 8 (virtual_sol_reserves st)
  ++ le_split 8 (real_token_reserves st)
  ++ le_split 8 (real_sol_reserves st)
  ++ le_split 8 (token_total_supply st)
  ++ [if complete st then Byte.x01 else Byte.x00]
  ++ creator_bytes ++ rest.

End CurveState.

(** ** Cleaning text from the command line *)

Module Sanitize.

Import Utf8.

(** The class [[\x00-\x08\x0b\x0c\x0e-\x1f\x7f]]. *)
Definition is_control (c : Z) : bool :=
  ((0 <=? c) && (c <=? 8)) || (c =? 11) || (c =? 12)
  || ((14 <=? c) && (c <=? 31)) || (c =? 127).

Definition sanitize_input (text : pystr) : pystr :=
  match text with
  | [] => []
  | _ =>
      let text := List.filter (fun c => negb (is_control c)) text in
      firstn (Z.to_nat 10000) text
  end.

(** [s.startswith(prefix)] *)
Fixpoint startswith (s prefix : pystr) : bool :=
  match prefix, s with
  | [], _ => true
  | p :: prefix', c :: s' => (c =? p) && startswith s' prefix'
  | _ :: _, [] => false
  end.

(** The text "https://". *)
Definition https : pystr := [104; 116; 116; 112; 115; 58; 47; 47].

(** [validate_https_url]: [None] is the ValueError. *)
Definition validate_https_url (url : pystr) : option unit :=
  let url := sanitize_input url in
  if negb (startswith url https) then None else Some tt.

End Sanitize.

(** ** The wallet file, its lock and its backups *)

Module Wallet.

(** What [json.load] returns. Of a float only its truth value is kept. *)
#[warnings="-register-all"]
Inductive json :=
| JNull
| JBool (b : bool)
| JInt (n : Z)
| JFloat (nonzero : bool)
| JStr (s : string)
| JList (l : list json)
| JDict (kv : list (string * json)).

(** A file's text: JSON text is kept parsed, any other text raw. *)
Inductive contents :=
| Json (j : json)
| Raw (text : string).

Record file := mkFile { content : contents; mode : Z }.

(** The files by path, the lock files on which another invocation holds an
    exclusive [flock], and those this invocation holds. Directories,
    console output and the audit log are not part of the state. *)
Record world := mkWorld {
  files : gmap string file;
  flocked : gset string;
  held : gset string
}.

Inductive ExitCode :=
| SUCCESS | GENERAL_ERROR | MISSING_DEPS | NO_WALLET | INVALID_INPUT
| NETWORK_ERROR | API_ERROR | SECURITY_ERROR | USER_CANCELLED | TIMEOUT
| RATE_LIMIT_EXCEEDED | NOT_FOUND.

Inductive exn :=
| FileNotFoundError | JSONDecodeError | KeyError | TypeError | ValueError
| AttributeError | SameFileError | BlockingIOError.

(** How a call ends: a value, an exception, or [sys.exit(code)]. *)
Inductive outcome (A : Type) :=
| Return (a : A)
| Raise (e : exn)
| Exit (code : ExitCode).
Arguments Return {A} a.
Arguments Raise {A} e.
Arguments Exit {A} code.

(** [hashlib.sha256(data).hexdigest()]. *)
Class Hashlib := { sha256_hexdigest : list byte -> string }.

(** [Keypair.from_bytes] of solders accepts or rejects 64 bytes. A [Keypair]
    is kept as its bytes, so [bytes(keypair)] is the keypair itself. *)
Class KeypairLib := { keypair_ok : list byte -> bool }.

(** What the process finds around it. *)
Class Host := {
  (** [Path.home()] *)
  home : string;
  (** [Path(__file__).parent.resolve()] *)
  skill_dir : string;
  (** [get_runtime().wallet_file], the [--wallet-file] option *)
  rt_wallet_file : option string;
  (** [get_runtime().correlation_id] *)
  correlation_id : string;
  HAS_FCNTL : bool;
  (** [Path.with_suffix] of pathlib *)
  with_suffix : string -> string -> string;
  (** [datetime.utcnow().isoformat()] *)
  utcnow_isoformat : string;
  (** [datetime.now().strftime("%Y%m%d_%H%M%S")] *)
  now_strftime : string
}.

Definition Keypair := list byte.
Definition VERSION : string := "3.5.0".

(** The state-and-exception monad of the file operations. *)
Definition M (A : Type) : Type := world -> outcome A * world.

Definition ret {A} (a : A) : M A := fun w => (Return a, w).
Definition raise {A} (e : exn) : M A := fun w => (Raise e, w).
Definition sys_exit {A} (code : ExitCode) : M A := fun w => (Exit code, w).

Definition bind {A B} (c : M A) (k : A -> M B) : M B :=
  fun w =>
    match c w with
    | (Return a, w') => k a w'
    | (Raise e, w') => (Raise e, w')
    | (Exit code, w') => (Exit code, w')
    end.

Notation "x <- c ;; k" := (bind c (fun x => k))
  (at level 100, c at next level, right associativity).
Notation "c ;; k" := (bind c (fun _ => k))
  (at level 100, right associativity).

(** [try: c except Exception: h]: [sys.exit] is not an [Exception]. *)
Definition try_except {A} (c : M A) (h : exn -> M A) : M A :=
  fun w =>
    match c w with
    | (Raise e, w') => h e w'
    | r => r
    end.

(** [try: c except: h]: the bare clause also catches [SystemExit]. *)
Definition try_except_all {A} (c : M A) (h : M A) : M A :=
  fun w =>
    match c w with
    | (Return a, w') => (Return a, w')
    | (_, w') => h w'
    end.

(** [try: c except: pass] *)
Definition try_pass (c : M unit) : M unit :=
  fun w => (Return tt, snd (c w)).

(** [try: c finally: f]. *)
Definition try_finally {A} (c : M A) (f : M unit) : M A :=
  fun w =>
    let '(r, w') := c w in
    match f w' with
    | (Return _, w'') => (r, w'')
    | (Raise e, w'') => (Raise e, w'')
    | (Exit code, w'') => (Exit code, w'')
    end.

Definition update_files (f : gmap string file -> gmap string file) : M unit :=
  fun w => (Return tt, mkWorld (f (files w)) (flocked w) (held w)).

(** [path.exists()] *)
Definition exists_ (path : string) : M bool :=
  fun w => (Return (bool_decide (is_Some (files w !! path))), w).

(** [path.stat().st_mode], the permission bits *)
Definition stat_mode (path : string) : M Z :=
  fun w =>
    match files w !! path with
    | Some f => (Return (mode f), w)
    | None => (Raise FileNotFoundError, w)
    end.

(** [os.open(path, os.O_RDWR | os.O_CREAT)]: a missing file is created,
    empty, with mode 0o755. *)
Definition os_open_creat (path : string) : M string :=
  fun w =>
    match files w !! path with
    | Some _ => (Return path, w)
    | None =>
        (Return path,
         mkWorld (<[path := mkFile (Raw "") 493]> (files w)) (flocked w) (held w))
    end.

(** [fcntl.flock(fd, fcntl.LOCK_EX | fcntl.LOCK_NB)]: fails at once when the
    file is locked through another descriptor, of another invocation or of
    this one. *)
Definition flock_ex_nb (fd : string) : M unit :=
  fun w =>
    if bool_decide (fd ∈ flocked w ∪ held w) then (Raise BlockingIOError, w)
    else (Return tt, mkWorld (files w) (flocked w) ({[fd]} ∪ held w)).

(** [fcntl.flock(fd, fcntl.LOCK_UN); os.close(fd)] *)
Definition flock_un (fd : string) : M unit :=
  fun w => (Return tt, mkWorld (files w) (flocked w) (held w ∖ {[fd]})).

(** [os.chmod(path, m)] *)
Definition chmod (path : string) (m : Z) : M unit :=
  fun w =>
    match files w !! path with
    | Some f => update_files (insert path (mkFile (content f) m)) w
    | None => (Raise FileNotFoundError, w)
    end.

(** [with open(path, 'w') as f: json.dump(value, f)]: a new file gets the
    mode 0o644, an existing one keeps its mode. *)
Definition json_dump (path : string) (value : json) : M unit :=
  fun w =>
    let m := match files w !! path with Some f => mode f | None => 420 end in
    update_files (insert path (mkFile (Json value) m)) w.

(** [with open(path, 'r') as f: json.load(f)] *)
Definition json_load (path : string) : M json :=
  fun w =>
    match files w !! path with
    | None => (Raise FileNotFoundError, w)
    | Some f =>
        match content f with
        | Json j => (Return j, w)
        | Raw _ => (Raise JSONDecodeError, w)
        end
    end.

(** [src.rename(dst)] and [shutil.move(src, dst)] *)
Definition rename (src dst : string) : M unit :=
  fun w =>
    match files w !! src with
    | None => (Raise FileNotFoundError, w)
    | Some f => update_files (fun fs => <[dst := f]> (delete src fs)) w
    end.

(** [path.unlink()] *)
Definition unlink (path : string) : M unit :=
  fun w =>
    match files w !! path with
    | None => (Raise FileNotFoundError, w)
    | Some _ => update_files (delete path) w
    end.

(** [shutil.copy2(src, dst)]: content and mode. *)
Definition copy2 (src dst : string) : M unit :=
  fun w =>
    match files w !! src with
    | None => (Raise FileNotFoundError, w)
    | Some f =>
        if String.eqb src dst then (Raise SameFileError, w)
        else update_files (insert dst f) w
    end.

(** [p / name] *)
Definition join (p name : string) : string := p +:+ "/" +:+ name.

(** [d[key]] and [d.get(key, default)] *)
Fixpoint dict_get (key : string) (kv : list (string * json)) : option json :=
  match kv with
  | [] => None
  | (k, v) :: kv' => if String.eqb k key then Some v else dict_get key kv'
  end.

(** One item of the iterable given to [bytes(...)]. *)
Definition byte_item (j : json) : option byte :=
  match j with
  | JInt n => if (0 <=? n) && (n <? 256) then Some (byte.of_Z n) else None
  | JBool true => Some Byte.x01
  | JBool false => Some Byte.x00
  | _ => None
  end.

Fixpoint byte_items (l : list json) : option (list byte) :=
  match l with
  | [] => Some []
  | j :: l' =>
      match byte_item j, byte_items l' with
      | Some x, Some xs => Some (x :: xs)
      | _, _ => None
      end
  end.

(** [bytes(x)] for a value that came out of [json.load]: a list of small
    integers gives those bytes, an integer [n] gives [n] zero bytes, an
    empty dict gives none; anything else is a TypeError or a ValueError. *)
Definition to_bytes (x : json) : outcome (list byte) :=
  match x with
  | JList l =>
      match byte_items l with
      | Some bs => Return bs
      | None => Raise ValueError
      end
  | JInt n => if 0 <=? n then Return (repeat Byte.x00 (Z.to_nat n)) else Raise ValueError
  | JBool true => Return [Byte.x00]
  | JBool false => Return []
  | JDict [] => Return []
  | JDict (_ :: _) => Raise TypeError
  | JNull | JFloat _ | JStr _ => Raise TypeError
  end.

Definition py_bytes (x : json) : M (list byte) := fun w => (to_bytes x, w).

(** Truth value of a JSON value. *)
Definition truthy (x : json) : bool :=
  match x with
  | JNull => false
  | JBool v => v
  | JInt n => negb (n =? 0)
  | JFloat nonzero => nonzero
  | JStr s => negb (String.eqb s "")
  | JList l => match l with [] => false | _ => true end
  | JDict kv => match kv with [] => false | _ => true end
  end.

(** [x != s] for a string [s]. *)
Definition ne_str (x : json) (s : string) : bool :=
  match x with
  | JStr t => negb (String.eqb t s)
  | _ => true
  end.

(** The message of [verify_wallet_integrity]: a literal, or [str(e)]. *)
Inductive message :=
| Text (s : string)
| StrOf (e : exn).

(** [l[-limit:]] for a list: the last [limit] items; all of them when
    [limit] is 0; without the first [-limit] when [limit] is negative. *)
Definition slice_last {A} (limit : Z) (l : list A) : list A :=
  if limit =? 0 then l
  else if 0 <? limit then skipn (length l - Z.to_nat limit) l
  else skipn (Z.to_nat (- limit)) l.

(** [for x in l: body(x)] *)
Fixpoint for_each {A} (l : list A) (body : A -> M unit) : M unit :=
  match l with
  | [] => ret tt
  | x :: l' => body x ;; for_each l' body
  end.

(** [shutil.copy2(src, dst)] into a directory that may be missing. *)
Definition copy2_into (dir_exists : bool) (src dst : string) : M unit :=
  if dir_exists then copy2 src dst else raise FileNotFoundError.

(** [s[-limit:]] for a [str], character by character. *)
Class StrLib := { str_slice_last : Z -> string -> string }.

Section Operations.
Context `{Host} `{Hashlib} `{KeypairLib} `{StrLib}.

Definition get_data_dir : string := join home ".mintyouragent".

Definition get_wallet_file : string :=
  match rt_wallet_file with
  | Some p => p
  | None => join get_data_dir "wallet.json"
  end.

Definition get_history_file : string := join get_data_dir "history.json".
Definition get_backup_dir : string := join get_data_dir "backups".

(** Only touches the data directory. *)
Definition ensure_data_dir : M unit := ret tt.

(** Console output and the audit log. *)
Definition log_info (msg : string) : M unit := ret tt.
Definition log_error (msg : string) : M unit := ret tt.
Definition Output_warning (msg : string) : M unit := ret tt.
Definition Output_error (msg : string) : M unit := ret tt.

Definition Keypair_from_bytes (raw : list byte) : M Keypair :=
  if keypair_ok raw then ret raw else raise ValueError.

Definition verify_file_permissions (filepath : string) : M bool :=
  present <- exists_ filepath ;;
  if negb present then ret true
  else
    st_mode <- stat_mode filepath ;;
    if negb (Z.land st_mode 63 =? 0) then
      chmod filepath 384 ;;
      ret false
    else ret true.

(** [acquire_file_lock]: the descriptor is named by the path it is open on. *)
Definition acquire_file_lock (filepath : string) : M (option string) :=
  if negb HAS_FCNTL then ret None
  else
    try_except_all
      (fd <- os_open_creat filepath ;;
       flock_ex_nb fd ;;
       ret (Some fd))
      (ret None).

Definition release_file_lock (fd : option string) : M unit :=
  match fd with
  | None => ret tt
  | Some fd => if negb HAS_FCNTL then ret tt else try_pass (flock_un fd)
  end.

Definition compute_wallet_checksum (data : list byte) : string :=
  String.substring 0 8 (sha256_hexdigest data).

Definition load_wallet : M Keypair :=
  ensure_data_dir ;;
  let wallet_file := get_wallet_file in
  present <- exists_ wallet_file ;;
  (if negb present then
     let legacy_file := join skill_dir "wallet.json" in
     legacy <- exists_ legacy_file ;;
     if legacy then
       Output_warning "Migrating wallet from skill directory" ;;
       rename legacy_file wallet_file ;;
       chmod wallet_file 384
     else
       Output_error "No wallet found" ;;
       sys_exit NO_WALLET
   else ret tt) ;;
  was_secure <- verify_file_permissions wallet_file ;;
  (if negb was_secure then Output_warning "Fixed insecure wallet permissions" else ret tt) ;;
  try_except
    (wallet_data <- json_load wallet_file ;;
     keypair_bytes <-
       match wallet_data with
       | JDict kv =>
           item <- match dict_get "bytes" kv with
                   | Some v => ret v
                   | None => raise KeyError
                   end ;;
           keypair_bytes <- py_bytes item ;;
           let stored_checksum :=
             match dict_get "checksum" kv with Some v => v | None => JStr "" end in
           if truthy stored_checksum
              && ne_str stored_checksum (compute_wallet_checksum keypair_bytes)
           then
             Output_error "Wallet integrity check failed" ;;
             log_error "Wallet checksum mismatch" ;;
             sys_exit SECURITY_ERROR
           else ret keypair_bytes
       | _ => py_bytes wallet_data
       end ;;
     Keypair_from_bytes keypair_bytes)
    (fun _ =>
       Output_error "Failed to load wallet" ;;
       sys_exit GENERAL_ERROR).

(** The record [save_wallet] writes. *)
Definition wallet_record (keypair : Keypair) : json :=
  let keypair_bytes := keypair in
  let checksum := compute_wallet_checksum keypair_bytes in
  JDict [
    ("bytes", JList (map (fun x => JInt (byte.unsigned x)) keypair_bytes));
    ("checksum", JStr checksum);
    ("created", JStr (utcnow_isoformat +:+ "Z"));
    ("version", JStr VERSION)
  ].

Definition save_wallet (keypair : Keypair) : M unit :=
  ensure_data_dir ;;
  let wallet_file := get_wallet_file in
  let wallet_data := wallet_record keypair in
  let lock_file := with_suffix wallet_file ".lock" in
  lock_fd <- acquire_file_lock lock_file ;;
  try_finally
    (let temp_file := with_suffix wallet_file ".tmp" in
     json_dump temp_file wallet_data ;;
     chmod temp_file 384 ;;
     rename temp_file wallet_file ;;
     log_info "Wallet saved")
    (release_file_lock lock_fd ;;
     present <- exists_ lock_file ;;
     if present then try_pass (unlink lock_file) else ret tt).

(** [history[-1000:]] *)
Definition last_1000 (l : list json) : list json :=
  skipn (length l - 1000) l.

Definition add_to_history (action : string) (data : list (string * json)) : M unit :=
  try_pass
    (ensure_data_dir ;;
     let history_file := get_history_file in
     present <- exists_ history_file ;;
     history <- (if present then json_load history_file else ret (JList [])) ;;
     match history with
     | JList entries =>
         let entry := JDict ([
           ("timestamp", JStr (utcnow_isoformat +:+ "Z"));
           ("action", JStr action);
           ("correlation_id", JStr correlation_id)
         ] ++ data) in
         json_dump history_file (JList (last_1000 (entries ++ [entry])))
     | _ => raise AttributeError
     end).

Definition create_backup (name : option string) : M string :=
  ensure_data_dir ;;
  let backup_dir := get_backup_dir in
  let timestamp := now_strftime in
  let name :=
    match name with
    | Some n => if String.eqb n "" then "wallet_" +:+ timestamp else n
    | None => "wallet_" +:+ timestamp
    end in
  let backup_file := join backup_dir (name +:+ ".json") in
  let wallet_file := get_wallet_file in
  present <- exists_ wallet_file ;;
  if present then
    copy2 wallet_file backup_file ;;
    chmod backup_file 384 ;;
    log_info "Backup created" ;;
    add_to_history "backup" [("file", JStr backup_file)] ;;
    ret backup_file
  else raise FileNotFoundError.

(** [data.get("bytes", data) if isinstance(data, dict) else data] *)
Definition backup_payload (data : json) : json :=
  match data with
  | JDict kv => match dict_get "bytes" kv with Some v => v | None => data end
  | _ => data
  end.

Definition restore_backup (backup_path : string) : M unit :=
  present <- exists_ backup_path ;;
  (if negb present then raise FileNotFoundError else ret tt) ;;
  data <- json_load backup_path ;;
  keypair_bytes <- py_bytes (backup_payload data) ;;
  Keypair_from_bytes keypair_bytes ;;
  let wallet_file := get_wallet_file in
  present <- exists_ wallet_file ;;
  (if present then create_backup (Some "pre_restore") ;; ret tt else ret tt) ;;
  copy2 backup_path wallet_file ;;
  chmod wallet_file 384 ;;
  log_info "Restored" ;;
  add_to_history "restore" [("from", JStr backup_path)].

(** [safe_delete] *)
Definition safe_delete (filepath : string) : M unit :=
  present <- exists_ filepath ;;
  if negb present then ret tt
  else try_pass (unlink filepath).

(** [verify_wallet_integrity]: the verdict and its message. *)
Definition verify_wallet_integrity : M (bool * message) :=
  try_except
    (let wallet_file := get_wallet_file in
     present <- exists_ wallet_file ;;
     if negb present then ret (false, Text "Wallet file not found")
     else
       wallet_data <- json_load wallet_file ;;
       match wallet_data with
       | JDict kv =>
           keypair_bytes <-
             py_bytes (match dict_get "bytes" kv with Some v => v | None => JList [] end) ;;
           let stored_checksum :=
             match dict_get "checksum" kv with Some v => v | None => JStr "" end in
           if negb (truthy stored_checksum) then ret (false, Text "No checksum stored")
           else
             let actual_checksum := compute_wallet_checksum keypair_bytes in
             if ne_str stored_checksum actual_checksum
             then ret (false, Text "Checksum mismatch")
             else
               Keypair_from_bytes keypair_bytes ;;
               ret (true, Text "Wallet is valid")
       | _ => ret (false, Text "Legacy wallet format")
       end)
    (fun e => ret (false, StrOf e)).

(** [get_history(limit)]: what [history[-limit:]] gives for the value in
    the history file; any failure gives the empty list. *)
Definition get_history (limit : Z) : M json :=
  fun w =>
    match
      (let history_file := get_history_file in
       present <- exists_ history_file ;;
       if present then
         history <- json_load history_file ;;
         match history with
         | JList entries => ret (Some (JList (slice_last limit entries)))
         | JStr text => ret (Some (JStr (str_slice_last limit text)))
         | _ => raise TypeError
         end
       else ret None) w
    with
    | (Return (Some v), w') => (Return v, w')
    | (_, w') => (Return (JList []), w')
    end.

(** [migrate_legacy_wallet]. Directories are not part of the state, and
    this function runs before anything has made the data directory, so
    whether that directory exists at the call is given: [shutil.copy2] into
    a missing directory raises. Moving the wallet makes the directory. *)
Definition migrate_legacy_wallet (home_dir_exists : bool) : M unit :=
  try_pass
    (let home_dir := join home ".mintyouragent" in
     let legacy_wallet := join skill_dir "wallet.json" in
     let home_wallet := join home_dir "wallet.json" in
     legacy <- exists_ legacy_wallet ;;
     present <- exists_ home_wallet ;;
     home_dir_exists <-
       (if legacy && negb present then
          copy2 legacy_wallet home_wallet ;;
          chmod home_wallet 384 ;;
          unlink legacy_wallet ;;
          ret true
        else ret home_dir_exists) ;;
     for_each ["SEED_PHRASE.txt"; "RECOVERY_KEY.txt"; "BACKUP.txt"]
       (fun name =>
          let legacy_file := join skill_dir name in
          let home_file := join home_dir name in
          legacy <- exists_ legacy_file ;;
          present <- exists_ home_file ;;
          if legacy && negb present then
            copy2_into home_dir_exists legacy_file home_file ;;
            chmod home_file 384 ;;
            unlink legacy_file
          else ret tt)).

(** The record of a wallet file holding [raw] and the checksum [checksum]. *)
Definition stored_record (raw : list byte) (checksum : string) : json :=
  JDict [
    ("bytes", JList (map (fun x => JInt (byte.unsigned x)) raw));
    ("checksum", JStr checksum);
    ("created", JStr (utcnow_isoformat +:+ "Z"));
    ("version", JStr VERSION)
  ].

(** The backup in [c] passes the checks of [restore_backup] with the key
    bytes [raw]. *)
Definition valid_backup (c : contents) (raw : list byte) : Prop :=
  exists data,
    c = Json data /\ to_bytes (backup_payload data) = Return raw /\ keypair_ok raw = true.

(** The file [create_backup("pre_restore")] writes. *)
Definition pre_restore_file : string := join get_backup_dir "pre_restore.json".

End Operations.

(** What [acquire_file_lock] does to the files: a missing lock file is
    created, empty. *)
Definition lock_file_opened (filepath : string) (fs : gmap string file)
  : gmap string file :=
  match fs !! filepath with
  | Some _ => fs
  | None => <[filepath := mkFile (Raw "") 493]> fs
  end.

(** What moving one legacy file does to the files: a file at
    [legacy_file] with no counterpart at [home_file] is copied there,
    owner-only, and removed. *)
Definition migrated (legacy_file home_file : string) (fs : gmap string file)
  : gmap string file :=
  match fs !! legacy_file, fs !! home_file with
  | Some f, None => delete legacy_file (<[home_file := mkFile (content f) 384]> fs)
  | _, _ => fs
  end.

End Wallet.

(** ** Stand-ins for the libraries, to run the definitions on examples *)

Module Samples.

(** A deriver that answers with the program id and bump 255. *)
Definition sample_deriver : Pump.AddressDeriver :=
  {| Pump.find_program_address := fun _ program_id => (program_id, 255) |}.

(** Exact arithmetic in place of the floats: an amount of SOL is a number
    of lamports over 10^9, and [int()] truncates an exact quotient. *)
Definition exact_arith : Pump.FloatArith :=
  {| Pump.float := Z;
     Pump.float_positive := fun lamports => 0 <? lamports;
     Pump.sol_to_lamports := fun lamports => Some lamports;
     Pump.slippage_min_tokens := fun expected_tokens slippage_bps =>
       Some (Z.quot (expected_tokens * (10000 - slippage_bps)) 10000);
     Pump.slippage_max_sol := fun sol_lamports slippage_bps =>
       Some (Z.quot (sol_lamports * (10000 + slippage_bps)) 10000) |}.

(** The text "Pepe". *)
Definition sample_name : Utf8.pystr := [80; 101; 112; 101].
(** The text "PEPE". *)
Definition sample_symbol : Utf8.pystr := [80; 69; 80; 69].
(** The text "https://x.io/€". *)
Definition sample_uri : Utf8.pystr :=
  [104; 116; 116; 112; 115; 58; 47; 47; 120; 46; 105; 111; 47; 8364].

(** A stand-in for [Path.with_suffix], for paths whose only dots are in
    the file name: what follows the last dot is replaced. *)
Fixpoint has_dot (s : string) : bool :=
  match s with
  | EmptyString => false
  | String c s' => Ascii.eqb c "." || has_dot s'
  end.

Fixpoint stem (s : string) : string :=
  match s with
  | EmptyString => EmptyString
  | String c s' =>
      if Ascii.eqb c "." && negb (has_dot s') then EmptyString
      else String c (stem s')
  end.

Definition sample_host : Wallet.Host :=
  {| Wallet.home := "/home/ada";
     Wallet.skill_dir := "/opt/skills/mintyouragent";
     Wallet.rt_wallet_file := None;
     Wallet.correlation_id := "1f0c2a9e";
     Wallet.HAS_FCNTL := true;
     Wallet.with_suffix := fun path suffix => stem path +:+ suffix;
     Wallet.utcnow_isoformat := "2025-03-01T12:00:00";
     Wallet.now_strftime := "20250301_120000" |}.

Definition hex_digit (n : Z) : ascii :=
  match String.get (Z.to_nat n) "0123456789abcdef" with
  | Some c => c
  | None => "0"%char
  end.

(** A stand-in for the digest, NOT SHA-256: the bytes in hexadecimal. *)
Fixpoint hex (data : list byte) : string :=
  match data with
  | [] => EmptyString
  | x :: data' =>
      String (hex_digit (byte.unsigned x / 16))
        (String (hex_digit (byte.unsigned x mod 16)) (hex data'))
  end.

Definition sample_hashlib : Wallet.Hashlib := {| Wallet.sha256_hexdigest := hex |}.

(** A stand-in for [Keypair.from_bytes]: any 64 bytes are accepted. *)
Definition sample_keypairs : Wallet.KeypairLib :=
  {| Wallet.keypair_ok := fun raw => (length raw =? 64)%nat |}.

(** Two keys, 64 bytes each. *)
Definition key_a : Wallet.Keypair := repeat Byte.x11 64.
Definition key_b : Wallet.Keypair := repeat Byte.x22 64.

(** The default wallet file and its siblings on the sample host. *)
Definition wallet_path : string := "/home/ada/.mintyouragent/wallet.json".
Definition lock_path : string := "/home/ada/.mintyouragent/wallet.lock".
Definition pre_restore_path : string :=
  "/home/ada/.mintyouragent/backups/pre_restore.json".

(** No wallet yet, and another invocation holds the lock. *)
Definition world_locked : Wallet.world := Wallet.mkWorld ∅ {[ lock_path ]} ∅.

(** The record [save_wallet] writes for a key on the sample host. *)
Definition sample_record (keypair : Wallet.Keypair) : Wallet.json :=
  Wallet.wallet_record (H := sample_host) (H0 := sample_hashlib) keypair.

(** The wallet holds key B; the pre-restore backup holds key A. *)
Definition world_after_bad_restore : Wallet.world :=
  Wallet.mkWorld
    (<[wallet_path := Wallet.mkFile (Wallet.Json (sample_record key_b)) 384]>
       (<[pre_restore_path := Wallet.mkFile (Wallet.Json (sample_record key_a)) 384]> ∅))
    ∅ ∅.

(** [s[-limit:]] byte by byte: right for ASCII text. *)
Definition sample_strlib : Wallet.StrLib :=
  {| Wallet.str_slice_last := fun limit s =>
       string_of_list_ascii (Wallet.slice_last limit (list_ascii_of_string s)) |}.

(** The sample host started with [--wallet-file /home/ada/keys.lock]. *)
Definition keys_lock_host : Wallet.Host :=
  {| Wallet.home := "/home/ada";
     Wallet.skill_dir := "/opt/skills/mintyouragent";
     Wallet.rt_wallet_file := Some "/home/ada/keys.lock";
     Wallet.correlation_id := "1f0c2a9e";
     Wallet.HAS_FCNTL := true;
     Wallet.with_suffix := fun path suffix => stem path +:+ suffix;
     Wallet.utcnow_isoformat := "2025-03-01T12:00:00";
     Wallet.now_strftime := "20250301_120000" |}.

Definition legacy_wallet_path : string := "/opt/skills/mintyouragent/wallet.json".
Definition history_path : string := "/home/ada/.mintyouragent/history.json".

(** The key bytes as [json.load] gives them. *)
Definition key_items (keypair : Wallet.Keypair) : Wallet.json :=
  Wallet.JList (map (fun x => Wallet.JInt (byte.unsigned x)) keypair).

(** Key A saved in the wallet file, readable by all. *)
Definition world_with_wallet : Wallet.world :=
  Wallet.mkWorld
    {[ wallet_path := Wallet.mkFile (Wallet.Json (sample_record key_a)) 420 ]} ∅ ∅.

(** No wallet in the data directory; key A left in the skill directory. *)
Definition world_legacy_only : Wallet.world :=
  Wallet.mkWorld
    {[ legacy_wallet_path := Wallet.mkFile (Wallet.Json (sample_record key_a)) 420 ]} ∅ ∅.

(** A wallet record without a checksum. *)
Definition world_no_checksum : Wallet.world :=
  Wallet.mkWorld
    {[ wallet_path :=
         Wallet.mkFile (Wallet.Json (Wallet.JDict [("bytes", key_items key_a)])) 384 ]} ∅ ∅.

(** A wallet in the legacy format: the list of key bytes. *)
Definition world_legacy_format : Wallet.world :=
  Wallet.mkWorld {[ wallet_path := Wallet.mkFile (Wallet.Json (key_items key_a)) 384 ]} ∅ ∅.

(** A bonding-curve account at its initial reserves, created by key 07..07. *)
Definition sample_curve : CurveState.BondingCurveState :=
  CurveState.mkState 1073000000000000 30000000000 793100000000000 0
    1000000000000000 false (Some (repeat Byte.x07 32)).

Definition sample_account : list byte :=
  CurveState.account_bytes (repeat Byte.x17 8) sample_curve (repeat Byte.x07 32) [Byte.xff].


End Samples.

(** * Properties *)

(** ** Packing and unpacking integers *)

Section PackFacts.
Import Py.

Lemma pack_le_Some width n :
  0 <= n < 2 ^ (8 * Z.of_nat width) ->
  pack_le width n = Some (le_split width n).
Proof.
  intros [Hlo Hhi]. unfold pack_le.
  apply Z.leb_le in Hlo. apply Z.ltb_lt in Hhi.
  now rewrite Hlo, Hhi.
Qed.

Lemma pack_le_inv width n bs :
  pack_le width n = Some bs ->
  0 <= n < 2 ^ (8 * Z.of_nat width) /\ bs = le_split width n.
Proof.
  unfold pack_le.
  destruct (0 <=? n) eqn:Hlo; destruct (n <? 2 ^ (8 * Z.of_nat width)) eqn:Hhi;
    simpl; try discriminate.
  intros [= <-]. apply Z.leb_le in Hlo. apply Z.ltb_lt in Hhi. auto.
Qed.

Lemma pack_le_length width n bs :
  pack_le width n = Some bs -> length bs = width.
Proof.
  intros Hp. apply pack_le_inv in Hp as [_ ->]. apply length_le_split.
Qed.

Lemma unpack_pack width n bs :
  pack_le width n = Some bs -> unpack_le width bs = Some n.
Proof.
  intros Hp. apply pack_le_inv in Hp as [Hn ->].
  unfold unpack_le. rewrite length_le_split, Nat.eqb_refl.
  rewrite le_combine_split, Z.mod_small; [reflexivity | ].
  now rewrite Z.mul_comm.
Qed.

End PackFacts.

(** ** Bonding-curve quotes *)

Section QuoteFacts.
Import BondingCurve.

Lemma floordiv_pos a d : 0 < d -> Py.floordiv a d = Some (a / d).
Proof.
  intros Hd. unfold Py.floordiv.
  destruct (Z.eqb_spec d 0); [lia | reflexivity].
Qed.

(** The quote on a positive input, with the division carried out. *)
Lemma calculate_sol_for_tokens_pos t vT vS :
  0 < t -> 0 < vT ->
  calculate_sol_for_tokens t vT vS = Some (Z.max 0 (vS - vS * vT / (vT + t))).
Proof.
  intros Ht HvT. unfold calculate_sol_for_tokens.
  destruct (Z.leb_spec t 0); [lia | ].
  rewrite floordiv_pos by lia. reflexivity.
Qed.

Lemma calculate_sol_for_tokens_nonpos t vT vS :
  t <= 0 -> calculate_sol_for_tokens t vT vS = Some 0.
Proof.
  intros Ht. unfold calculate_sol_for_tokens.
  destruct (Z.leb_spec t 0); [reflexivity | lia].
Qed.

(** The new SOL reserve never exceeds the old one when tokens come in. *)
Lemma new_virtual_sol_le vS vT t :
  0 <= vS -> 0 < vT -> 0 <= t -> vS * vT / (vT + t) <= vS.
Proof.
  intros HvS HvT Ht.
  apply Z.div_le_upper_bound; [lia | nia].
Qed.

(** With a negative SOL reserve the clamp always applies. *)
Lemma new_virtual_sol_ge_neg vS vT t :
  vS < 0 -> 0 < vT -> 0 <= t -> vS <= vS * vT / (vT + t).
Proof.
  intros HvS HvT Ht.
  apply Z.div_le_lower_bound; [lia | nia].
Qed.

(** More tokens in, a smaller (or equal) new SOL reserve. *)
Lemma new_virtual_sol_antitone vS vT t1 t2 :
  0 <= vS -> 0 < vT -> 0 <= t1 <= t2 ->
  vS * vT / (vT + t2) <= vS * vT / (vT + t1).
Proof.
  intros HvS HvT Ht.
  apply Z.div_le_compat_l; nia.
Qed.

(** C2, as stated, fails: one SOL on the initial reserves does not buy
    34,612,903,225,806 tokens. *)
Lemma calculate_tokens_for_sol_one_sol_not_806 :
  calculate_tokens_for_sol 1000000000 <> Some 34612903225806.
Proof. vm_compute. discriminate. Qed.

(** C2, amended: on the hardcoded initial reserves, one SOL (1,000,000,000
    lamports) buys exactly 34,612,903,225,807 tokens, which is
    1,073,000,000,000,000 - floor(1,073,000,000,000,000 * 30,000,000,000 /
    31,000,000,000); the floor is 1,038,387,096,774,193. *)
Theorem calculate_tokens_for_sol_one_sol :
  calculate_tokens_for_sol 1000000000 = Some 34612903225807 /\
  1073000000000000 * 30000000000 / 31000000000 = 1038387096774193 /\
  1073000000000000 - 1073000000000000 * 30000000000 / 31000000000 = 34612903225807.
Proof. repeat split; vm_compute; reflexivity. Qed.

(** C4: on u64 inputs with a positive token reserve the sell quote of the
    code equals the reference definition (k = vS * vT, newVT = vT + in,
    newVS = floor(k / newVT), result = max(0, vS - newVS)). *)
Theorem calculate_sol_for_tokens_refines_spec
    (tokenAmountIn virtualTokenReserves virtualSolReserves : Z) :
  u64 tokenAmountIn -> u64 virtualTokenReserves -> 0 < virtualTokenReserves ->
  u64 virtualSolReserves ->
  calculate_sol_for_tokens tokenAmountIn virtualTokenReserves virtualSolReserves
  = Some (quoteSolOutForTokensIn_spec
            tokenAmountIn virtualTokenReserves virtualSolReserves).
Proof.
  unfold u64. intros Ht HvT Hpos HvS.
  unfold quoteSolOutForTokensIn_spec.
  destruct (Z.eq_dec tokenAmountIn 0) as [-> | Hne].
  - rewrite calculate_sol_for_tokens_nonpos by lia.
    rewrite Z.add_0_r, Z.div_mul by lia.
    rewrite Z.sub_diag. reflexivity.
  - apply calculate_sol_for_tokens_pos; lia.
Qed.

(** C4 at a sale of 1,000,000 tokens on the initial reserves. *)
Lemma calculate_sol_for_tokens_refines_spec_witness :
  calculate_sol_for_tokens 1000000 1073000000000000 30000000000
  = Some (quoteSolOutForTokensIn_spec 1000000 1073000000000000 30000000000).
Proof.
  apply calculate_sol_for_tokens_refines_spec; unfold u64; lia.
Defined.

(** C5: for a positive token reserve, the sell quote is 0 on input 0, is
    monotonically non-decreasing in the token input, and is never negative
    (and it always returns). *)
Theorem calculate_sol_for_tokens_zero_monotone_nonneg (vT vS : Z) :
  0 < vT ->
  calculate_sol_for_tokens 0 vT vS = Some 0 /\
  (forall t1 t2, t1 <= t2 ->
     exists r1 r2,
       calculate_sol_for_tokens t1 vT vS = Some r1 /\
       calculate_sol_for_tokens t2 vT vS = Some r2 /\
       r1 <= r2) /\
  (forall t r, calculate_sol_for_tokens t vT vS = Some r -> 0 <= r).
Proof.
  intros HvT. split; [ | split].
  - apply calculate_sol_for_tokens_nonpos. lia.
  - intros t1 t2 Hle.
    destruct (Z.le_gt_cases t1 0) as [H1 | H1].
    + rewrite (calculate_sol_for_tokens_nonpos t1) by assumption.
      destruct (Z.le_gt_cases t2 0) as [H2 | H2].
      * rewrite (calculate_sol_for_tokens_nonpos t2) by assumption.
        exists 0, 0. repeat split; lia.
      * rewrite calculate_sol_for_tokens_pos by lia.
        eexists _, _. repeat split. lia.
    + rewrite !calculate_sol_for_tokens_pos by lia.
      eexists _, _. repeat split.
      destruct (Z.le_gt_cases 0 vS) as [HvS | HvS].
      * pose proof (new_virtual_sol_antitone vS vT t1 t2 HvS HvT ltac:(lia)). lia.
      * pose proof (new_virtual_sol_ge_neg vS vT t1 HvS HvT ltac:(lia)).
        pose proof (new_virtual_sol_ge_neg vS vT t2 HvS HvT ltac:(lia)). lia.
  - intros t r.
    destruct (Z.le_gt_cases t 0) as [Ht | Ht].
    + rewrite calculate_sol_for_tokens_nonpos by assumption. intros [= <-]. lia.
    + rewrite calculate_sol_for_tokens_pos by lia. intros [= <-]. lia.
Qed.

(** C5 on the initial reserves. *)
Lemma calculate_sol_for_tokens_zero_monotone_nonneg_witness :
  calculate_sol_for_tokens 0 1073000000000000 30000000000 = Some 0 /\
  (forall t1 t2, t1 <= t2 ->
     exists r1 r2,
       calculate_sol_for_tokens t1 1073000000000000 30000000000 = Some r1 /\
       calculate_sol_for_tokens t2 1073000000000000 30000000000 = Some r2 /\
       r1 <= r2) /\
  (forall t r,
     calculate_sol_for_tokens t 1073000000000000 30000000000 = Some r -> 0 <= r).
Proof.
  apply (calculate_sol_for_tokens_zero_monotone_nonneg 1073000000000000 30000000000).
  lia.
Defined.

End QuoteFacts.

(** ** Base58 *)

Section Base58Facts.
Import Base58.

Lemma append_nil (s : string) : String.append EmptyString s = s.
Proof. reflexivity. Qed.

Lemma append_cons (c : ascii) (s t : string) :
  String.append (String c s) t = String c (String.append s t).
Proof. reflexivity. Qed.

Lemma append_assoc_str (s1 s2 s3 : string) :
  String.append (String.append s1 s2) s3 = String.append s1 (String.append s2 s3).
Proof.
  induction s1 as [ | c s1 IH]; rewrite ?append_cons, ?append_nil;
    [reflexivity | now f_equal].
Qed.

Lemma append_empty_r (s : string) : String.append s EmptyString = s.
Proof.
  induction s as [ | c s IH]; rewrite ?append_cons, ?append_nil;
    [reflexivity | now f_equal].
Qed.

Lemma str_index_alphabet_at (r : Z) :
  0 <= r < 58 -> str_index (alphabet_at r) B58_ALPHABET = Some (Z.to_nat r).
Proof.
  intros Hr. unfold alphabet_at.
  assert (Hn : (Z.to_nat r < 58)%nat) by lia.
  generalize dependent (Z.to_nat r). intros n Hn. clear Hr r.
  do 58 (destruct n as [ | n]; [vm_compute; reflexivity | ]). lia.
Qed.

Lemma alphabet_at_not_one (r : Z) :
  0 < r < 58 -> Ascii.eqb (alphabet_at r) "1" = false.
Proof.
  intros Hr. unfold alphabet_at.
  assert (Hn : (0 < Z.to_nat r < 58)%nat) by lia.
  generalize dependent (Z.to_nat r). intros n Hn. clear Hr r.
  destruct n as [ | n]; [lia | ].
  do 57 (destruct n as [ | n]; [vm_compute; reflexivity | ]). lia.
Qed.

Lemma b58_digits_append fuel : forall num result,
  b58_digits fuel num result
  = String.append (b58_digits fuel num EmptyString) result.
Proof.
  induction fuel as [ | fuel IH]; intros num result; cbn [b58_digits].
  - reflexivity.
  - destruct (num >? 0); [ | reflexivity].
    rewrite (IH _ (String _ result)), (IH _ (String _ EmptyString)).
    rewrite append_assoc_str. reflexivity.
Qed.

Lemma b58_decode_num_append s1 : forall s2 acc,
  b58_decode_num (String.append s1 s2) acc
  = match b58_decode_num s1 acc with
    | Some v => b58_decode_num s2 v
    | None => None
    end.
Proof.
  induction s1 as [ | c s1 IH]; intros s2 acc;
    rewrite ?append_cons, ?append_nil; cbn [b58_decode_num].
  - reflexivity.
  - destruct (str_index c B58_ALPHABET); [apply IH | reflexivity].
Qed.

(** Enough fuel: decoding the digits gives the number back. *)
Lemma b58_decode_num_digits fuel : forall num,
  0 <= num < 2 ^ Z.of_nat fuel ->
  b58_decode_num (b58_digits fuel num EmptyString) 0 = Some num.
Proof.
  induction fuel as [ | fuel IH]; intros num Hnum; cbn [b58_digits].
  - cbn in Hnum. cbn. f_equal. lia.
  - destruct (Z.gtb_spec num 0) as [Hpos | Hz].
    + rewrite b58_digits_append, b58_decode_num_append.
      rewrite IH.
      * cbn [b58_decode_num].
        rewrite str_index_alphabet_at by (apply Z.mod_pos_bound; lia).
        f_equal. rewrite Z2Nat.id by (apply Z.mod_pos_bound; lia).
        pose proof (Z.div_mod num 58 ltac:(lia)). lia.
      * rewrite Nat2Z.inj_succ, Z.pow_succ_r in Hnum by lia.
        split; [apply Z.div_pos; lia | ].
        apply Z.div_lt_upper_bound; lia.
    + cbn. f_equal. lia.
Qed.

(** Enough fuel: the loop has stopped on [num = 0], so more fuel changes
    nothing. *)
Lemma b58_digits_more_fuel fuel : forall num result extra,
  0 <= num < 2 ^ Z.of_nat fuel ->
  b58_digits (fuel + extra) num result = b58_digits fuel num result.
Proof.
  induction fuel as [ | fuel IH]; intros num result extra Hnum.
  - cbn in Hnum. assert (num = 0) as -> by lia.
    destruct extra; reflexivity.
  - cbn [Nat.add b58_digits].
    destruct (Z.gtb_spec num 0) as [Hpos | Hz]; [ | reflexivity].
    apply IH.
    rewrite Nat2Z.inj_succ, Z.pow_succ_r in Hnum by lia.
    split; [apply Z.div_pos; lia | apply Z.div_lt_upper_bound; lia].
Qed.

Lemma starts_not_one_append s1 s2 :
  starts_not_one s1 -> starts_not_one (String.append s1 s2).
Proof. destruct s1; rewrite ?append_cons; cbn; [contradiction | auto]. Qed.

(** Enough fuel: the digits of a positive number do not start with '1'. *)
Lemma b58_digits_starts_not_one fuel : forall num,
  0 < num < 2 ^ Z.of_nat fuel ->
  starts_not_one (b58_digits fuel num EmptyString).
Proof.
  induction fuel as [ | fuel IH]; intros num Hnum; cbn [b58_digits].
  - cbn in Hnum. lia.
  - destruct (Z.gtb_spec num 0) as [Hpos | Hz]; [ | lia].
    rewrite b58_digits_append.
    rewrite Nat2Z.inj_succ, Z.pow_succ_r in Hnum by lia.
    destruct (Z.eq_dec (num / 58) 0) as [Hq | Hq].
    + rewrite Hq.
      replace (b58_digits fuel 0 EmptyString) with EmptyString
        by (destruct fuel; reflexivity).
      rewrite append_nil. cbn. apply alphabet_at_not_one.
      pose proof (Z.div_mod num 58 ltac:(lia)).
      pose proof (Z.mod_pos_bound num 58 ltac:(lia)). lia.
    + apply starts_not_one_append, IH.
      pose proof (Z.div_pos num 58 ltac:(lia) ltac:(lia)).
      split; [lia | apply Z.div_lt_upper_bound; lia].
Qed.

Lemma ones_shift k s :
  String.append (ones k) (String "1" s) = String.append (ones (S k)) s.
Proof.
  induction k as [ | k IH]; cbn [ones] in *; rewrite ?append_cons, ?append_nil in *;
    [reflexivity | now rewrite IH].
Qed.

Lemma pad_ones_spec data : forall result,
  pad_ones data result = String.append (ones (leading_zeros data)) result.
Proof.
  induction data as [ | x data IH]; intros result; cbn [pad_ones leading_zeros].
  - reflexivity.
  - destruct (byte.unsigned x =? 0); [ | reflexivity].
    rewrite IH. apply ones_shift.
Qed.

Lemma b58_decode_num_ones k s :
  b58_decode_num (String.append (ones k) s) 0 = b58_decode_num s 0.
Proof.
  induction k as [ | k IH]; cbn [ones]; rewrite ?append_cons, ?append_nil;
    [reflexivity | exact IH].
Qed.

Lemma leading_ones_ones k s :
  leading_ones (String.append (ones k) s) = (k + leading_ones s)%nat.
Proof.
  induction k as [ | k IH]; cbn [ones]; rewrite ?append_cons, ?append_nil;
    [reflexivity | cbn; now rewrite IH].
Qed.

Lemma leading_ones_starts_not_one s : starts_not_one s -> leading_ones s = O.
Proof. destruct s; cbn; [contradiction | now intros ->]. Qed.

Lemma leading_strip data :
  data = repeat Byte.x00 (leading_zeros data) ++ strip_zeros data.
Proof.
  induction data as [ | x data IH]; cbn [leading_zeros strip_zeros].
  - reflexivity.
  - destruct (Z.eqb_spec (byte.unsigned x) 0) as [Hx | Hx]; [ | reflexivity].
    cbn [repeat app]. rewrite <- IH. f_equal.
    apply byte.unsigned_inj. rewrite Hx. reflexivity.
Qed.

Lemma strip_zeros_head data :
  match strip_zeros data with
  | x :: _ => byte.unsigned x <> 0
  | [] => True
  end.
Proof.
  induction data as [ | x data IH]; cbn [strip_zeros]; [exact I | ].
  destruct (Z.eqb_spec (byte.unsigned x) 0); [exact IH | assumption].
Qed.

Lemma int_from_bytes_big_strip data :
  int_from_bytes_big data = int_from_bytes_big (strip_zeros data).
Proof.
  unfold int_from_bytes_big.
  rewrite (leading_strip data) at 1.
  rewrite rev_app_distr, rev_repeat. apply le_combine_app_0.
Qed.

(** A number whose top byte is not zero needs all its bytes. *)
Lemma int_from_bytes_big_bounds x rest :
  byte.unsigned x <> 0 ->
  2 ^ (8 * Z.of_nat (length rest)) <= int_from_bytes_big (x :: rest)
  < 2 ^ (8 * Z.of_nat (length (x :: rest))).
Proof.
  intros Hx. unfold int_from_bytes_big.
  pose proof (le_combine_bound (rev (x :: rest))) as Hb.
  rewrite length_rev in Hb. split; [ | apply Hb].
  destruct (Z.le_gt_cases (2 ^ (8 * Z.of_nat (length rest)))
              (le_combine (rev (x :: rest)))) as [Hle | Hgt]; [exact Hle | exfalso].
  pose proof (split_le_combine' (rev (x :: rest)) (S (length rest))) as Hs.
  rewrite length_rev in Hs. specialize (Hs eq_refl).
  pose proof (nth_error_le_split (length rest) (S (length rest))
                (le_combine (rev (x :: rest))) ltac:(lia)) as Hn.
  rewrite Hs in Hn. cbn [rev] in Hn.
  rewrite nth_error_app2 in Hn by (rewrite length_rev; lia).
  rewrite length_rev, Nat.sub_diag in Hn. cbn in Hn.
  injection Hn as Hn. apply Hx. rewrite Hn.
  rewrite Z.shiftr_div_pow2 by lia.
  rewrite Z.div_small by (cbn [rev] in *; lia).
  reflexivity.
Qed.

Lemma bit_length_fuel num :
  0 <= num -> num < 2 ^ Z.of_nat (Z.to_nat (bit_length num)).
Proof.
  intros Hnum. unfold bit_length.
  destruct (Z.eqb_spec num 0) as [-> | Hne]; [cbn; lia | ].
  pose proof (Z.log2_nonneg num).
  rewrite Z2Nat.id by lia.
  pose proof (Z.log2_spec num ltac:(lia)). unfold Z.succ in *. lia.
Qed.

(** The fuel [b58_encode] passes is enough: with any more of it the loop
    gives the same text. *)
Lemma b58_encode_fuel_enough data extra :
  let num := int_from_bytes_big data in
  b58_digits (Z.to_nat (bit_length num) + extra) num EmptyString
  = b58_digits (Z.to_nat (bit_length num)) num EmptyString.
Proof.
  intros num. apply b58_digits_more_fuel.
  assert (Hnum : 0 <= num) by (unfold num, int_from_bytes_big; apply le_combine_bound).
  split; [exact Hnum | now apply bit_length_fuel].
Qed.

Lemma byte_count num n :
  (0 < n)%nat ->
  2 ^ (8 * Z.of_nat (n - 1)) <= num < 2 ^ (8 * Z.of_nat n) ->
  Z.to_nat ((bit_length num + 7) / 8) = n.
Proof.
  intros Hn [Hlo Hhi].
  assert (Hpos : 0 < num).
  { pose proof (Z.pow_pos_nonneg 2 (8 * Z.of_nat (n - 1)) ltac:(lia) ltac:(lia)). lia. }
  unfold bit_length. destruct (Z.eqb_spec num 0); [lia | ].
  apply (proj1 (Z.log2_le_pow2 _ _ Hpos)) in Hlo.
  apply (proj1 (Z.log2_lt_pow2 _ _ Hpos)) in Hhi.
  assert (Hq : (Z.log2 num + 1 + 7) / 8 = Z.of_nat n).
  { symmetry. apply (Z.div_unique _ 8 _ (Z.log2 num + 8 - 8 * Z.of_nat n)); lia. }
  rewrite Hq. apply Nat2Z.id.
Qed.

Lemma b58_round_trip data :
  data <> [] ->
  b58_decode (b58_encode data) = Some data /\
  leading_ones (b58_encode data) = leading_zeros data.
Proof.
  intros Hne. unfold b58_encode.
  rewrite pad_ones_spec.
  set (num := int_from_bytes_big data).
  set (digits := b58_digits (Z.to_nat (bit_length num)) num EmptyString).
  assert (Hnum : 0 <= num).
  { unfold num, int_from_bytes_big. apply le_combine_bound. }
  assert (Hdec : b58_decode_num digits 0 = Some num).
  { apply b58_decode_num_digits. split; [exact Hnum | now apply bit_length_fuel]. }
  pose proof (leading_strip data) as Hsplit.
  pose proof (strip_zeros_head data) as Hhead.
  pose proof (int_from_bytes_big_strip data) as Hstrip. fold num in Hstrip.
  destruct (strip_zeros data) as [ | x rest] eqn:Hrest.
  - (* only zero bytes *)
    assert (Hz : num = 0) by (rewrite Hstrip; reflexivity).
    assert (Hd : digits = EmptyString) by (unfold digits; rewrite Hz; reflexivity).
    rewrite Hd, append_empty_r.
    rewrite app_nil_r in Hsplit.
    destruct (leading_zeros data) as [ | k] eqn:Hk; [now rewrite Hsplit in Hne | ].
    cbn [ones]. change (String "1" (ones k)) with (ones (S k)).
    split.
    + unfold b58_decode.
      rewrite <- (append_empty_r (ones (S k))), b58_decode_num_ones.
      cbn [b58_decode_num Z.eqb option_map].
      rewrite leading_ones_ones. cbn [leading_ones].
      rewrite Nat.add_0_r, app_nil_r. f_equal. symmetry. exact Hsplit.
    + rewrite <- (append_empty_r (ones (S k))), leading_ones_ones.
      cbn [leading_ones]. lia.
  - (* a non-zero byte after the zeros *)
    pose proof (int_from_bytes_big_bounds x rest Hhead) as Hb.
    rewrite <- Hstrip in Hb.
    assert (Hpos : 0 < num).
    { pose proof (Z.pow_pos_nonneg 2 (8 * Z.of_nat (length rest)) ltac:(lia) ltac:(lia)).
      lia. }
    assert (Hstart : starts_not_one digits).
    { apply b58_digits_starts_not_one. split; [exact Hpos | now apply bit_length_fuel]. }
    assert (Hres : exists c s,
               String.append (ones (leading_zeros data)) digits = String c s).
    { destruct digits as [ | c s]; [contradiction | ].
      destruct (leading_zeros data); rewrite ?append_nil; cbn [ones];
        rewrite ?append_cons; eauto. }
    destruct Hres as (c & s & Hres). rewrite Hres, <- Hres. clear c s Hres.
    split.
    + unfold b58_decode.
      rewrite b58_decode_num_ones, Hdec.
      destruct (Z.eqb_spec num 0); [lia | ].
      rewrite (byte_count num (length (x :: rest))); cycle 1.
      { cbn [length]. lia. }
      { cbn [length] in *. rewrite Nat.sub_succ, Nat.sub_0_r. exact Hb. }
      unfold int_to_bytes_big. rewrite pack_le_Some by lia.
      cbn [option_map].
      rewrite leading_ones_ones, (leading_ones_starts_not_one _ Hstart), Nat.add_0_r.
      rewrite Hstrip. unfold int_from_bytes_big.
      rewrite split_le_combine' by apply length_rev.
      rewrite rev_involutive. f_equal. symmetry. exact Hsplit.
    + rewrite leading_ones_ones, (leading_ones_starts_not_one _ Hstart). lia.
Qed.

(** C10: for every non-empty byte sequence, decoding its base58 encoding
    gives the sequence back; each leading zero byte is one leading '1' of
    the text; hence the encoding is injective on non-empty sequences. *)
Theorem b58_decode_encode (data : list byte) :
  data <> [] ->
  b58_decode (b58_encode data) = Some data /\
  leading_ones (b58_encode data) = leading_zeros data /\
  (forall data', data' <> [] -> b58_encode data' = b58_encode data -> data' = data).
Proof.
  intros Hne.
  destruct (b58_round_trip data Hne) as [Hrt Hones].
  repeat split; [exact Hrt | exact Hones | ].
  intros data' Hne' Heq.
  destruct (b58_round_trip data' Hne') as [Hrt' _].
  rewrite Heq, Hrt in Hrt'. now injection Hrt'.
Qed.

End Base58Facts.

(** C10 at the bytes 00 00 01 ff. *)
Lemma b58_decode_encode_witness :
  [Byte.x00; Byte.x00; Byte.x01; Byte.xff] <> [] /\
  Base58.b58_decode (Base58.b58_encode [Byte.x00; Byte.x00; Byte.x01; Byte.xff])
  = Some [Byte.x00; Byte.x00; Byte.x01; Byte.xff] /\
  Base58.leading_ones (Base58.b58_encode [Byte.x00; Byte.x00; Byte.x01; Byte.xff])
  = Base58.leading_zeros [Byte.x00; Byte.x00; Byte.x01; Byte.xff] /\
  (forall data', data' <> [] ->
     Base58.b58_encode data' = Base58.b58_encode [Byte.x00; Byte.x00; Byte.x01; Byte.xff] ->
     data' = [Byte.x00; Byte.x00; Byte.x01; Byte.xff]).
Proof.
  assert (Hne : [Byte.x00; Byte.x00; Byte.x01; Byte.xff] <> []) by discriminate.
  split; [exact Hne | ].
  exact (b58_decode_encode [Byte.x00; Byte.x00; Byte.x01; Byte.xff] Hne).
Defined.

(** ** UTF-8 *)

Section Utf8Facts.
Import Utf8.

Lemma unsigned_of_Z_small z : 0 <= z < 256 -> byte.unsigned (byte.of_Z z) = z.
Proof.
  intros Hz. rewrite byte.unsigned_of_Z. unfold byte.wrap.
  apply Z.mod_small. lia.
Qed.

Lemma cont_unsigned z : byte.unsigned (cont z) = 128 + z mod 64.
Proof.
  unfold cont. apply unsigned_of_Z_small.
  pose proof (Z.mod_pos_bound z 64). lia.
Qed.

Lemma is_cont_cont z : is_cont (cont z) = true.
Proof.
  unfold is_cont. rewrite cont_unsigned.
  pose proof (Z.mod_pos_bound z 64 ltac:(lia)).
  apply andb_true_intro. split; [apply Z.leb_le | apply Z.ltb_lt]; lia.
Qed.

Lemma low6_cont z : low6 (cont z) = z mod 64.
Proof. unfold low6. rewrite cont_unsigned. lia. Qed.

Ltac ltb_cases :=
  repeat match goal with
         | |- context [?a <? ?b] =>
             destruct (Z.ltb_spec a b); try (exfalso; Z.div_mod_to_equations; lia)
         | |- context [?a <=? ?b] =>
             destruct (Z.leb_spec a b); try (exfalso; Z.div_mod_to_equations; lia)
         end.

Lemma decode_encode_char c cb rest :
  encode_char c = Some cb ->
  decode (cb ++ rest) = option_map (cons c) (decode rest).
Proof.
  unfold encode_char.
  destruct (Z.ltb_spec c 0); [discriminate | ].
  destruct (Z.ltb_spec c 128).
  { intros [= <-]. cbn [app decode].
    rewrite unsigned_of_Z_small by lia.
    destruct (Z.ltb_spec c 128); [reflexivity | lia]. }
  destruct (Z.ltb_spec c 2048).
  { intros [= <-]. cbn [app decode].
    rewrite unsigned_of_Z_small by (Z.div_mod_to_equations; lia).
    rewrite is_cont_cont, low6_cont.
    ltb_cases.
    f_equal. f_equal. Z.div_mod_to_equations; lia. }
  destruct (Z.ltb_spec c 65536).
  { destruct ((55296 <=? c) && (c <=? 57343)) eqn:Hsur; [discriminate | ].
    intros [= <-]. cbn [app decode].
    rewrite unsigned_of_Z_small by (Z.div_mod_to_equations; lia).
    rewrite !is_cont_cont, !low6_cont.
    assert (Hc : (224 + c / 4096 - 224) * 4096 + (c / 64) mod 64 * 64 + c mod 64 = c)
      by (Z.div_mod_to_equations; lia).
    rewrite Hc, Hsur. cbn [andb negb].
    ltb_cases. reflexivity. }
  destruct (Z.ltb_spec c 1114112); [ | discriminate].
  intros [= <-]. cbn [app decode].
  rewrite unsigned_of_Z_small by (Z.div_mod_to_equations; lia).
  rewrite !is_cont_cont, !low6_cont.
  assert (Hc : (240 + c / 262144 - 240) * 262144 + (c / 4096) mod 64 * 4096
               + (c / 64) mod 64 * 64 + c mod 64 = c)
    by (Z.div_mod_to_equations; lia).
  rewrite Hc. cbn [andb].
  ltb_cases. reflexivity.
Qed.

Lemma decode_encode s bs : encode s = Some bs -> decode bs = Some s.
Proof.
  revert bs. induction s as [ | c s IH]; intros bs; cbn [encode].
  - intros [= <-]. reflexivity.
  - destruct (encode_char c) as [cb | ] eqn:Hc; [ | discriminate].
    destruct (encode s) as [rest | ]; [ | discriminate].
    intros [= <-].
    rewrite (decode_encode_char _ _ _ Hc), (IH rest eq_refl). reflexivity.
Qed.

Lemma encode_char_encodable c :
  0 <= c <= 1114111 -> ~ (55296 <= c <= 57343) ->
  exists cb, encode_char c = Some cb /\ (length cb <= 4)%nat.
Proof.
  intros Hc Hs. unfold encode_char.
  destruct (Z.ltb_spec c 0); [lia | ].
  destruct (Z.ltb_spec c 128); [eexists; split; [reflexivity | simpl; lia] | ].
  destruct (Z.ltb_spec c 2048); [eexists; split; [reflexivity | simpl; lia] | ].
  destruct (Z.ltb_spec c 65536).
  - destruct (Z.leb_spec 55296 c); destruct (Z.leb_spec c 57343); cbn [andb];
      try lia; eexists; (split; [reflexivity | simpl; lia]).
  - destruct (Z.ltb_spec c 1114112); [ | lia].
    eexists; split; [reflexivity | simpl; lia].
Qed.

Lemma encode_encodable s :
  encodable s ->
  exists bs, encode s = Some bs /\ (length bs <= 4 * length s)%nat.
Proof.
  induction 1 as [ | c s [Hc Hs] _ (rest & Hrest & Hlen)]; cbn [encode].
  - exists []. split; [reflexivity | simpl; lia].
  - destruct (encode_char_encodable c Hc Hs) as (cb & Hcb & Hl).
    rewrite Hcb, Hrest. eexists. split; [reflexivity | ].
    rewrite length_app. cbn [length]. lia.
Qed.

End Utf8Facts.

(** ** Payloads *)

Section WireFacts.
Import Utf8 Pump Wire BondingCurve.
Context `{AddressDeriver}.

Lemma firstn_exact {A} (l r : list A) n : length l = n -> firstn n (l ++ r) = l.
Proof. intros <-. rewrite firstn_app, Nat.sub_diag, firstn_all. cbn. apply app_nil_r. Qed.

Lemma skipn_exact {A} (l r : list A) n : length l = n -> skipn n (l ++ r) = r.
Proof. intros <-. rewrite skipn_app, Nat.sub_diag, skipn_all. reflexivity. Qed.

Lemma decode_encode_string s e rest :
  encode_string s = Some e ->
  decode_string (e ++ rest) = Some (s, rest).
Proof.
  unfold encode_string.
  destruct (Utf8.encode s) as [encoded | ] eqn:Henc; [ | discriminate].
  destruct (Py.pack_I _) as [prefix | ] eqn:Hp; [ | discriminate].
  intros [= <-]. unfold decode_string.
  pose proof (pack_le_length _ _ _ Hp) as Hlen.
  rewrite <- !List.app_assoc.
  rewrite (firstn_exact prefix _ 4 Hlen), (skipn_exact prefix _ 4 Hlen).
  unfold Py.unpack_I. rewrite (unpack_pack _ _ _ Hp). cbn [mbind option_bind].
  rewrite Nat2Z.id.
  rewrite length_app.
  destruct (Nat.leb_spec (length encoded) (length encoded + length rest)); [ | lia].
  rewrite (firstn_exact encoded rest _ eq_refl), (skipn_exact encoded rest _ eq_refl).
  rewrite (decode_encode _ _ Henc). reflexivity.
Qed.

Lemma decode_pack_Q n e rest :
  Py.pack_Q n = Some e -> decode_u64 (e ++ rest) = Some (n, rest).
Proof.
  intros Hp. unfold decode_u64.
  pose proof (pack_le_length _ _ _ Hp) as Hlen.
  rewrite (firstn_exact e rest 8 Hlen), (skipn_exact e rest 8 Hlen).
  unfold Py.unpack_Q. rewrite (unpack_pack _ _ _ Hp). reflexivity.
Qed.

Lemma le_split_8_bytes n : le_split 8 n = u64_le n.
Proof.
  unfold u64_le. cbv [le_split map].
  rewrite !Z.shiftr_shiftr by lia.
  rewrite !Z.shiftr_div_pow2 by lia.
  repeat match goal with
         | |- context [Z.pow ?a ?e] =>
             let v := eval vm_compute in (Z.pow a e) in
             change (Z.pow a e) with v
         end.
  rewrite Z.div_1_r. reflexivity.
Qed.

Lemma bytes_eqb_refl (d : list byte) : bytes_eqb d d = true.
Proof. unfold bytes_eqb. apply bool_decide_eq_true. reflexivity. Qed.

(** The payload opens with the discriminator [d], and [x] follows. *)
Ltac strip_discriminator d :=
  cbn [firstn skipn]; rewrite skipn_O;
  replace (bytes_eqb _ d) with true by (symmetry; apply bytes_eqb_refl).

Lemma build_create_instruction_decode user mint name symbol uri ix :
  length user = 32%nat ->
  build_create_instruction user mint name symbol uri = Some ix ->
  decode_create (data ix) = Some (name, symbol, uri, user).
Proof.
  intros Hu. unfold build_create_instruction.
  destruct (encode_string name) as [ename | ] eqn:Hn; [ | discriminate].
  destruct (encode_string symbol) as [esymbol | ] eqn:Hs; [ | discriminate].
  destruct (encode_string uri) as [euri | ] eqn:Hr; [ | discriminate].
  intros [= <-]. cbn [data]. unfold decode_create.
  strip_discriminator create_discriminator.
  rewrite (decode_encode_string _ _ _ Hn). cbn [mbind option_bind].
  rewrite (decode_encode_string _ _ _ Hs). cbn [mbind option_bind].
  rewrite <- (app_nil_r user) at 1.
  rewrite (decode_encode_string _ _ _ Hr). cbn [mbind option_bind].
  rewrite app_nil_r, Hu. reflexivity.
Qed.

Lemma build_buy_instruction_decode user mint creator amount limit ix :
  build_buy_instruction user mint creator amount limit = Some ix ->
  decode_buy (data ix) = Some (amount, limit, None).
Proof.
  unfold build_buy_instruction.
  destruct (Py.pack_Q amount) as [ea | ] eqn:Ha; [ | discriminate].
  destruct (Py.pack_Q limit) as [el | ] eqn:Hl; [ | discriminate].
  intros [= <-]. cbn [data]. unfold decode_buy.
  strip_discriminator buy_discriminator.
  rewrite (decode_pack_Q _ _ _ Ha). cbn [mbind option_bind].
  rewrite (decode_pack_Q _ _ _ Hl). cbn [mbind option_bind].
  reflexivity.
Qed.

Lemma build_sell_instruction_decode user mint creator amount limit ix :
  build_sell_instruction user mint creator amount limit = Some ix ->
  decode_sell (data ix) = Some (amount, limit).
Proof.
  unfold build_sell_instruction.
  destruct (Py.pack_Q amount) as [ea | ] eqn:Ha; [ | discriminate].
  destruct (Py.pack_Q limit) as [el | ] eqn:Hl; [ | discriminate].
  intros [= <-]. cbn [data]. unfold decode_sell.
  strip_discriminator sell_discriminator.
  rewrite (decode_pack_Q _ _ _ Ha). cbn [mbind option_bind].
  rewrite <- (app_nil_r el).
  rewrite (decode_pack_Q _ _ _ Hl). cbn [mbind option_bind].
  reflexivity.
Qed.

(** C6: for u64 arguments [build_buy_instruction] returns an instruction
    whose data is exactly 25 bytes: the discriminator 102, 6, 61, 18, 1,
    218, 235, 234, then token_amount as a little-endian u64, then
    max_sol_lamports as a little-endian u64, then the single tag byte 0
    (the optional track-volume boolean, absent). *)
Theorem build_buy_instruction_data
    (user mint creator : Pubkey) (token_amount max_sol_lamports : Z) :
  u64 token_amount -> u64 max_sol_lamports ->
  exists ix,
    build_buy_instruction user mint creator token_amount max_sol_lamports = Some ix /\
    data ix = bytes_of [102; 6; 61; 18; 1; 218; 235; 234]
              ++ u64_le token_amount ++ u64_le max_sol_lamports ++ [Byte.x00] /\
    length (data ix) = 25%nat.
Proof using Type.
  unfold u64. intros Ht Hm. unfold build_buy_instruction, Py.pack_Q.
  rewrite !pack_le_Some by (change (2 ^ (8 * Z.of_nat 8)) with (2 ^ 64); lia).
  eexists. split; [reflexivity | ]. cbn [data].
  rewrite !le_split_8_bytes. split; reflexivity.
Qed.

Lemma encode_string_Some s :
  encodable s -> short s -> is_Some (encode_string s).
Proof using Type.
  intros He Hs. unfold encode_string.
  destruct (encode_encodable s He) as (bs & -> & Hlen).
  unfold Py.pack_I. rewrite pack_le_Some; [eexists; reflexivity | ].
  unfold short in Hs. change (2 ^ (8 * Z.of_nat 4)) with (2 ^ 32). lia.
Qed.

Lemma build_buy_instruction_Some user mint creator amount limit :
  u64 amount -> u64 limit ->
  is_Some (build_buy_instruction user mint creator amount limit).
Proof using Type.
  unfold u64. intros Ha Hl. unfold build_buy_instruction, Py.pack_Q.
  rewrite !pack_le_Some by (change (2 ^ (8 * Z.of_nat 8)) with (2 ^ 64); lia).
  eexists; reflexivity.
Qed.

Lemma build_sell_instruction_Some user mint creator amount limit :
  u64 amount -> u64 limit ->
  is_Some (build_sell_instruction user mint creator amount limit).
Proof using Type.
  unfold u64. intros Ha Hl. unfold build_sell_instruction, Py.pack_Q.
  rewrite !pack_le_Some by (change (2 ^ (8 * Z.of_nat 8)) with (2 ^ 64); lia).
  eexists; reflexivity.
Qed.

(** C7: what the encoders produce reads back as the arguments. The create
    payload gives back name, symbol, uri (each from its 4-byte
    little-endian byte-length prefix and its UTF-8 bytes) and the creator;
    the buy and sell payloads give back their u64 fields, among them the
    boundary values 0 and 2^64-1. The encoders do produce a payload for
    strings without lone surrogates and for u64 amounts. *)
Theorem encoders_round_trip
    (user mint creator : Pubkey) (name symbol uri : pystr) (amount limit : Z) :
  length user = 32%nat ->
  (forall ix, build_create_instruction user mint name symbol uri = Some ix ->
     decode_create (data ix) = Some (name, symbol, uri, user)) /\
  (forall ix, build_buy_instruction user mint creator amount limit = Some ix ->
     decode_buy (data ix) = Some (amount, limit, None)) /\
  (forall ix, build_sell_instruction user mint creator amount limit = Some ix ->
     decode_sell (data ix) = Some (amount, limit)) /\
  (encodable name -> encodable symbol -> encodable uri ->
   short name -> short symbol -> short uri ->
   is_Some (build_create_instruction user mint name symbol uri)) /\
  (u64 amount -> u64 limit ->
   is_Some (build_buy_instruction user mint creator amount limit) /\
   is_Some (build_sell_instruction user mint creator amount limit)) /\
  (exists ix, build_buy_instruction user mint creator 0 (2 ^ 64 - 1) = Some ix /\
     decode_buy (data ix) = Some (0, 2 ^ 64 - 1, None)) /\
  (exists ix, build_sell_instruction user mint creator (2 ^ 64 - 1) 0 = Some ix /\
     decode_sell (data ix) = Some (2 ^ 64 - 1, 0)).
Proof using Type.
  intros Hu. repeat split.
  - intros ix. now apply build_create_instruction_decode.
  - intros ix. apply build_buy_instruction_decode.
  - intros ix. apply build_sell_instruction_decode.
  - intros Hn Hs Hr Ln Ls Lr. unfold build_create_instruction.
    destruct (encode_string_Some name Hn Ln) as [? ->].
    destruct (encode_string_Some symbol Hs Ls) as [? ->].
    destruct (encode_string_Some uri Hr Lr) as [? ->].
    eexists; reflexivity.
  - now apply build_buy_instruction_Some.
  - now apply build_sell_instruction_Some.
  - destruct (build_buy_instruction_Some user mint creator 0 (2 ^ 64 - 1))
      as [ix Hix]; [unfold u64; lia .. | ].
    exists ix. split; [assumption | ]. now apply build_buy_instruction_decode in Hix.
  - destruct (build_sell_instruction_Some user mint creator (2 ^ 64 - 1) 0)
      as [ix Hix]; [unfold u64; lia .. | ].
    exists ix. split; [assumption | ]. now apply build_sell_instruction_decode in Hix.
Qed.

End WireFacts.

(** C6 at 34,612,903,225,807 tokens for at most 1,010,000,000 lamports. *)
Lemma build_buy_instruction_data_witness :
  BondingCurve.u64 34612903225807 /\ BondingCurve.u64 1010000000 /\
  exists ix,
    Pump.build_buy_instruction (H := Samples.sample_deriver)
      Pump.SOUL_TREASURY Pump.PUMP_GLOBAL Pump.SOUL_TREASURY
      34612903225807 1010000000 = Some ix /\
    Pump.data ix = Pump.bytes_of [102; 6; 61; 18; 1; 218; 235; 234]
              ++ Wire.u64_le 34612903225807 ++ Wire.u64_le 1010000000 ++ [Byte.x00] /\
    length (Pump.data ix) = 25%nat.
Proof.
  assert (Ha : BondingCurve.u64 34612903225807) by (unfold BondingCurve.u64; lia).
  assert (Hb : BondingCurve.u64 1010000000) by (unfold BondingCurve.u64; lia).
  split; [exact Ha | split; [exact Hb | ]].
  exact (build_buy_instruction_data (H := Samples.sample_deriver)
           Pump.SOUL_TREASURY Pump.PUMP_GLOBAL Pump.SOUL_TREASURY
           34612903225807 1010000000 Ha Hb).
Defined.

(** C7 at the create payload of "Pepe" / "PEPE" / "https://x.io/€". *)
Lemma encoders_round_trip_witness :
  length Pump.SOUL_TREASURY = 32%nat /\
  exists ix,
    Pump.build_create_instruction (H := Samples.sample_deriver)
      Pump.SOUL_TREASURY Pump.PUMP_GLOBAL
      Samples.sample_name Samples.sample_symbol Samples.sample_uri = Some ix /\
    Wire.decode_create (Pump.data ix)
    = Some (Samples.sample_name, Samples.sample_symbol, Samples.sample_uri,
            Pump.SOUL_TREASURY).
Proof.
  split; [reflexivity | ].
  destruct (encoders_round_trip (H := Samples.sample_deriver)
              Pump.SOUL_TREASURY Pump.PUMP_GLOBAL Pump.SOUL_TREASURY
              Samples.sample_name Samples.sample_symbol Samples.sample_uri
              0 0 eq_refl) as (Hcreate & _).
  eexists. split; [reflexivity | ].
  apply Hcreate. reflexivity.
Defined.

(** ** The launch transaction *)

Section LaunchFacts.
Import Utf8 Pump BondingCurve.
Context `{AddressDeriver} `{FloatArith}.

Lemma bind_Some {A B} (m : option A) (k : A -> option B) (y : B) :
  m ≫= k = Some y -> exists x, m = Some x /\ k x = Some y.
Proof using Type.
  destruct m as [x | ]; cbn; [eauto | discriminate].
Qed.

(** C8: when [initial_buy_sol > 0] and the launch message is assembled, its
    instructions are, in this order, the platform-fee transfer from the user
    to the treasury, the pump.fun create instruction, the create of the
    user's associated token account, and the buy. *)
Theorem native_launch_with_buy_order
    (user mint : Pubkey) (name symbol uri : pystr)
    (initial_buy_sol : float) (slippage_bps : Z) (blockhash : string)
    (msg : Message) :
  float_positive initial_buy_sol = true ->
  native_launch_with_buy user mint name symbol uri
    initial_buy_sol slippage_bps blockhash = Some msg ->
  exists platform_fee_ix create_ix buy_ix min_tokens max_sol_lamports,
    build_transfer_instruction user SOUL_TREASURY SOUL_PLATFORM_FEE
      = Some platform_fee_ix /\
    build_create_instruction user mint name symbol uri = Some create_ix /\
    build_buy_instruction user mint user min_tokens max_sol_lamports = Some buy_ix /\
    instructions msg =
      [platform_fee_ix;
       create_ix;
       build_create_ata_instruction user (derive_user_ata user mint) user mint;
       buy_ix] /\
    map program_id (instructions msg) =
      [SYSTEM_PROGRAM_ID; PUMP_PROGRAM_ID; ASSOCIATED_TOKEN_PROGRAM_ID; PUMP_PROGRAM_ID] /\
    map pubkey (accounts platform_fee_ix) = [user; SOUL_TREASURY].
Proof using Type.
  intros Hpos. unfold native_launch_with_buy. rewrite Hpos.
  intros Hm.
  apply bind_Some in Hm as (fee_ix & Hfee & Hm).
  apply bind_Some in Hm as (create_ix & Hcreate & Hm).
  apply bind_Some in Hm as (sol_lamports & _ & Hm).
  apply bind_Some in Hm as (expected_tokens & _ & Hm).
  apply bind_Some in Hm as (min_tokens & _ & Hm).
  apply bind_Some in Hm as (max_sol & _ & Hm).
  apply bind_Some in Hm as (buy_ix & Hbuy & Hm).
  injection Hm as <-.
  exists fee_ix, create_ix, buy_ix, min_tokens, max_sol.
  assert (Hfee_shape :
            program_id fee_ix = SYSTEM_PROGRAM_ID /\
            map pubkey (accounts fee_ix) = [user; SOUL_TREASURY]).
  { unfold build_transfer_instruction in Hfee.
    destruct (Py.pack_I 2), (Py.pack_Q SOUL_PLATFORM_FEE); try discriminate.
    injection Hfee as <-. split; reflexivity. }
  assert (Hcreate_prog : program_id create_ix = PUMP_PROGRAM_ID).
  { unfold build_create_instruction in Hcreate.
    destruct (encode_string name), (encode_string symbol), (encode_string uri);
      try discriminate.
    now injection Hcreate as <-. }
  assert (Hbuy_prog : program_id buy_ix = PUMP_PROGRAM_ID).
  { unfold build_buy_instruction in Hbuy.
    destruct (Py.pack_Q min_tokens), (Py.pack_Q max_sol); try discriminate.
    now injection Hbuy as <-. }
  destruct Hfee_shape as [Hfee_prog Hfee_accounts].
  repeat split; try assumption.
  cbn [instructions map app].
  rewrite Hfee_prog, Hcreate_prog, Hbuy_prog. reflexivity.
Qed.

End LaunchFacts.

(** C8 at a launch with an initial buy of one SOL and 1% slippage: the
    message is assembled and has the four instructions in order. *)
Lemma native_launch_with_buy_order_witness :
  exists msg,
    Pump.native_launch_with_buy
      (H := Samples.sample_deriver) (H0 := Samples.exact_arith)
      Pump.PUMP_FEE_RECIPIENT Pump.PUMP_GLOBAL
      Samples.sample_name Samples.sample_symbol Samples.sample_uri
      1000000000 100 "11111111111111111111111111111111" = Some msg /\
    exists platform_fee_ix create_ix buy_ix min_tokens max_sol_lamports,
      Pump.build_transfer_instruction
        Pump.PUMP_FEE_RECIPIENT Pump.SOUL_TREASURY Pump.SOUL_PLATFORM_FEE
        = Some platform_fee_ix /\
      Pump.build_create_instruction (H := Samples.sample_deriver)
        Pump.PUMP_FEE_RECIPIENT Pump.PUMP_GLOBAL
        Samples.sample_name Samples.sample_symbol Samples.sample_uri = Some create_ix /\
      Pump.build_buy_instruction (H := Samples.sample_deriver)
        Pump.PUMP_FEE_RECIPIENT Pump.PUMP_GLOBAL Pump.PUMP_FEE_RECIPIENT
        min_tokens max_sol_lamports = Some buy_ix /\
      Pump.instructions msg =
        [platform_fee_ix;
         create_ix;
         Pump.build_create_ata_instruction Pump.PUMP_FEE_RECIPIENT
           (Pump.derive_user_ata (H := Samples.sample_deriver)
              Pump.PUMP_FEE_RECIPIENT Pump.PUMP_GLOBAL)
           Pump.PUMP_FEE_RECIPIENT Pump.PUMP_GLOBAL;
         buy_ix] /\
      map Pump.program_id (Pump.instructions msg) =
        [Pump.SYSTEM_PROGRAM_ID; Pump.PUMP_PROGRAM_ID;
         Pump.ASSOCIATED_TOKEN_PROGRAM_ID; Pump.PUMP_PROGRAM_ID] /\
      map Pump.pubkey (Pump.accounts platform_fee_ix)
      = [Pump.PUMP_FEE_RECIPIENT; Pump.SOUL_TREASURY].
Proof.
  eexists. split; [vm_compute; reflexivity | ].
  eapply (@native_launch_with_buy_order
            Samples.sample_deriver Samples.exact_arith
            Pump.PUMP_FEE_RECIPIENT Pump.PUMP_GLOBAL
            Samples.sample_name Samples.sample_symbol Samples.sample_uri
            1000000000 100 "11111111111111111111111111111111").
  - reflexivity.
  - vm_compute. reflexivity.
Defined.

(** ** The wallet file *)

Section WalletFacts.
Import Wallet.
Context `{Host} `{Hashlib} `{KeypairLib}.

Lemma byte_items_of_bytes (raw : list byte) :
  byte_items (map (fun x => JInt (byte.unsigned x)) raw) = Some raw.
Proof.
  induction raw as [ | x raw IH]; cbn [map byte_items]; [reflexivity | ].
  rewrite IH. cbn [byte_item].
  pose proof (byte.unsigned_range x) as [Hlo Hhi].
  change (2 ^ 8) with 256 in Hhi.
  apply Z.leb_le in Hlo. apply Z.ltb_lt in Hhi. rewrite Hlo, Hhi. cbn [andb].
  now rewrite byte.of_Z_unsigned.
Qed.

Lemma acquire_file_lock_spec filepath w :
  acquire_file_lock filepath w =
    if negb HAS_FCNTL then (Return None, w)
    else if bool_decide (filepath ∈ flocked w ∪ held w)
    then (Return None, mkWorld (lock_file_opened filepath (files w)) (flocked w) (held w))
    else (Return (Some filepath),
          mkWorld (lock_file_opened filepath (files w)) (flocked w)
            ({[filepath]} ∪ held w)).
Proof.
  unfold acquire_file_lock, lock_file_opened.
  destruct HAS_FCNTL; cbn [negb]; [ | reflexivity].
  unfold try_except_all, bind, os_open_creat, flock_ex_nb, ret.
  destruct w as [fs fl hd]. cbn [files flocked held].
  destruct (fs !! filepath); cbn [files flocked held];
    destruct (bool_decide (filepath ∈ fl ∪ hd)); reflexivity.
Qed.

Lemma write_and_rename temp_file wallet_file record w :
  (json_dump temp_file record ;;
   chmod temp_file 384 ;;
   rename temp_file wallet_file ;;
   log_info "Wallet saved") w
  = (Return tt,
     mkWorld (<[wallet_file := mkFile (Json record) 384]> (delete temp_file (files w)))
       (flocked w) (held w)).
Proof.
  unfold bind, json_dump, chmod, rename, update_files, log_info, ret.
  cbn [files flocked held].
  rewrite lookup_insert_eq. cbn [files flocked held content].
  rewrite lookup_insert_eq. cbn [files flocked held].
  rewrite !insert_insert_eq, delete_insert_eq. reflexivity.
Qed.

Lemma release_and_unlink fd lock_file w :
  (release_file_lock fd ;;
   present <- exists_ lock_file ;;
   if present then try_pass (unlink lock_file) else ret tt) w
  = (Return tt,
     mkWorld (delete lock_file (files w)) (flocked w)
       (match fd with
        | Some p => if negb HAS_FCNTL then held w else held w ∖ {[p]}
        | None => held w
        end)).
Proof.
  destruct w as [fs fl hd].
  unfold bind, release_file_lock, exists_, try_pass, flock_un, unlink, update_files, ret.
  destruct fd as [p | ]; [destruct HAS_FCNTL | ];
    cbn [negb files flocked held fst snd];
    (destruct (fs !! lock_file) as [f | ] eqn:Hf;
     [ rewrite bool_decide_eq_true_2 by eauto
     | rewrite bool_decide_eq_false_2 by (intros [? ?]; discriminate) ];
     cbn [files flocked held fst snd]; rewrite ?Hf; cbn [files flocked held fst snd];
     rewrite ?(delete_id _ _ Hf); reflexivity).
Qed.

(** [save_wallet] always goes through: it ends with the record in the
    wallet file, whatever the state of the lock. *)
Lemma save_wallet_spec keypair w :
  with_suffix get_wallet_file ".lock" <> get_wallet_file ->
  exists fs,
    save_wallet keypair w = (Return tt, mkWorld fs (flocked w) (held w)) /\
    fs !! get_wallet_file = Some (mkFile (Json (wallet_record keypair)) 384).
Proof.
  intros Hlock.
  unfold save_wallet, ensure_data_dir.
  unfold bind at 1. cbn [ret].
  unfold bind at 1. rewrite acquire_file_lock_spec.
  destruct (negb HAS_FCNTL) eqn:Hfcntl;
    [ | destruct (bool_decide (_ ∈ flocked w ∪ held w)) eqn:Hheld ];
    unfold try_finally; rewrite write_and_rename, release_and_unlink;
    cbn [files flocked held]; rewrite ?Hfcntl;
    eexists; (split; [f_equal; f_equal | ]).
  all: try (rewrite lookup_delete_ne by exact Hlock; apply lookup_insert_eq).
  apply bool_decide_eq_false in Hheld.
  apply set_eq. intros p.
  rewrite elem_of_difference, elem_of_union, elem_of_singleton.
  rewrite elem_of_union in Hheld.
  split; [intros [[-> | Hp] Hn]; [contradiction | exact Hp] | ].
  intros Hp. split; [now right | ]. intros ->. apply Hheld. now right.
Qed.


Lemma bind_return {A B} (c : M A) (k : A -> M B) w a w' :
  c w = (Return a, w') -> bind c k w = k a w'.
Proof. intros Hc. unfold bind. now rewrite Hc. Qed.

Lemma bind_raise {A B} (c : M A) (k : A -> M B) w e w' :
  c w = (Raise e, w') -> bind c k w = (Raise e, w').
Proof. intros Hc. unfold bind. now rewrite Hc. Qed.

Lemma exists_present path f w :
  files w !! path = Some f -> exists_ path w = (Return true, w).
Proof.
  intros Hf. unfold exists_. now rewrite bool_decide_eq_true_2 by eauto.
Qed.

Lemma exists_absent path w :
  files w !! path = None -> exists_ path w = (Return false, w).
Proof.
  intros Hf. unfold exists_. rewrite Hf.
  now rewrite bool_decide_eq_false_2 by (intros [? ?]; discriminate).
Qed.

Lemma verify_file_permissions_secure path c w :
  files w !! path = Some (mkFile c 384) ->
  verify_file_permissions path w = (Return true, w).
Proof.
  intros Hf. unfold verify_file_permissions.
  rewrite (bind_return _ _ _ _ _ (exists_present _ _ _ Hf)). cbn [negb].
  rewrite (bind_return _ _ w 384 w) by (unfold stat_mode; now rewrite Hf).
  reflexivity.
Qed.

Lemma json_load_json path j m w :
  files w !! path = Some (mkFile (Json j) m) -> json_load path w = (Return j, w).
Proof. intros Hf. unfold json_load. now rewrite Hf. Qed.

(** Loading a wallet file that holds the bytes [raw] and the checksum
    [checksum], with owner-only permissions. *)
Lemma load_wallet_stored raw checksum w :
  files w !! get_wallet_file = Some (mkFile (Json (stored_record raw checksum)) 384) ->
  load_wallet w =
    (if negb (String.eqb checksum "")
        && negb (String.eqb checksum (compute_wallet_checksum raw))
     then Exit SECURITY_ERROR
     else if keypair_ok raw then Return raw else Exit GENERAL_ERROR,
     w).
Proof.
  intros Hfile. unfold load_wallet.
  rewrite (bind_return _ _ w tt w) by reflexivity.
  rewrite (bind_return _ _ _ _ _ (exists_present _ _ _ Hfile)).
  cbn [negb].
  rewrite (bind_return _ _ w tt w) by reflexivity.
  rewrite (bind_return _ _ _ _ _ (verify_file_permissions_secure _ _ _ Hfile)).
  cbn [negb].
  rewrite (bind_return _ _ w tt w) by reflexivity.
  unfold try_except.
  rewrite (bind_return _ _ _ _ _ (json_load_json _ _ _ _ Hfile)).
  unfold stored_record at 1.
  change (dict_get "bytes" _) with (Some (JList (map (fun x => JInt (byte.unsigned x)) raw))).
  change (dict_get "checksum" _) with (Some (JStr checksum)).
  cbv [bind ret raise sys_exit py_bytes Output_error log_error Keypair_from_bytes].
  cbn [to_bytes]. rewrite byte_items_of_bytes.
  cbn [truthy ne_str].
  destruct (negb (String.eqb checksum "")
            && negb (String.eqb checksum (compute_wallet_checksum raw)));
    [reflexivity | ].
  destruct (keypair_ok raw); reflexivity.
Qed.

Lemma wallet_record_stored keypair :
  wallet_record keypair = stored_record keypair (compute_wallet_checksum keypair).
Proof. reflexivity. Qed.

(** Round trip: what [save_wallet] wrote, [load_wallet] returns. *)
Lemma load_wallet_after_save keypair w :
  with_suffix get_wallet_file ".lock" <> get_wallet_file ->
  keypair_ok keypair = true ->
  fst (load_wallet (snd (save_wallet keypair w))) = Return keypair.
Proof.
  intros Hlock Hok.
  destruct (save_wallet_spec keypair w Hlock) as (fs & -> & Hfs).
  cbn [snd]. rewrite wallet_record_stored in Hfs.
  rewrite (load_wallet_stored _ _ (mkWorld fs _ _) Hfs). cbn [fst].
  rewrite String.eqb_refl, Hok. cbn [negb]. now rewrite andb_false_r.
Qed.

(** A wallet file whose key bytes were altered to [raw'] while the checksum
    of [keypair] stayed: the load ends with SECURITY_ERROR exactly when the
    8-digit checksum of the altered bytes differs from the stored one. *)
Lemma load_wallet_altered keypair raw' w :
  compute_wallet_checksum keypair <> "" ->
  files w !! get_wallet_file
    = Some (mkFile (Json (stored_record raw' (compute_wallet_checksum keypair))) 384) ->
  (compute_wallet_checksum raw' <> compute_wallet_checksum keypair ->
   fst (load_wallet w) = Exit SECURITY_ERROR) /\
  (compute_wallet_checksum raw' = compute_wallet_checksum keypair ->
   fst (load_wallet w) = if keypair_ok raw' then Return raw' else Exit GENERAL_ERROR).
Proof.
  intros Hne Hfile. rewrite (load_wallet_stored _ _ _ Hfile). cbn [fst].
  apply String.eqb_neq in Hne. rewrite Hne. cbn [negb andb].
  split; intros Hsum.
  - apply not_eq_sym, String.eqb_neq in Hsum. now rewrite Hsum.
  - rewrite Hsum, String.eqb_refl. reflexivity.
Qed.


Lemma to_bytes_no_exit x code : to_bytes x <> Exit code.
Proof.
  destruct x as [ | [ | ] | n | | | l | [ | ? ?]]; cbn [to_bytes]; try discriminate.
  - destruct (0 <=? n); discriminate.
  - destruct (byte_items l); discriminate.
Qed.

(** [restore_backup] checks the backup first: when the backup is missing or
    does not pass, an exception is raised and nothing has been written. *)
Lemma restore_backup_validates_first backup_path w :
  (forall f raw, files w !! backup_path = Some f -> ~ valid_backup (content f) raw) ->
  exists e, restore_backup backup_path w = (Raise e, w).
Proof.
  intros Hinvalid. unfold restore_backup.
  destruct (files w !! backup_path) as [f | ] eqn:Hf.
  - rewrite (bind_return _ _ _ _ _ (exists_present _ _ _ Hf)). cbn [negb].
    rewrite (bind_return _ _ w tt w) by reflexivity.
    destruct f as [[data | text] m].
    + rewrite (bind_return _ _ _ _ _ (json_load_json _ _ _ _ Hf)).
      destruct (to_bytes (backup_payload data)) as [raw | e | code] eqn:Hb.
      * rewrite (bind_return _ _ w raw w) by (unfold py_bytes; now rewrite Hb).
        destruct (keypair_ok raw) eqn:Hok.
        -- exfalso. apply (Hinvalid _ raw eq_refl). exists data. auto.
        -- exists ValueError. apply bind_raise.
           unfold Keypair_from_bytes. now rewrite Hok.
      * exists e. apply bind_raise. unfold py_bytes. now rewrite Hb.
      * now apply to_bytes_no_exit in Hb.
    + exists JSONDecodeError. apply bind_raise.
      unfold json_load. now rewrite Hf.
  - rewrite (bind_return _ _ _ _ _ (exists_absent _ _ Hf)). cbn [negb].
    exists FileNotFoundError. now apply bind_raise.
Qed.

(** [add_to_history] never fails and touches the history file only. *)
Lemma add_to_history_spec action data w :
  exists fs,
    add_to_history action data w = (Return tt, mkWorld fs (flocked w) (held w)) /\
    forall path, path <> get_history_file -> fs !! path = files w !! path.
Proof.
  unfold add_to_history, try_pass.
  rewrite (bind_return _ _ w tt w) by reflexivity.
  destruct (files w !! get_history_file) as [[c m] | ] eqn:Hh.
  - rewrite (bind_return _ _ _ _ _ (exists_present _ _ _ Hh)).
    destruct c as [j | text].
    + rewrite (bind_return _ _ _ _ _ (json_load_json _ _ _ _ Hh)).
      destruct j; cbn [snd raise json_dump update_files files flocked held].
      all: try (exists (files w); split; [destruct w; reflexivity | reflexivity]).
      eexists; split; [reflexivity | ]. intros path Hpath. cbn [files].
      now rewrite lookup_insert_ne by congruence.
    + rewrite (bind_raise _ _ w JSONDecodeError w)
        by (unfold json_load; now rewrite Hh).
      exists (files w); split; [destruct w; reflexivity | reflexivity].
  - rewrite (bind_return _ _ _ _ _ (exists_absent _ _ Hh)).
    rewrite (bind_return _ _ w (JList []) w) by reflexivity.
    cbn [snd json_dump update_files files flocked held].
    eexists; split; [reflexivity | ]. intros path Hpath. cbn [files].
    now rewrite lookup_insert_ne by congruence.
Qed.

(** [create_backup("pre_restore")] copies the wallet file, with owner-only
    permissions, and changes nothing else but the history. *)
Lemma create_backup_pre_restore old w :
  files w !! get_wallet_file = Some old ->
  pre_restore_file <> get_wallet_file ->
  pre_restore_file <> get_history_file ->
  exists fs,
    create_backup (Some "pre_restore") w
      = (Return pre_restore_file, mkWorld fs (flocked w) (held w)) /\
    fs !! pre_restore_file = Some (mkFile (content old) 384) /\
    forall path, path <> pre_restore_file -> path <> get_history_file ->
      fs !! path = files w !! path.
Proof.
  intros Hold Hpw Hph. unfold create_backup.
  rewrite (bind_return _ _ w tt w) by reflexivity.
  change (if String.eqb "pre_restore" "" then _ else _) with "pre_restore".
  change (join get_backup_dir ("pre_restore" +:+ ".json")) with pre_restore_file.
  rewrite (bind_return _ _ _ _ _ (exists_present _ _ _ Hold)).
  set (w1 := mkWorld (<[pre_restore_file := old]> (files w)) (flocked w) (held w)).
  rewrite (bind_return _ _ w tt w1).
  2:{ unfold copy2. rewrite Hold.
      destruct (String.eqb_spec get_wallet_file pre_restore_file); [congruence | ].
      reflexivity. }
  set (w2 := mkWorld (<[pre_restore_file := mkFile (content old) 384]> (files w))
               (flocked w) (held w)).
  rewrite (bind_return _ _ w1 tt w2).
  2:{ unfold chmod, w1, w2, update_files. cbn [files flocked held].
      rewrite lookup_insert_eq. cbn [files flocked held].
      now rewrite insert_insert_eq. }
  rewrite (bind_return _ _ w2 tt w2) by reflexivity.
  destruct (add_to_history_spec "backup" [("file", JStr pre_restore_file)] w2)
    as (fs & Hhist & Hfs).
  rewrite (bind_return _ _ _ _ _ Hhist).
  exists fs. split; [reflexivity | split].
  - rewrite (Hfs _ Hph). unfold w2. cbn [files]. apply lookup_insert_eq.
  - intros path Hp Hh. rewrite (Hfs _ Hh). unfold w2. cbn [files].
    now rewrite lookup_insert_ne by congruence.
Qed.


(** The flaw behind C9, in general: restoring from the pre-restore backup
    itself. The backup is overwritten with the current wallet before it is
    copied, so the wallet keeps its content and the backup's is lost. *)
Lemma restore_backup_from_pre_restore f raw old w :
  files w !! pre_restore_file = Some f ->
  valid_backup (content f) raw ->
  files w !! get_wallet_file = Some old ->
  pre_restore_file <> get_wallet_file ->
  pre_restore_file <> get_history_file ->
  get_wallet_file <> get_history_file ->
  exists fs,
    restore_backup pre_restore_file w = (Return tt, mkWorld fs (flocked w) (held w)) /\
    fs !! pre_restore_file = Some (mkFile (content old) 384) /\
    fs !! get_wallet_file = Some (mkFile (content old) 384).
Proof.
  intros Hf (data & Hdata & Hbytes & Hok) Hold Hpw Hph Hwh.
  unfold restore_backup.
  rewrite (bind_return _ _ _ _ _ (exists_present _ _ _ Hf)). cbn [negb].
  rewrite (bind_return _ _ w tt w) by reflexivity.
  destruct f as [c m]. cbn [content] in *. subst c.
  rewrite (bind_return _ _ _ _ _ (json_load_json _ _ _ _ Hf)).
  rewrite (bind_return _ _ w raw w) by (unfold py_bytes; now rewrite Hbytes).
  rewrite (bind_return _ _ w raw w) by (unfold Keypair_from_bytes; now rewrite Hok).
  rewrite (bind_return _ _ _ _ _ (exists_present _ _ _ Hold)).
  destruct (create_backup_pre_restore old w Hold Hpw Hph) as (fs1 & Hcb & Hpre & Hrest).
  set (w1 := mkWorld fs1 (flocked w) (held w)) in *.
  rewrite (bind_return _ _ w tt w1).
  2:{ rewrite (bind_return _ _ _ _ _ Hcb). reflexivity. }
  set (w2 := mkWorld (<[get_wallet_file := mkFile (content old) 384]> fs1)
               (flocked w) (held w)).
  rewrite (bind_return _ _ w1 tt w2).
  2:{ unfold copy2, w1. cbn [files]. rewrite Hpre.
      destruct (String.eqb_spec pre_restore_file get_wallet_file); [congruence | ].
      reflexivity. }
  rewrite (bind_return _ _ w2 tt w2).
  2:{ unfold chmod, w2, update_files. cbn [files flocked held].
      rewrite lookup_insert_eq. cbn [files flocked held content].
      now rewrite insert_insert_eq. }
  rewrite (bind_return _ _ w2 tt w2) by reflexivity.
  destruct (add_to_history_spec "restore" [("from", JStr pre_restore_file)] w2)
    as (fs & Hhist & Hfs).
  exists fs. split; [exact Hhist | split].
  - rewrite (Hfs _ Hph). unfold w2. cbn [files].
    now rewrite lookup_insert_ne by congruence.
  - rewrite (Hfs _ Hwh). unfold w2. cbn [files]. apply lookup_insert_eq.
Qed.

End WalletFacts.

Section WalletExamples.
Import Wallet Samples.
Existing Instances sample_host sample_hashlib sample_keypairs.



(** C9 fails on the code at this input: the wallet holds key B and the
    pre-restore backup holds key A, a valid backup. Restoring from that
    backup returns normally, yet the wallet file still holds key B, and so
    does the backup now: the wallet was not replaced with the content of the
    backup, and key A is gone. *)
Theorem restore_backup_pre_restore_alias :
  valid_backup (Json (wallet_record key_a)) key_a /\
  files world_after_bad_restore !! pre_restore_path
    = Some (mkFile (Json (wallet_record key_a)) 384) /\
  files world_after_bad_restore !! get_wallet_file
    = Some (mkFile (Json (wallet_record key_b)) 384) /\
  fst (restore_backup pre_restore_path world_after_bad_restore) = Return tt /\
  files (snd (restore_backup pre_restore_path world_after_bad_restore)) !! get_wallet_file
    = Some (mkFile (Json (wallet_record key_b)) 384) /\
  files (snd (restore_backup pre_restore_path world_after_bad_restore)) !! pre_restore_path
    = Some (mkFile (Json (wallet_record key_b)) 384) /\
  wallet_record key_a <> wallet_record key_b.
Proof.
  split.
  { eexists. repeat split; vm_compute; reflexivity. }
  repeat split; try (vm_compute; reflexivity).
  vm_compute. discriminate.
Qed.

End WalletExamples.

(** * Further properties of the code *)

(** ** The two quotes together *)

Section MoreQuoteFacts.
Import BondingCurve.

(** The buy quote with the division carried out. *)
Lemma calculate_tokens_for_sol_value s :
  30000000000 + s <> 0 ->
  calculate_tokens_for_sol s
  = Some (1073000000000000 - 1073000000000000 * 30000000000 / (30000000000 + s)).
Proof.
  intros Hs. unfold calculate_tokens_for_sol, Py.floordiv.
  destruct (Z.eqb_spec (30000000000 + s) 0); [contradiction | reflexivity].
Qed.

(** X1: on a non-negative amount of lamports the buy quote returns; it gives
    nothing for nothing, never less for more, and never more tokens than
    the initial virtual reserve holds. *)
Theorem calculate_tokens_for_sol_monotone_bounded :
  calculate_tokens_for_sol 0 = Some 0 /\
  forall s1 s2, 0 <= s1 <= s2 ->
    exists out1 out2,
      calculate_tokens_for_sol s1 = Some out1 /\
      calculate_tokens_for_sol s2 = Some out2 /\
      0 <= out1 <= out2 /\ out2 <= 1073000000000000.
Proof.
  split; [reflexivity | ].
  intros s1 s2 Hs.
  rewrite !calculate_tokens_for_sol_value by lia.
  eexists _, _. split; [reflexivity | split; [reflexivity | ]].
  set (k := 1073000000000000 * 30000000000).
  assert (H1 : k / (30000000000 + s1) <= 1073000000000000).
  { apply Z.div_le_upper_bound; subst k; nia. }
  assert (H2 : k / (30000000000 + s2) <= k / (30000000000 + s1)).
  { apply Z.div_le_compat_l; subst k; lia. }
  assert (H4 : 0 <= k / (30000000000 + s2)) by (apply Z.div_pos; subst k; lia).
  lia.
Qed.

(** X2: the buy quote has no guard on its input: it raises (division by zero)
    exactly at minus the virtual SOL reserve, and on every other negative
    amount it returns a number of tokens that is negative or larger than
    the whole virtual reserve. *)
Theorem calculate_tokens_for_sol_negative_input s :
  (calculate_tokens_for_sol s = None <-> s = -30000000000) /\
  forall out, calculate_tokens_for_sol s = Some out ->
    (-30000000000 < s < 0 -> out < 0) /\
    (s < -30000000000 -> 1073000000000000 < out).
Proof.
  split.
  - unfold calculate_tokens_for_sol, Py.floordiv.
    destruct (Z.eqb_spec (30000000000 + s) 0); split; intros; try lia; try discriminate.
    reflexivity.
  - intros out Hout. split; intros Hs.
    + rewrite calculate_tokens_for_sol_value in Hout by lia.
      injection Hout as <-.
      assert (1073000000000000 + 1 <= 1073000000000000 * 30000000000 / (30000000000 + s)); [ | lia].
      apply Z.div_le_lower_bound; nia.
    + rewrite calculate_tokens_for_sol_value in Hout by lia.
      injection Hout as <-.
      assert (1073000000000000 * 30000000000 / (30000000000 + s) < 0); [ | lia].
      set (m := 30000000000 + s) in *.
      pose proof (Z.div_mod (1073000000000000 * 30000000000) m ltac:(lia)) as Hdm.
      pose proof (Z.mod_neg_bound (1073000000000000 * 30000000000) m ltac:(lia)) as Hb.
      nia.
Qed.

(** X3: selling a positive amount against a positive token reserve never pays
    out more than the SOL reserve, and leaves the product of the reserves
    unchanged up to the rounding of the one division. *)
Theorem calculate_sol_for_tokens_keeps_product (t vT vS : Z) :
  0 < t -> 0 < vT -> 0 <= vS ->
  exists out,
    calculate_sol_for_tokens t vT vS = Some out /\
    0 <= out <= vS /\
    vS * vT - (vT + t) < (vS - out) * (vT + t) <= vS * vT.
Proof.
  intros Ht HvT HvS.
  unfold calculate_sol_for_tokens, Py.floordiv.
  destruct (Z.leb_spec t 0) as [Hle | _]; [lia | ].
  destruct (Z.eqb_spec (vT + t) 0) as [Hz | _]; [lia | ].
  eexists. split; [reflexivity | ].
  set (n := vT + t) in *. set (k := vS * vT).
  pose proof (Z.div_mod k n ltac:(lia)) as Hdm.
  pose proof (Z.mod_pos_bound k n ltac:(lia)) as Hb.
  assert (0 <= k / n) by (apply Z.div_pos; subst k; nia).
  assert (k / n <= vS) by (apply Z.div_le_upper_bound; subst k n; nia).
  rewrite Z.max_r by lia.
  replace (vS - (vS - k / n)) with (k / n) by lia.
  nia.
Qed.

(** X3: a million tokens sold on the initial reserves. *)
Lemma calculate_sol_for_tokens_keeps_product_witness :
  exists out,
    calculate_sol_for_tokens 1000000 1073000000000000 30000000000 = Some out /\
    0 <= out <= 30000000000 /\
    30000000000 * 1073000000000000 - (1073000000000000 + 1000000)
      < (30000000000 - out) * (1073000000000000 + 1000000)
      <= 30000000000 * 1073000000000000.
Proof.
  apply (calculate_sol_for_tokens_keeps_product 1000000 1073000000000000 30000000000); lia.
Defined.

(** X4: buying and at once selling back: the tokens quoted for [s] lamports on
    the initial curve, sold on the reserves the purchase leaves behind, are
    quoted at no less than the [s] lamports paid, and (below 10^15 lamports)
    at no more than one lamport above. *)
Theorem buy_then_sell_back (s : Z) :
  0 <= s ->
  exists tokens back,
    calculate_tokens_for_sol s = Some tokens /\
    calculate_sol_for_tokens tokens (1073000000000000 - tokens) (30000000000 + s) = Some back /\
    s <= back /\ (s < 1000000000000000 -> back <= s + 1).
Proof.
  intros Hs.
  rewrite calculate_tokens_for_sol_value by lia.
  set (v := 1073000000000000).
  set (k := v * 30000000000).
  set (n := 30000000000 + s).
  set (q := k / n).
  pose proof (Z.div_mod k n ltac:(lia)) as Hdm.
  pose proof (Z.mod_pos_bound k n ltac:(lia)) as Hb.
  fold q in Hdm.
  assert (Hq : q <= v) by (apply Z.div_le_upper_bound; subst k n v; nia).
  unfold calculate_sol_for_tokens, Py.floordiv.
  destruct (Z.leb_spec (v - q) 0) as [Hz | Hpos].
  - exists (v - q), 0. rewrite (proj2 (Z.leb_le (v - q) 0) Hz).
    split; [reflexivity | split; [reflexivity | ]].
    assert (s = 0) by (subst k n v; nia). lia.
  - exists (v - q), (n - n * q / v).
    rewrite (proj2 (Z.leb_gt (v - q) 0) Hpos).
    replace (v - (v - q)) with q by lia.
    replace (q + (v - q)) with v by lia.
    change (v =? 0) with false. cbv iota zeta.
    pose proof (Z.div_mod (n * q) v ltac:(subst v; lia)) as Hdm2.
    pose proof (Z.mod_pos_bound (n * q) v ltac:(subst v; lia)) as Hb2.
    set (new := n * q / v) in *.
    assert (Hnew : s <= n - new) by (subst n k v; nia).
    split; [reflexivity | split; [ | split; [exact Hnew | ]]].
    + rewrite Z.max_r by lia. reflexivity.
    + intros Hsmall. subst n k v. nia.
Qed.

(** X4: one SOL spent and the tokens sold back. *)
Lemma buy_then_sell_back_witness :
  exists tokens back,
    calculate_tokens_for_sol 1000000000 = Some tokens /\
    calculate_sol_for_tokens tokens (1073000000000000 - tokens) (30000000000 + 1000000000)
      = Some back /\
    1000000000 <= back /\ (1000000000 < 1000000000000000 -> back <= 1000000000 + 1).
Proof.
  apply (buy_then_sell_back 1000000000). lia.
Defined.
End MoreQuoteFacts.

(** ** Instructions, accounts and signers *)

Section BuilderFacts.
Import Utf8 BondingCurve Pump.
Context `{AddressDeriver}.

Lemma pack_le_None width n :
  Py.pack_le width n = None <-> ~ (0 <= n < 2 ^ (8 * Z.of_nat width)).
Proof.
  unfold Py.pack_le.
  destruct (Z.leb_spec 0 n); destruct (Z.ltb_spec n (2 ^ (8 * Z.of_nat width)));
    cbn [andb]; split; intros; try discriminate; try lia; reflexivity.
Qed.

Lemma pack_Q_Some n : u64 n -> Py.pack_Q n = Some (le_split 8 n).
Proof. intros Hn. apply pack_le_Some. exact Hn. Qed.

Lemma pack_Q_inv n bs : Py.pack_Q n = Some bs -> u64 n /\ bs = le_split 8 n.
Proof. intros Hp. apply pack_le_inv in Hp. exact Hp. Qed.

(** X5: the sell instruction is built exactly when both amounts fit 64 unsigned
    bits ([struct.error] otherwise); its data are then the 8-byte
    discriminator and the two amounts, little-endian, 24 bytes in all, and
    the amounts read back from bytes 8..16 and 16..24. *)
Theorem build_sell_instruction_data
    (user mint creator : Pubkey) (token_amount min_sol_lamports : Z) :
  (is_Some (build_sell_instruction user mint creator token_amount min_sol_lamports)
   <-> u64 token_amount /\ u64 min_sol_lamports) /\
  forall ix,
    build_sell_instruction user mint creator token_amount min_sol_lamports = Some ix ->
    data ix = bytes_of [51; 230; 133; 164; 1; 127; 131; 173]
              ++ le_split 8 token_amount ++ le_split 8 min_sol_lamports /\
    length (data ix) = 24%nat /\
    Py.unpack_Q (firstn 8 (skipn 8 (data ix))) = Some token_amount /\
    Py.unpack_Q (firstn 8 (skipn 16 (data ix))) = Some min_sol_lamports.
Proof using Type.
  unfold build_sell_instruction. split.
  - split.
    + intros [ix Hix].
      destruct (Py.pack_Q token_amount) eqn:Ha; [ | discriminate].
      destruct (Py.pack_Q min_sol_lamports) eqn:Hl; [ | discriminate].
      split; [exact (proj1 (pack_Q_inv _ _ Ha)) | exact (proj1 (pack_Q_inv _ _ Hl))].
    + intros [Ha Hl]. rewrite (pack_Q_Some _ Ha), (pack_Q_Some _ Hl).
      eexists; reflexivity.
  - intros ix.
    destruct (Py.pack_Q token_amount) as [ea | ] eqn:Ha; [ | discriminate].
    destruct (Py.pack_Q min_sol_lamports) as [el | ] eqn:Hl; [ | discriminate].
    intros [= <-]. cbn [data].
    pose proof (unpack_pack _ _ _ Ha) as Hua.
    pose proof (unpack_pack _ _ _ Hl) as Hul.
    pose proof (pack_le_length _ _ _ Ha) as Hla.
    pose proof (pack_le_length _ _ _ Hl) as Hll.
    apply pack_Q_inv in Ha as [_ ->]. apply pack_Q_inv in Hl as [_ ->].
    split; [reflexivity | ].
    split; [cbn [length]; rewrite length_app, Hla, Hll; reflexivity | ].
    cbn [skipn].
    rewrite (skipn_exact (le_split 8 token_amount) (le_split 8 min_sol_lamports) 8 Hla).
    rewrite skipn_O.
    rewrite (firstn_exact (le_split 8 token_amount) (le_split 8 min_sol_lamports) 8 Hla).
    rewrite firstn_all2 by (rewrite Hll; lia).
    split; assumption.
Qed.

(** The System Program transfer is built exactly when the lamports fit 64
    unsigned bits; its data are instruction index 2 in four bytes and the
    amount in eight, it debits the signer and credits the other account. *)
Lemma build_transfer_instruction_data (from_pubkey to_pubkey : Pubkey) (lamports : Z) :
  (is_Some (build_transfer_instruction from_pubkey to_pubkey lamports) <-> u64 lamports) /\
  forall ix,
    build_transfer_instruction from_pubkey to_pubkey lamports = Some ix ->
    program_id ix = SYSTEM_PROGRAM_ID /\
    data ix = bytes_of [2; 0; 0; 0] ++ le_split 8 lamports /\
    Py.unpack_I (firstn 4 (data ix)) = Some 2 /\
    Py.unpack_Q (skipn 4 (data ix)) = Some lamports /\
    accounts ix = [mkAccountMeta from_pubkey true true; mkAccountMeta to_pubkey false true].
Proof.
  unfold build_transfer_instruction.
  change (Py.pack_I 2) with (Some (bytes_of [2; 0; 0; 0])).
  split.
  - split.
    + intros [ix Hix].
      destruct (Py.pack_Q lamports) eqn:Hl; [ | discriminate].
      exact (proj1 (pack_Q_inv _ _ Hl)).
    + intros Hl. rewrite (pack_Q_Some _ Hl). eexists; reflexivity.
  - intros ix.
    destruct (Py.pack_Q lamports) as [el | ] eqn:Hl; [ | discriminate].
    intros [= <-]. cbn [data program_id accounts].
    pose proof (unpack_pack _ _ _ Hl) as Hul.
    apply pack_Q_inv in Hl as [_ ->].
    repeat split; assumption.
Qed.


(** X6: the sell instruction lists the accounts of the buy instruction with the
    token program and the creator vault (entries 8 and 9) exchanged and the
    two volume accumulators (entries 12 and 13) left out: 16 accounts
    against 14. In both the user is the only signer. *)
Theorem buy_sell_instruction_accounts
    (user mint creator : Pubkey) (amount1 limit1 amount2 limit2 : Z)
    (buy_ix sell_ix : Instruction) :
  build_buy_instruction user mint creator amount1 limit1 = Some buy_ix ->
  build_sell_instruction user mint creator amount2 limit2 = Some sell_ix ->
  length (accounts buy_ix) = 16%nat /\
  length (accounts sell_ix) = 14%nat /\
  accounts sell_ix =
    firstn 8 (accounts buy_ix) ++ firstn 1 (skipn 9 (accounts buy_ix))
    ++ firstn 1 (skipn 8 (accounts buy_ix)) ++ firstn 2 (skipn 10 (accounts buy_ix))
    ++ skipn 14 (accounts buy_ix) /\
  List.filter is_signer (accounts buy_ix) = [mkAccountMeta user true true] /\
  List.filter is_signer (accounts sell_ix) = [mkAccountMeta user true true] /\
  program_id buy_ix = PUMP_PROGRAM_ID /\ program_id sell_ix = PUMP_PROGRAM_ID.
Proof using Type.
  unfold build_buy_instruction, build_sell_instruction.
  destruct (Py.pack_Q amount1); [ | discriminate].
  destruct (Py.pack_Q limit1); [ | discriminate].
  destruct (Py.pack_Q amount2); [ | discriminate].
  destruct (Py.pack_Q limit2); [ | discriminate].
  intros [= <-] [= <-]. repeat split.
Qed.

Lemma build_create_instruction_signers user mint name symbol uri ix :
  build_create_instruction user mint name symbol uri = Some ix ->
  List.filter is_signer (accounts ix)
  = [mkAccountMeta mint true true; mkAccountMeta user true true].
Proof using Type.
  unfold build_create_instruction.
  destruct (encode_string name), (encode_string symbol), (encode_string uri);
    try discriminate.
  intros [= <-]. reflexivity.
Qed.

Lemma build_transfer_instruction_signers from_pubkey to_pubkey lamports ix :
  build_transfer_instruction from_pubkey to_pubkey lamports = Some ix ->
  List.filter is_signer (accounts ix) = [mkAccountMeta from_pubkey true true].
Proof.
  unfold build_transfer_instruction.
  destruct (Py.pack_I 2), (Py.pack_Q lamports); try discriminate.
  intros [= <-]. reflexivity.
Qed.

Lemma build_buy_instruction_signers user mint creator amount limit ix :
  build_buy_instruction user mint creator amount limit = Some ix ->
  List.filter is_signer (accounts ix) = [mkAccountMeta user true true].
Proof using Type.
  unfold build_buy_instruction.
  destruct (Py.pack_Q amount), (Py.pack_Q limit); try discriminate.
  intros [= <-]. reflexivity.
Qed.



End BuilderFacts.

Section MoreLaunchFacts.
Import Utf8 BondingCurve Pump.
Context `{AddressDeriver} `{FloatArith}.


(** X9: whatever the launch message holds, with or without the initial buy, its
    fee payer is the user and every account it marks as a signer is the
    user or the fresh mint: the two keys the transaction is signed with. *)
Theorem native_launch_with_buy_signers
    (user mint : Pubkey) (name symbol uri : pystr)
    (initial_buy_sol : float) (slippage_bps : Z) (blockhash : string)
    (msg : Message) :
  native_launch_with_buy user mint name symbol uri
    initial_buy_sol slippage_bps blockhash = Some msg ->
  fee_payer msg = user /\
  (forall ix acc,
     In ix (instructions msg) -> In acc (accounts ix) -> is_signer acc = true ->
     pubkey acc = user \/ pubkey acc = mint) /\
  (exists ix, In ix (instructions msg) /\ In (mkAccountMeta mint true true) (accounts ix)) /\
  (exists ix, In ix (instructions msg) /\ In (mkAccountMeta user true true) (accounts ix)).
Proof using Type.
  unfold native_launch_with_buy. intros Hm.
  apply bind_Some in Hm as (fee_ix & Hfee & Hm).
  apply bind_Some in Hm as (create_ix & Hcreate & Hm).
  pose proof (build_transfer_instruction_signers _ _ _ _ Hfee) as Sfee.
  pose proof (build_create_instruction_signers _ _ _ _ _ _ Hcreate) as Screate.
  assert (Hsig : forall ix acc (l : list AccountMeta),
             List.filter is_signer (accounts ix) = l ->
             In acc (accounts ix) -> is_signer acc = true -> In acc l).
  { intros ix acc l <- Hin Hs. apply filter_In. split; assumption. }
  assert (Hmem : forall ix acc,
             In acc (List.filter is_signer (accounts ix)) -> In acc (accounts ix)).
  { intros ix acc Hin. apply filter_In in Hin. tauto. }
  destruct (float_positive initial_buy_sol).
  - apply bind_Some in Hm as (sol_lamports & _ & Hm).
    apply bind_Some in Hm as (expected_tokens & _ & Hm).
    apply bind_Some in Hm as (min_tokens & _ & Hm).
    apply bind_Some in Hm as (max_sol & _ & Hm).
    apply bind_Some in Hm as (buy_ix & Hbuy & Hm).
    pose proof (build_buy_instruction_signers _ _ _ _ _ _ Hbuy) as Sbuy.
    injection Hm as <-. cbn [fee_payer instructions app].
    split; [reflexivity | split; [ | split]].
    + intros ix acc Hix Hacc Hs.
      destruct Hix as [<- | [<- | [<- | [<- | []]]]].
      * apply (Hsig _ _ _ Sfee) in Hacc; [ | exact Hs].
        destruct Hacc as [<- | []]. left; reflexivity.
      * apply (Hsig _ _ _ Screate) in Hacc; [ | exact Hs].
        destruct Hacc as [<- | [<- | []]]; [right | left]; reflexivity.
      * cbn [build_create_ata_instruction accounts] in Hacc.
        destruct Hacc as [<- | [<- | [<- | [<- | [<- | [<- | []]]]]]];
          try discriminate Hs. left; reflexivity.
      * apply (Hsig _ _ _ Sbuy) in Hacc; [ | exact Hs].
        destruct Hacc as [<- | []]. left; reflexivity.
    + exists create_ix. split; [right; left; reflexivity | ].
      apply Hmem. rewrite Screate. left; reflexivity.
    + exists fee_ix. split; [left; reflexivity | ].
      apply Hmem. rewrite Sfee. left; reflexivity.
  - injection Hm as <-. cbn [fee_payer instructions app].
    split; [reflexivity | split; [ | split]].
    + intros ix acc Hix Hacc Hs.
      destruct Hix as [<- | [<- | []]].
      * apply (Hsig _ _ _ Sfee) in Hacc; [ | exact Hs].
        destruct Hacc as [<- | []]. left; reflexivity.
      * apply (Hsig _ _ _ Screate) in Hacc; [ | exact Hs].
        destruct Hacc as [<- | [<- | []]]; [right | left]; reflexivity.
    + exists create_ix. split; [right; left; reflexivity | ].
      apply Hmem. rewrite Screate. left; reflexivity.
    + exists fee_ix. split; [left; reflexivity | ].
      apply Hmem. rewrite Sfee. left; reflexivity.
Qed.

End MoreLaunchFacts.

(** X6 on the sample deriver: the fee recipient buys and sells the mint
    [PUMP_GLOBAL] created by the treasury. *)
Lemma buy_sell_instruction_accounts_witness :
  exists buy_ix sell_ix,
    Pump.build_buy_instruction (H := Samples.sample_deriver)
      Pump.PUMP_FEE_RECIPIENT Pump.PUMP_GLOBAL Pump.SOUL_TREASURY 1000000 5 = Some buy_ix /\
    Pump.build_sell_instruction (H := Samples.sample_deriver)
      Pump.PUMP_FEE_RECIPIENT Pump.PUMP_GLOBAL Pump.SOUL_TREASURY 1000000 3 = Some sell_ix /\
    length (Pump.accounts buy_ix) = 16%nat /\
    length (Pump.accounts sell_ix) = 14%nat /\
    Pump.accounts sell_ix =
      firstn 8 (Pump.accounts buy_ix) ++ firstn 1 (skipn 9 (Pump.accounts buy_ix))
      ++ firstn 1 (skipn 8 (Pump.accounts buy_ix))
      ++ firstn 2 (skipn 10 (Pump.accounts buy_ix))
      ++ skipn 14 (Pump.accounts buy_ix) /\
    List.filter Pump.is_signer (Pump.accounts buy_ix)
      = [Pump.mkAccountMeta Pump.PUMP_FEE_RECIPIENT true true] /\
    List.filter Pump.is_signer (Pump.accounts sell_ix)
      = [Pump.mkAccountMeta Pump.PUMP_FEE_RECIPIENT true true] /\
    Pump.program_id buy_ix = Pump.PUMP_PROGRAM_ID /\
    Pump.program_id sell_ix = Pump.PUMP_PROGRAM_ID.
Proof.
  eexists _, _.
  split; [vm_compute; reflexivity | ].
  split; [vm_compute; reflexivity | ].
  apply (buy_sell_instruction_accounts (H := Samples.sample_deriver)
           Pump.PUMP_FEE_RECIPIENT Pump.PUMP_GLOBAL Pump.SOUL_TREASURY 1000000 5 1000000 3);
    vm_compute; reflexivity.
Defined.


(** X9 on the launch with an initial buy of one SOL. *)
Lemma native_launch_with_buy_signers_witness :
  exists msg,
    Pump.native_launch_with_buy
      (H := Samples.sample_deriver) (H0 := Samples.exact_arith)
      Pump.PUMP_FEE_RECIPIENT Pump.PUMP_GLOBAL
      Samples.sample_name Samples.sample_symbol Samples.sample_uri
      1000000000 100 "11111111111111111111111111111111" = Some msg /\
    Pump.fee_payer msg = Pump.PUMP_FEE_RECIPIENT /\
    (forall ix acc,
       In ix (Pump.instructions msg) -> In acc (Pump.accounts ix) ->
       Pump.is_signer acc = true ->
       Pump.pubkey acc = Pump.PUMP_FEE_RECIPIENT \/ Pump.pubkey acc = Pump.PUMP_GLOBAL) /\
    (exists ix, In ix (Pump.instructions msg) /\
       In (Pump.mkAccountMeta Pump.PUMP_GLOBAL true true) (Pump.accounts ix)) /\
    (exists ix, In ix (Pump.instructions msg) /\
       In (Pump.mkAccountMeta Pump.PUMP_FEE_RECIPIENT true true) (Pump.accounts ix)).
Proof.
  eexists. split; [vm_compute; reflexivity | ].
  apply (@native_launch_with_buy_signers Samples.sample_deriver Samples.exact_arith
           Pump.PUMP_FEE_RECIPIENT Pump.PUMP_GLOBAL
           Samples.sample_name Samples.sample_symbol Samples.sample_uri
           1000000000 100 "11111111111111111111111111111111").
  vm_compute. reflexivity.
Defined.

(** ** Length-prefixed strings *)

Section EncodeStringFacts.
Import Utf8 BondingCurve Pump.

Lemma encode_string_inv s out :
  encode_string s = Some out ->
  exists utf8,
    Utf8.encode s = Some utf8 /\
    Z.of_nat (length utf8) < 2 ^ 32 /\
    out = le_split 4 (Z.of_nat (length utf8)) ++ utf8.
Proof.
  unfold encode_string.
  destruct (Utf8.encode s) as [utf8 | ]; [ | discriminate].
  destruct (Py.pack_I (Z.of_nat (length utf8))) as [prefix | ] eqn:Hp; [ | discriminate].
  intros [= <-]. apply pack_le_inv in Hp as [Hn ->].
  exists utf8. split; [reflexivity | split; [exact (proj2 Hn) | reflexivity]].
Qed.

(** X10: length-prefixed strings can be told apart: when two encoded strings,
    each followed by anything, give the same bytes, the strings are the
    same and so is what follows. Hence the name, symbol and uri of a create
    instruction cannot run into one another. *)
Theorem encode_string_prefix_free (s1 s2 : pystr) (e1 e2 rest1 rest2 : list byte) :
  encode_string s1 = Some e1 ->
  encode_string s2 = Some e2 ->
  e1 ++ rest1 = e2 ++ rest2 ->
  s1 = s2 /\ rest1 = rest2.
Proof.
  intros H1 H2 Heq.
  apply encode_string_inv in H1 as (u1 & Hu1 & Hn1 & ->).
  apply encode_string_inv in H2 as (u2 & Hu2 & Hn2 & ->).
  rewrite <- !List.app_assoc in Heq.
  apply app_inj_1 in Heq as [Hlen Heq]; [ | rewrite !length_le_split; reflexivity].
  assert (Hl : Z.of_nat (length u1) = Z.of_nat (length u2)).
  { apply (f_equal le_combine) in Hlen. rewrite !le_combine_split in Hlen.
    change (2 ^ (Z.of_nat 4 * 8)) with (2 ^ 32) in Hlen.
    rewrite !Z.mod_small in Hlen by lia. exact Hlen. }
  apply app_inj_1 in Heq as [-> ->]; [ | lia].
  split; [ | reflexivity].
  apply decode_encode in Hu1. apply decode_encode in Hu2. congruence.
Qed.

End EncodeStringFacts.

(** X10 on the text "Pepe" followed by a zero byte. *)
Lemma encode_string_prefix_free_witness :
  Samples.sample_name = Samples.sample_name /\ [Byte.x00] = [Byte.x00].
Proof.
  apply (encode_string_prefix_free Samples.sample_name Samples.sample_name
           (le_split 4 4 ++ [Byte.x50; Byte.x65; Byte.x70; Byte.x65])
           (le_split 4 4 ++ [Byte.x50; Byte.x65; Byte.x70; Byte.x65])
           [Byte.x00] [Byte.x00]); reflexivity.
Defined.


(** ** The bonding-curve account *)

Section CurveStateFacts.
Import BondingCurve Pump CurveState.

Lemma slice_length (a b : nat) (data : list byte) :
  (b <= length data)%nat -> length (slice a b data) = (b - a)%nat.
Proof.
  intros Hb. unfold slice. rewrite length_firstn, length_skipn. lia.
Qed.

Lemma unpack_Q_u64 (bs : list byte) :
  length bs = 8%nat -> exists v, Py.unpack_Q bs = Some v /\ u64 v.
Proof.
  intros Hl. exists (le_combine bs). split.
  - unfold Py.unpack_Q, Py.unpack_le. rewrite Hl. reflexivity.
  - pose proof (le_combine_bound bs) as Hb. rewrite Hl in Hb. exact Hb.
Qed.

Lemma unpack_Q_short (bs : list byte) :
  length bs <> 8%nat -> Py.unpack_Q bs = None.
Proof.
  intros Hl. unfold Py.unpack_Q, Py.unpack_le.
  destruct (Nat.eqb_spec (length bs) 8); [contradiction | reflexivity].
Qed.

(** X11: reading the bonding-curve account fails ([struct.error] or
    [IndexError]) exactly when it has fewer than 49 bytes. Otherwise the
    five reserves read are unsigned 64-bit numbers, and the creator is
    missing exactly when the account has fewer than 81 bytes; when present
    it has 32 bytes. *)
Theorem get_bonding_curve_state_length (data : list byte) :
  (get_bonding_curve_state (Some data) = Failed <-> (length data < 49)%nat) /\
  get_bonding_curve_state (Some data) <> NoAccount /\
  forall st, get_bonding_curve_state (Some data) = State st ->
    u64 (virtual_token_reserves st) /\ u64 (virtual_sol_reserves st) /\
    u64 (real_token_reserves st) /\ u64 (real_sol_reserves st) /\
    u64 (token_total_supply st) /\
    (creator st = None <-> (length data < 81)%nat) /\
    (forall key, creator st = Some key -> length key = 32%nat).
Proof.
  unfold get_bonding_curve_state. cbv zeta.
  destruct (Nat.lt_ge_cases (length data) 49) as [Hshort | Hlong].
  - assert (Hnth : nth_error data (8 + 40) = None)
      by (apply nth_error_None; lia).
    rewrite Hnth.
    assert (HF : match Py.unpack_Q (slice 8 (8 + 8) data) with
                 | Some _ =>
                     match Py.unpack_Q (slice (8 + 8) (8 + 16) data) with
                     | Some _ =>
                         match Py.unpack_Q (slice (8 + 16) (8 + 24) data) with
                         | Some _ =>
                             match Py.unpack_Q (slice (8 + 24) (8 + 32) data) with
                             | Some _ =>
                                 match Py.unpack_Q (slice (8 + 32) (8 + 40) data) with
                                 | Some _ => Failed
                                 | None => Failed
                                 end
                             | None => Failed
                             end
                         | None => Failed
                         end
                     | None => Failed
                     end
                 | None => Failed
                 end = Failed).
    { repeat match goal with |- context [match ?x with _ => _ end] => destruct x end;
        reflexivity. }
    split; [split; [intros _; exact Hshort | intros _; exact HF] | ].
    rewrite HF. split; [discriminate | intros st Hst; discriminate].
  - destruct (unpack_Q_u64 (slice 8 (8 + 8) data)) as (vt & -> & Hvt);
      [rewrite slice_length; lia | ].
    destruct (unpack_Q_u64 (slice (8 + 8) (8 + 16) data)) as (vs & -> & Hvs);
      [rewrite slice_length; lia | ].
    destruct (unpack_Q_u64 (slice (8 + 16) (8 + 24) data)) as (rt & -> & Hrt);
      [rewrite slice_length; lia | ].
    destruct (unpack_Q_u64 (slice (8 + 24) (8 + 32) data)) as (rs & -> & Hrs);
      [rewrite slice_length; lia | ].
    destruct (unpack_Q_u64 (slice (8 + 32) (8 + 40) data)) as (ts & -> & Hts);
      [rewrite slice_length; lia | ].
    destruct (nth_error data (8 + 40)) as [flag | ] eqn:Hflag;
      [ | apply nth_error_None in Hflag; lia].
    split; [split; [discriminate | lia] | ].
    split; [discriminate | ].
    destruct (Nat.leb_spec (8 + 73) (length data)) as [Hc | Hc];
      intros st [= <-]; cbn [virtual_token_reserves virtual_sol_reserves
        real_token_reserves real_sol_reserves token_total_supply creator];
      repeat (split; [assumption | ]).
    + split; [split; [discriminate | lia] | ].
      intros key [= <-]. rewrite slice_length; lia.
    + split; [split; [lia | reflexivity] | discriminate].
Qed.

Lemma slice_app_shift (p r : list byte) (a b : nat) :
  (length p <= a)%nat ->
  slice a b (p ++ r) = slice (a - length p) (b - length p) r.
Proof.
  intros Ha. unfold slice.
  rewrite skipn_app, (skipn_all2 p) by lia. cbn [app].
  f_equal. lia.
Qed.

Lemma slice_app_here (p r : list byte) (b : nat) :
  length p = b -> slice 0 b (p ++ r) = p.
Proof.
  intros Hb. unfold slice. rewrite skipn_O, Nat.sub_0_r.
  apply firstn_exact. exact Hb.
Qed.

Lemma unpack_Q_le_split v : u64 v -> Py.unpack_Q (le_split 8 v) = Some v.
Proof.
  intros Hv. apply (unpack_pack 8 v). apply pack_le_Some. exact Hv.
Qed.

(** X12: an account laid out as the code's comment says - 8 bytes of
    discriminator, five little-endian u64, the flag byte, the creator's 32
    bytes, then anything - is read back field by field. *)
Theorem get_bonding_curve_state_account_bytes
    (discriminator creator_bytes rest : list byte) (st : BondingCurveState) :
  length discriminator = 8%nat ->
  u64 (virtual_token_reserves st) -> u64 (virtual_sol_reserves st) ->
  u64 (real_token_reserves st) -> u64 (real_sol_reserves st) ->
  u64 (token_total_supply st) ->
  length creator_bytes = 32%nat ->
  get_bonding_curve_state (Some (account_bytes discriminator st creator_bytes rest))
  = State (mkState (virtual_token_reserves st) (virtual_sol_reserves st)
             (real_token_reserves st) (real_sol_reserves st)
             (token_total_supply st) (complete st) (Some creator_bytes)).
Proof.
  intros Hd Hvt Hvs Hrt Hrs Hts Hc.
  unfold get_bonding_curve_state, account_bytes. cbv zeta.
  set (f1 := le_split 8 (virtual_token_reserves st)).
  set (f2 := le_split 8 (virtual_sol_reserves st)).
  set (f3 := le_split 8 (real_token_reserves st)).
  set (f4 := le_split 8 (real_sol_reserves st)).
  set (f5 := le_split 8 (token_total_supply st)).
  set (flag := if complete st then Byte.x01 else Byte.x00).
  assert (L1 : length f1 = 8%nat) by apply length_le_split.
  assert (L2 : length f2 = 8%nat) by apply length_le_split.
  assert (L3 : length f3 = 8%nat) by apply length_le_split.
  assert (L4 : length f4 = 8%nat) by apply length_le_split.
  assert (L5 : length f5 = 8%nat) by apply length_le_split.
  repeat first
    [ rewrite slice_app_here by assumption
    | rewrite slice_app_shift by (rewrite ?Hd, ?L1, ?L2, ?L3, ?L4, ?L5; cbn; lia);
      rewrite ?Hd, ?L1, ?L2, ?L3, ?L4, ?L5; cbn [Nat.add Nat.sub] ].
  subst f1 f2 f3 f4 f5.
  rewrite !unpack_Q_le_split by assumption.
  set (f1 := le_split 8 (virtual_token_reserves st)) in *.
  set (f2 := le_split 8 (virtual_sol_reserves st)) in *.
  set (f3 := le_split 8 (real_token_reserves st)) in *.
  set (f4 := le_split 8 (real_sol_reserves st)) in *.
  set (f5 := le_split 8 (token_total_supply st)) in *.
  assert (Hflag : nth_error
            (discriminator ++ f1 ++ f2 ++ f3 ++ f4 ++ f5 ++ [flag] ++ creator_bytes ++ rest)
            48 = Some flag).
  { do 6 (rewrite nth_error_app2 by (rewrite ?Hd, ?L1, ?L2, ?L3, ?L4, ?L5; cbn; lia);
          rewrite ?Hd, ?L1, ?L2, ?L3, ?L4, ?L5; cbn [Nat.sub]).
    reflexivity. }
  rewrite Hflag.
  assert (Hlen : (81 <=? length
            (discriminator ++ f1 ++ f2 ++ f3 ++ f4 ++ f5 ++ [flag] ++ creator_bytes ++ rest))%nat
            = true).
  { apply Nat.leb_le. rewrite !length_app, Hd, L1, L2, L3, L4, L5, Hc. cbn [length]. lia. }
  rewrite Hlen.
  assert (Hcomplete : negb (byte.unsigned flag =? 0) = complete st)
    by (subst flag; destruct (complete st); reflexivity).
  rewrite Hcomplete.
  reflexivity.
Qed.

Lemma unpack_Q_inv (bs : list byte) v : Py.unpack_Q bs = Some v -> u64 v.
Proof.
  unfold Py.unpack_Q, Py.unpack_le.
  destruct (Nat.eqb_spec (length bs) 8) as [Hl | ]; [ | discriminate].
  intros [= <-]. pose proof (le_combine_bound bs) as Hb. rewrite Hl in Hb. exact Hb.
Qed.

Lemma get_bonding_curve_state_reserves data st :
  get_bonding_curve_state (Some data) = State st ->
  u64 (virtual_token_reserves st) /\ u64 (virtual_sol_reserves st).
Proof.
  unfold get_bonding_curve_state. cbv zeta.
  destruct (Py.unpack_Q (slice 8 (8 + 8) data)) as [vt | ] eqn:Hvt; [ | discriminate].
  destruct (Py.unpack_Q (slice (8 + 8) (8 + 16) data)) as [vs | ] eqn:Hvs; [ | discriminate].
  destruct (Py.unpack_Q (slice (8 + 16) (8 + 24) data)); [ | discriminate].
  destruct (Py.unpack_Q (slice (8 + 24) (8 + 32) data)); [ | discriminate].
  destruct (Py.unpack_Q (slice (8 + 32) (8 + 40) data)); [ | discriminate].
  destruct (nth_error data (8 + 40)); [ | discriminate].
  intros [= <-]. cbn [virtual_token_reserves virtual_sol_reserves].
  split; [exact (unpack_Q_inv _ _ Hvt) | exact (unpack_Q_inv _ _ Hvs)].
Qed.

(** X13: the sell quote of [cmd_sell]: on the reserves read from any account
    and a positive amount of tokens, [calculate_sol_for_tokens] returns (no
    division by zero), and what it returns is between 0 and the virtual SOL
    reserve read, hence itself an unsigned 64-bit number. *)
Theorem sell_quote_on_fetched_state (data : list byte) (st : BondingCurveState)
    (sell_amount : Z) :
  get_bonding_curve_state (Some data) = State st ->
  0 < sell_amount ->
  exists expected_sol,
    calculate_sol_for_tokens sell_amount
      (virtual_token_reserves st) (virtual_sol_reserves st) = Some expected_sol /\
    0 <= expected_sol <= virtual_sol_reserves st /\
    u64 expected_sol.
Proof.
  intros Hst Hamount.
  destruct (get_bonding_curve_state_reserves data st Hst) as [Hvt Hvs].
  unfold u64 in *.
  set (vT := virtual_token_reserves st) in *. set (vS := virtual_sol_reserves st) in *.
  unfold calculate_sol_for_tokens, Py.floordiv.
  destruct (Z.leb_spec sell_amount 0) as [Hle | _]; [lia | ].
  destruct (Z.eqb_spec (vT + sell_amount) 0) as [Hz | _]; [lia | ].
  eexists. split; [reflexivity | ].
  assert (0 <= vS * vT / (vT + sell_amount)) by (apply Z.div_pos; nia).
  assert (vS * vT / (vT + sell_amount) <= vS) by (apply Z.div_le_upper_bound; nia).
  lia.
Qed.

End CurveStateFacts.

(** X12 on the sample account. *)
Lemma get_bonding_curve_state_account_bytes_witness :
  CurveState.get_bonding_curve_state (Some Samples.sample_account)
  = CurveState.State Samples.sample_curve.
Proof.
  apply (get_bonding_curve_state_account_bytes (repeat Byte.x17 8) (repeat Byte.x07 32)
           [Byte.xff] Samples.sample_curve);
    try reflexivity; unfold BondingCurve.u64; cbn; lia.
Defined.

(** X13: a million tokens sold on the sample account. *)
Lemma sell_quote_on_fetched_state_witness :
  exists expected_sol,
    BondingCurve.calculate_sol_for_tokens 1000000
      (CurveState.virtual_token_reserves Samples.sample_curve)
      (CurveState.virtual_sol_reserves Samples.sample_curve) = Some expected_sol /\
    0 <= expected_sol <= CurveState.virtual_sol_reserves Samples.sample_curve /\
    BondingCurve.u64 expected_sol.
Proof.
  apply (sell_quote_on_fetched_state Samples.sample_account Samples.sample_curve 1000000).
  - vm_compute. reflexivity.
  - lia.
Defined.

(** ** Base58, the other way round *)

Section MoreBase58Facts.
Import Base58.

Lemma str_index_get (c : ascii) (s : string) (i : nat) :
  str_index c s = Some i -> String.get i s = Some c.
Proof.
  revert i. induction s as [ | c' s IH]; intros i; cbn [str_index]; [discriminate | ].
  destruct (Ascii.eqb_spec c c') as [-> | Hne].
  - intros [= <-]. reflexivity.
  - destruct (str_index c s) as [j | ]; [ | discriminate].
    intros [= <-]. cbn [String.get]. apply IH. reflexivity.
Qed.

Lemma str_index_lt (c : ascii) (s : string) (i : nat) :
  str_index c s = Some i -> (i < String.length s)%nat.
Proof.
  revert i. induction s as [ | c' s IH]; intros i; cbn [str_index]; [discriminate | ].
  destruct (Ascii.eqb c c').
  - intros [= <-]. cbn. lia.
  - destruct (str_index c s) as [j | ]; [ | discriminate].
    intros [= <-]. cbn [String.length]. specialize (IH j eq_refl). lia.
Qed.

Lemma str_index_alphabet (c : ascii) (i : nat) :
  str_index c B58_ALPHABET = Some i ->
  0 <= Z.of_nat i < 58 /\ alphabet_at (Z.of_nat i) = c /\
  (Ascii.eqb c "1" = false -> (0 < i)%nat).
Proof.
  intros Hi. pose proof (str_index_lt _ _ _ Hi) as Hlt.
  change (String.length B58_ALPHABET) with 58%nat in Hlt.
  split; [lia | split].
  - unfold alphabet_at. rewrite Nat2Z.id, (str_index_get _ _ _ Hi). reflexivity.
  - intros Hc. unfold B58_ALPHABET in Hi. cbn [str_index] in Hi. rewrite Hc in Hi.
    destruct i; [ | lia].
    match type of Hi with option_map S ?x = _ => destruct x end; discriminate.
Qed.

(** The characters of [s] are all in the alphabet. *)
Lemma b58_decode_num_Some (s : string) : forall acc,
  is_Some (b58_decode_num s acc)
  <-> (forall n c, String.get n s = Some c -> is_Some (str_index c B58_ALPHABET)).
Proof.
  induction s as [ | c s IH]; intros acc; cbn [b58_decode_num].
  - split; [intros _ n ch; destruct n; discriminate | intros _; eexists; reflexivity].
  - destruct (str_index c B58_ALPHABET) as [i | ] eqn:Hi.
    + rewrite IH. split.
      * intros Hall [ | n] ch; cbn [String.get].
        -- intros [= <-]. rewrite Hi. eexists; reflexivity.
        -- apply Hall.
      * intros Hall n ch Hn. apply (Hall (S n)). exact Hn.
    + split; [intros [x Hx]; discriminate | ].
      intros Hall. specialize (Hall 0%nat c eq_refl). rewrite Hi in Hall.
      destruct Hall as [x Hx]. discriminate.
Qed.

Lemma b58_decode_num_ge (s : string) : forall acc v,
  0 <= acc -> b58_decode_num s acc = Some v -> acc <= v.
Proof.
  induction s as [ | c s IH]; intros acc v Hacc; cbn [b58_decode_num].
  - intros [= <-]. lia.
  - destruct (str_index c B58_ALPHABET) as [i | ]; [ | discriminate].
    intros Hv. apply IH in Hv; lia.
Qed.

(** The byte count [(num.bit_length() + 7) // 8] always holds [num]. *)
Lemma int_to_bytes_big_fits (num : Z) :
  0 < num ->
  let n := Z.to_nat ((bit_length num + 7) / 8) in
  (0 < n)%nat /\
  2 ^ (8 * Z.of_nat (n - 1)) <= num < 2 ^ (8 * Z.of_nat n) /\
  int_to_bytes_big n num = Some (rev (le_split n num)).
Proof.
  intros Hpos n.
  assert (HL : bit_length num = Z.log2 num + 1).
  { unfold bit_length. destruct (Z.eqb_spec num 0); [lia | reflexivity]. }
  pose proof (Z.log2_nonneg num) as Hlog.
  pose proof (Z.log2_spec num Hpos) as [Hlo Hhi].
  assert (Hn : 8 * Z.of_nat n <= bit_length num + 7 < 8 * Z.of_nat n + 8).
  { subst n. rewrite Z2Nat.id by (apply Z.div_pos; lia).
    pose proof (Z.div_mod (bit_length num + 7) 8 ltac:(lia)).
    pose proof (Z.mod_pos_bound (bit_length num + 7) 8 ltac:(lia)). lia. }
  assert (Hn1 : (0 < n)%nat) by lia.
  assert (Hb : 2 ^ (8 * Z.of_nat (n - 1)) <= num < 2 ^ (8 * Z.of_nat n)).
  { split.
    - apply Z.le_trans with (2 ^ Z.log2 num); [ | exact Hlo].
      apply Z.pow_le_mono_r; lia.
    - apply Z.lt_le_trans with (2 ^ Z.succ (Z.log2 num)); [exact Hhi | ].
      apply Z.pow_le_mono_r; lia. }
  split; [exact Hn1 | split; [exact Hb | ]].
  unfold int_to_bytes_big. rewrite pack_le_Some by lia. reflexivity.
Qed.

(** X14: [b58_decode] raises exactly on a text with a character outside the
    alphabet; the empty text decodes to no bytes. *)
Theorem b58_decode_accepts_alphabet (s : string) :
  is_Some (b58_decode s)
  <-> (forall n c, String.get n s = Some c -> is_Some (str_index c B58_ALPHABET)).
Proof.
  rewrite <- (b58_decode_num_Some s 0). unfold b58_decode.
  destruct (b58_decode_num s 0) as [num | ] eqn:Hnum.
  - split; [intros _; eexists; reflexivity | intros _].
    pose proof (b58_decode_num_ge s 0 num ltac:(lia) Hnum) as Hge.
    destruct (Z.eqb_spec num 0) as [-> | Hne]; [eexists; reflexivity | ].
    destruct (int_to_bytes_big_fits num ltac:(lia)) as (_ & _ & ->).
    eexists; reflexivity.
  - split; intros [x Hx]; discriminate.
Qed.

(** X15: decoding what [b58_encode] wrote never raises, and gives the bytes
    back exactly when there were some: no bytes at all are written as "1",
    which reads back as a single zero byte. *)
Theorem b58_decode_encode_iff (data : list byte) :
  is_Some (b58_decode (b58_encode data)) /\
  b58_encode data <> EmptyString /\
  (b58_decode (b58_encode data) = Some data <-> data <> []) /\
  (data = [] -> b58_decode (b58_encode data) = Some [Byte.x00]).
Proof.
  destruct data as [ | x data].
  - split; [eexists; reflexivity | ].
    split; [discriminate | ].
    split; [ | reflexivity].
    split; [discriminate | intros Hne; now contradiction Hne].
  - destruct (b58_round_trip (x :: data) ltac:(discriminate)) as [Hrt Hones].
    split; [rewrite Hrt; eexists; reflexivity | ].
    split.
    + intros Hempty. rewrite Hempty in Hrt. discriminate.
    + split; [split; [discriminate | intros _; exact Hrt] | discriminate].
Qed.

Lemma bit_length_le (num : Z) (fuel : nat) :
  0 <= num < 2 ^ Z.of_nat fuel -> (Z.to_nat (bit_length num) <= fuel)%nat.
Proof.
  intros [Hlo Hhi]. unfold bit_length.
  destruct (Z.eqb_spec num 0) as [-> | Hne]; [cbn; lia | ].
  apply (proj1 (Z.log2_lt_pow2 num (Z.of_nat fuel) ltac:(lia))) in Hhi.
  pose proof (Z.log2_nonneg num). lia.
Qed.

(** Any fuel that covers the number gives the digits [b58_encode] gets. *)
Lemma b58_digits_any_fuel (fuel : nat) (num : Z) (result : string) :
  0 <= num < 2 ^ Z.of_nat fuel ->
  b58_digits fuel num result = b58_digits (Z.to_nat (bit_length num)) num result.
Proof.
  intros Hnum. pose proof (bit_length_le num fuel Hnum) as Hle.
  replace fuel with (Z.to_nat (bit_length num) + (fuel - Z.to_nat (bit_length num)))%nat
    by lia.
  apply b58_digits_more_fuel. split; [lia | apply bit_length_fuel; lia].
Qed.

Lemma b58_digits_step (acc i : Z) :
  0 <= acc -> 0 <= i < 58 -> 0 < acc * 58 + i ->
  b58_digits (Z.to_nat (bit_length (acc * 58 + i))) (acc * 58 + i) EmptyString
  = String.append (b58_digits (Z.to_nat (bit_length acc)) acc EmptyString)
      (String (alphabet_at i) EmptyString).
Proof.
  intros Hacc Hi Hpos.
  set (n := acc * 58 + i).
  pose proof (bit_length_fuel n ltac:(lia)) as Hfuel.
  destruct (Z.to_nat (bit_length n)) as [ | fuel] eqn:HF.
  { cbn in Hfuel. lia. }
  cbn [b58_digits].
  destruct (Z.gtb_spec n 0) as [_ | Hle]; [ | lia].
  assert (Hdiv : n / 58 = acc) by (subst n; Z.div_mod_to_equations; lia).
  assert (Hmod : n mod 58 = i) by (subst n; Z.div_mod_to_equations; lia).
  rewrite Hdiv, Hmod, b58_digits_append. f_equal.
  apply b58_digits_any_fuel.
  rewrite Nat2Z.inj_succ, Z.pow_succ_r in Hfuel by lia. subst n. lia.
Qed.

(** Reading digits after [acc] and writing the result: the digits of [acc]
    followed by the digits read. *)
Lemma b58_digits_decode_num (t : string) : forall acc v,
  0 <= acc ->
  (acc = 0 -> t = EmptyString \/ starts_not_one t) ->
  b58_decode_num t acc = Some v ->
  b58_digits (Z.to_nat (bit_length v)) v EmptyString
  = String.append (b58_digits (Z.to_nat (bit_length acc)) acc EmptyString) t.
Proof.
  induction t as [ | c t IH]; intros acc v Hacc Hstart; cbn [b58_decode_num].
  - intros [= <-]. rewrite append_empty_r. reflexivity.
  - destruct (str_index c B58_ALPHABET) as [i | ] eqn:Hi; [ | discriminate].
    destruct (str_index_alphabet c i Hi) as (Hrange & Hat & Hone).
    intros Hv.
    assert (Hpos : 0 < acc * 58 + Z.of_nat i).
    { destruct (Z.eq_dec acc 0) as [-> | Hne]; [ | lia].
      destruct (Hstart eq_refl) as [Hempty | Hs]; [discriminate | ].
      cbn [starts_not_one] in Hs. specialize (Hone Hs). lia. }
    rewrite (IH (acc * 58 + Z.of_nat i) v ltac:(lia) ltac:(lia) Hv).
    rewrite (b58_digits_step acc (Z.of_nat i) Hacc Hrange Hpos), Hat.
    rewrite append_assoc_str, append_cons, append_nil. reflexivity.
Qed.

Lemma ones_split (s : string) :
  exists t, s = String.append (ones (leading_ones s)) t /\
            (t = EmptyString \/ starts_not_one t).
Proof.
  induction s as [ | c s (t & IH & Ht)]; cbn [leading_ones].
  - exists EmptyString. split; [reflexivity | left; reflexivity].
  - destruct (Ascii.eqb_spec c "1") as [-> | Hne].
    + exists t. cbn [ones]. rewrite append_cons, <- IH. split; [reflexivity | exact Ht].
    + exists (String c s). cbn [ones]. rewrite append_nil. split; [reflexivity | right].
      cbn [starts_not_one]. apply Ascii.eqb_neq. exact Hne.
Qed.

Lemma leading_zeros_repeat (k : nat) (rest : list byte) :
  leading_zeros (repeat Byte.x00 k ++ rest) = (k + leading_zeros rest)%nat.
Proof.
  induction k as [ | k IH]; [reflexivity | ].
  cbn [repeat app leading_zeros]. change (byte.unsigned Byte.x00 =? 0) with true.
  cbv iota. now rewrite IH.
Qed.

Lemma int_from_bytes_big_repeat (k : nat) (rest : list byte) :
  int_from_bytes_big (repeat Byte.x00 k ++ rest) = int_from_bytes_big rest.
Proof.
  unfold int_from_bytes_big. rewrite rev_app_distr, rev_repeat. apply le_combine_app_0.
Qed.

(** The bytes [to_bytes] writes for a positive number start with a byte
    that is not zero, and are that number. *)
Lemma minimal_bytes (num : Z) (n : nat) :
  (0 < n)%nat ->
  2 ^ (8 * Z.of_nat (n - 1)) <= num < 2 ^ (8 * Z.of_nat n) ->
  int_from_bytes_big (rev (le_split n num)) = num /\
  leading_zeros (rev (le_split n num)) = 0%nat.
Proof.
  intros Hn [Hlo Hhi].
  assert (Hpos : 0 < 2 ^ (8 * Z.of_nat (n - 1))) by (apply Z.pow_pos_nonneg; lia).
  assert (Hval : int_from_bytes_big (rev (le_split n num)) = num).
  { unfold int_from_bytes_big. rewrite rev_involutive, le_combine_split.
    apply Z.mod_small. rewrite Z.mul_comm. lia. }
  split; [exact Hval | ].
  destruct (rev (le_split n num)) as [ | x rest] eqn:Hrev.
  - apply (f_equal (@length byte)) in Hrev.
    rewrite length_rev, length_le_split in Hrev. cbn in Hrev. lia.
  - cbn [leading_zeros].
    destruct (Z.eqb_spec (byte.unsigned x) 0) as [Hx | Hx]; [exfalso | reflexivity].
    assert (Hlen : length rest = (n - 1)%nat).
    { apply (f_equal (@length byte)) in Hrev.
      rewrite length_rev, length_le_split in Hrev. cbn [length] in Hrev. lia. }
    assert (Hsmall : int_from_bytes_big (x :: rest) = int_from_bytes_big rest).
    { replace x with Byte.x00 by (apply byte.unsigned_inj; rewrite Hx; reflexivity).
      apply (int_from_bytes_big_repeat 1 rest). }
    pose proof (le_combine_bound (rev rest)) as Hb.
    rewrite length_rev, Hlen in Hb.
    unfold int_from_bytes_big in Hsmall at 2. rewrite Hval in Hsmall. lia.
Qed.

(** X16: a base58 text that [b58_decode] accepts is, unless it is empty, the
    text [b58_encode] writes for the bytes decoded: every byte sequence
    has one spelling only. The empty text decodes to no bytes, which are
    written as "1". *)
Theorem b58_encode_decode (s : string) (data : list byte) :
  b58_decode s = Some data ->
  s <> EmptyString ->
  b58_encode data = s.
Proof.
  intros Hdec Hne. unfold b58_decode in Hdec.
  destruct (b58_decode_num s 0) as [num | ] eqn:Hnum; [ | discriminate].
  destruct (ones_split s) as (t & Hs & Ht).
  set (k := leading_ones s) in *.
  assert (Hnum_t : b58_decode_num t 0 = Some num).
  { rewrite Hs, b58_decode_num_ones in Hnum. exact Hnum. }
  pose proof (b58_digits_decode_num t 0 num ltac:(lia) (fun _ => Ht) Hnum_t) as Hdigits.
  change (b58_digits (Z.to_nat (bit_length 0)) 0 EmptyString) with EmptyString in Hdigits.
  rewrite append_nil in Hdigits.
  pose proof (b58_decode_num_ge t 0 num ltac:(lia) Hnum_t) as Hge.
  destruct (Z.eqb_spec num 0) as [Hz | Hnz].
  - cbn [option_map] in Hdec. injection Hdec as <-. rewrite app_nil_r.
    subst num. change (b58_digits (Z.to_nat (bit_length 0)) 0 EmptyString)
      with EmptyString in Hdigits. subst t.
    rewrite append_empty_r in Hs.
    unfold b58_encode. rewrite pad_ones_spec.
    replace (repeat Byte.x00 k) with (repeat Byte.x00 k ++ @nil byte) by apply app_nil_r.
    rewrite int_from_bytes_big_repeat, leading_zeros_repeat.
    change (int_from_bytes_big []) with 0.
    change (b58_digits (Z.to_nat (bit_length 0)) 0 EmptyString) with EmptyString.
    cbn [leading_zeros]. rewrite Nat.add_0_r, append_empty_r, <- Hs.
    destruct s; [contradiction | reflexivity].
  - destruct (int_to_bytes_big_fits num ltac:(lia)) as (Hn & Hb & Hbytes).
    rewrite Hbytes in Hdec. cbn [option_map] in Hdec. injection Hdec as <-.
    destruct (minimal_bytes num _ Hn Hb) as [Hval Hlead].
    unfold b58_encode. rewrite pad_ones_spec.
    rewrite int_from_bytes_big_repeat, leading_zeros_repeat, Hval, Hlead, Nat.add_0_r.
    rewrite Hdigits, <- Hs.
    destruct s; [contradiction | reflexivity].
Qed.

End MoreBase58Facts.

(** X16 at the text "119p". *)
Lemma b58_encode_decode_witness :
  Base58.b58_encode [Byte.x00; Byte.x00; Byte.x01; Byte.xff] = "119p".
Proof.
  apply (b58_encode_decode "119p" [Byte.x00; Byte.x00; Byte.x01; Byte.xff]).
  - vm_compute. reflexivity.
  - discriminate.
Defined.

(** ** Cleaning text *)

Section SanitizeFacts.
Import Utf8 Sanitize.

Lemma sanitize_input_eq text :
  sanitize_input text
  = firstn (Z.to_nat 10000) (List.filter (fun c => negb (is_control c)) text).
Proof. destruct text; [rewrite firstn_nil | ]; reflexivity. Qed.





Lemma startswith_app (s prefix : pystr) :
  startswith s prefix = true <-> exists tail, s = prefix ++ tail.
Proof.
  revert s. induction prefix as [ | p prefix IH]; intros s.
  - split; [intros _; exists s; reflexivity | destruct s; reflexivity].
  - destruct s as [ | c s]; cbn [startswith].
    + split; [discriminate | intros [tail Ht]; discriminate].
    + rewrite andb_true_iff, Z.eqb_eq, IH. split.
      * intros [-> [tail ->]]. exists tail. reflexivity.
      * intros [tail [= -> ->]]. split; [reflexivity | exists tail; reflexivity].
Qed.

(** X18: [validate_https_url] tests the sanitised text, not the text it was
    given: it accepts every text that starts with "https://", and it also
    accepts a text that carries control characters in front of that
    prefix, which does not start with "https://" itself. *)
Theorem validate_https_url_sanitised (url : pystr) :
  (validate_https_url url = Some tt
   <-> exists tail, sanitize_input url = https ++ tail) /\
  (startswith url https = true -> validate_https_url url = Some tt) /\
  (forall c, is_control c = true ->
     validate_https_url (c :: url) = validate_https_url url /\
     startswith (c :: url) https = false).
Proof.
  unfold validate_https_url. cbv zeta.
  split; [ | split].
  - rewrite <- startswith_app.
    destruct (startswith (sanitize_input url) https); cbn [negb];
      split; intros; (reflexivity || discriminate).
  - intros Hs. apply startswith_app in Hs as [tail ->].
    assert (Hs : startswith (sanitize_input (https ++ tail)) https = true).
    { apply startswith_app. rewrite sanitize_input_eq.
      change (List.filter (fun c => negb (is_control c)) (https ++ tail))
        with (https ++ List.filter (fun c => negb (is_control c)) tail).
      rewrite firstn_app, (firstn_all2 https) by (cbn; lia).
      eexists. reflexivity. }
    rewrite Hs. reflexivity.
  - intros c Hc. split.
    + rewrite !sanitize_input_eq. cbn [List.filter]. rewrite Hc.
      reflexivity.
    + cbn [startswith https].
      destruct (Z.eqb_spec c 104) as [-> | _]; [discriminate Hc | reflexivity].
Qed.

End SanitizeFacts.

(** ** Loading, verifying, backing up *)

Section MoreWalletFacts.
Import Wallet.
Context `{Host} `{Hashlib} `{KeypairLib} `{StrLib}.

Lemma world_eta w : mkWorld (files w) (flocked w) (held w) = w.
Proof. destruct w; reflexivity. Qed.

(** What [verify_file_permissions] does, case by case. *)
Lemma verify_file_permissions_spec path w :
  verify_file_permissions path w =
    match files w !! path with
    | None => (Return true, w)
    | Some f =>
        if Z.land (mode f) 63 =? 0 then (Return true, w)
        else (Return false,
              mkWorld (<[path := mkFile (content f) 384]> (files w)) (flocked w) (held w))
    end.
Proof.
  unfold verify_file_permissions.
  destruct (files w !! path) as [f | ] eqn:Hf.
  - rewrite (bind_return _ _ _ _ _ (exists_present _ _ _ Hf)). cbn [negb].
    rewrite (bind_return _ _ w (mode f) w) by (unfold stat_mode; now rewrite Hf).
    destruct (Z.land (mode f) 63 =? 0); cbn [negb]; [reflexivity | ].
    unfold bind, chmod. rewrite Hf. reflexivity.
  - rewrite (bind_return _ _ _ _ _ (exists_absent _ _ Hf)). reflexivity.
Qed.

(** [verify_file_permissions] never fails. Afterwards the file, if there
    is one, has its content and no permission bit for group or others; it
    was changed (to 0o600) exactly when [False] is returned; no other file
    is touched. *)
Lemma verify_file_permissions_tightens path w :
  exists secure fs,
    verify_file_permissions path w = (Return secure, mkWorld fs (flocked w) (held w)) /\
    (forall p, p <> path -> fs !! p = files w !! p) /\
    (files w !! path = None -> secure = true /\ fs !! path = None) /\
    (forall f, files w !! path = Some f ->
       exists f', fs !! path = Some f' /\ content f' = content f /\
                  Z.land (mode f') 63 = 0 /\
                  (secure = true -> f' = f) /\
                  (secure = false -> mode f' = 384 /\ Z.land (mode f) 63 <> 0)).
Proof.
  rewrite verify_file_permissions_spec.
  destruct (files w !! path) as [f | ] eqn:Hf.
  - destruct (Z.eqb_spec (Z.land (mode f) 63) 0) as [Hsec | Hins].
    + exists true, (files w). rewrite world_eta.
      split; [reflexivity | split; [reflexivity | split; [discriminate | ]]].
      intros f0 [= <-]. exists f. rewrite Hf.
      repeat split; try assumption; discriminate.
    + exists false, (<[path := mkFile (content f) 384]> (files w)).
      split; [reflexivity | split; [ | split; [discriminate | ]]].
      * intros p Hp. now rewrite lookup_insert_ne by congruence.
      * intros f0 [= <-]. exists (mkFile (content f) 384). rewrite lookup_insert_eq.
        repeat split; try assumption; discriminate.
  - exists true, (files w). rewrite world_eta.
    split; [reflexivity | split; [reflexivity | split; [auto | discriminate]]].
Qed.

(** The end of [load_wallet]: the bytes got so far go to
    [Keypair.from_bytes], and any exception ends in GENERAL_ERROR. *)
Lemma load_wallet_finish (c : M (list byte)) (ro : outcome (list byte)) w1 :
  c w1 = (ro, w1) ->
  try_except
    (keypair_bytes <- c ;; Keypair_from_bytes keypair_bytes)
    (fun _ => Output_error "Failed to load wallet" ;; sys_exit GENERAL_ERROR) w1
  = (match ro with
     | Return bs => if keypair_ok bs then Return bs else Exit GENERAL_ERROR
     | Raise _ => Exit GENERAL_ERROR
     | Exit code => Exit code
     end, w1).
Proof.
  intros Hc. unfold try_except, bind. rewrite Hc.
  destruct ro as [bs | e | code]; try reflexivity.
  unfold Keypair_from_bytes. destruct (keypair_ok bs); reflexivity.
Qed.

(** [load_wallet] on a world where the wallet file is there: the file is
    made owner-only, and the outcome is read off its content. *)
Lemma load_wallet_present f w :
  files w !! get_wallet_file = Some f ->
  exists r,
    load_wallet w = (r, snd (verify_file_permissions get_wallet_file w)) /\
    (forall e, r <> Raise e) /\
    (forall k, r = Return k -> keypair_ok k = true) /\
    (forall code, r = Exit code -> code = SECURITY_ERROR \/ code = GENERAL_ERROR) /\
    (forall kv item raw,
       content f = Json (JDict kv) -> dict_get "bytes" kv = Some item ->
       to_bytes item = Return raw ->
       r = if truthy (match dict_get "checksum" kv with Some v => v | None => JStr "" end)
              && ne_str (match dict_get "checksum" kv with Some v => v | None => JStr "" end)
                   (compute_wallet_checksum raw)
           then Exit SECURITY_ERROR
           else if keypair_ok raw then Return raw else Exit GENERAL_ERROR) /\
    (forall l raw,
       content f = Json (JList l) -> to_bytes (JList l) = Return raw ->
       r = if keypair_ok raw then Return raw else Exit GENERAL_ERROR).
Proof.
  intros Hfile. unfold load_wallet.
  rewrite (bind_return _ _ w tt w) by reflexivity.
  rewrite (bind_return _ _ _ _ _ (exists_present _ _ _ Hfile)).
  cbn [negb].
  rewrite (bind_return _ _ w tt w) by reflexivity.
  assert (Hv : exists b m w1,
            verify_file_permissions get_wallet_file w = (Return b, w1) /\
            files w1 !! get_wallet_file = Some (mkFile (content f) m)).
  { rewrite verify_file_permissions_spec, Hfile.
    destruct (Z.land (mode f) 63 =? 0).
    - exists true, (mode f), w. split; [reflexivity | ]. rewrite Hfile. now destruct f.
    - eexists false, 384, _. split; [reflexivity | ]. cbn [files]. apply lookup_insert_eq. }
  destruct Hv as (b & m & w1 & Hv & Hw1). rewrite Hv. cbn [snd].
  rewrite (bind_return _ _ _ _ _ Hv).
  rewrite (bind_return _ _ w1 tt w1) by (destruct b; reflexivity).
  destruct (content f) as [j | text] eqn:Hc.
  - (* the file holds JSON *)
    assert (Hload : forall k : json -> M Keypair,
              try_except (wallet_data <- json_load get_wallet_file ;; k wallet_data)
                (fun _ => Output_error "Failed to load wallet" ;; sys_exit GENERAL_ERROR) w1
              = try_except (k j)
                  (fun _ => Output_error "Failed to load wallet" ;; sys_exit GENERAL_ERROR) w1).
    { intros k. unfold try_except.
      now rewrite (bind_return _ _ _ _ _ (json_load_json _ _ _ _ Hw1)). }
    rewrite Hload. clear Hload.
    assert (Hplain : forall x,
              (forall kv, x <> JDict kv) ->
              exists r,
                try_except (keypair_bytes <- py_bytes x ;; Keypair_from_bytes keypair_bytes)
                  (fun _ => Output_error "Failed to load wallet" ;; sys_exit GENERAL_ERROR) w1
                = (r, w1) /\
                r = match to_bytes x with
                    | Return bs => if keypair_ok bs then Return bs else Exit GENERAL_ERROR
                    | _ => Exit GENERAL_ERROR
                    end).
    { intros x _. eexists. split; [apply (load_wallet_finish _ (to_bytes x)); reflexivity | ].
      pose proof (to_bytes_no_exit x) as Hne.
      destruct (to_bytes x) as [bs | e | code]; try reflexivity.
      now contradiction (Hne code). }
    assert (Hfin : forall r0 : outcome Keypair,
              r0 = match to_bytes j with
                   | Return bs => if keypair_ok bs then Return bs else Exit GENERAL_ERROR
                   | _ => Exit GENERAL_ERROR
                   end ->
              (forall e, r0 <> Raise e) /\
              (forall k, r0 = Return k -> keypair_ok k = true) /\
              (forall code, r0 = Exit code -> code = SECURITY_ERROR \/ code = GENERAL_ERROR)).
    { intros r0 ->. destruct (to_bytes j) as [bs | e | code];
        [destruct (keypair_ok bs) eqn:Hok | | ];
        (split; [discriminate | split; [ | ]]); intros x Hx; try discriminate;
        injection Hx as <-; auto. }
    destruct j as [ | bv | n | nz | text | l | kv].
    7:{ (* a dict *)
      set (sc := match dict_get "checksum" kv with Some v => v | None => JStr "" end).
      destruct (dict_get "bytes" kv) as [item | ] eqn:Hitem.
      - destruct (to_bytes item) as [bs | e | code] eqn:Hbs.
        + eexists. split.
          { apply (load_wallet_finish _
                     (if truthy sc && ne_str sc (compute_wallet_checksum bs)
                      then Exit SECURITY_ERROR else Return bs)).
            cbv [bind ret raise sys_exit py_bytes Output_error log_error].
            rewrite Hbs. fold sc.
            destruct (truthy sc && ne_str sc (compute_wallet_checksum bs)); reflexivity. }
          destruct (truthy sc && ne_str sc (compute_wallet_checksum bs)) eqn:Hcheck.
          * split; [discriminate | split; [discriminate | split]].
            -- intros code [= <-]. auto.
            -- split; [ | discriminate].
               intros kv' item' raw' [= <-] Hit Hraw.
               rewrite Hitem in Hit. injection Hit as <-.
               rewrite Hbs in Hraw. injection Hraw as <-. fold sc. now rewrite Hcheck.
          * destruct (keypair_ok bs) eqn:Hok.
            -- split; [discriminate | split; [ | split; [discriminate | split]]].
               ++ intros k [= <-]. exact Hok.
               ++ intros kv' item' raw' [= <-] Hit Hraw.
                  rewrite Hitem in Hit. injection Hit as <-.
                  rewrite Hbs in Hraw. injection Hraw as <-. fold sc.
                  now rewrite Hcheck, Hok.
               ++ discriminate.
            -- split; [discriminate | split; [discriminate | split; [ | split]]].
               ++ intros code [= <-]. auto.
               ++ intros kv' item' raw' [= <-] Hit Hraw.
                  rewrite Hitem in Hit. injection Hit as <-.
                  rewrite Hbs in Hraw. injection Hraw as <-. fold sc.
                  now rewrite Hcheck, Hok.
               ++ discriminate.
        + eexists. split.
          { apply (load_wallet_finish _ (Raise e)).
            cbv [bind ret raise sys_exit py_bytes Output_error log_error].
            rewrite Hbs. reflexivity. }
          split; [discriminate | split; [discriminate | split; [ | split]]].
          * intros code [= <-]. auto.
          * intros kv' item' raw' [= <-] Hit Hraw.
            rewrite Hitem in Hit. injection Hit as <-.
            rewrite Hbs in Hraw. discriminate.
          * discriminate.
        + now contradiction (to_bytes_no_exit item code).
      - eexists. split.
        { apply (load_wallet_finish _ (Raise KeyError)). reflexivity. }
        split; [discriminate | split; [discriminate | split; [ | split]]].
        * intros code [= <-]. auto.
        * intros kv' item' raw' [= <-] Hit. rewrite Hitem in Hit. discriminate.
        * discriminate. }
    all: match goal with
         | |- context [py_bytes ?x] =>
             destruct (Hplain x ltac:(discriminate)) as (r & Hr & Hval);
             exists r; split; [exact Hr | ];
             destruct (Hfin r Hval) as (F1 & F2 & F3);
             split; [exact F1 | split; [exact F2 | split; [exact F3 | split]]];
             [discriminate | ]
         end.
    all: try discriminate.
    intros l0 raw [= <-] Hraw. rewrite Hval, Hraw. reflexivity.
  - (* the file does not hold JSON *)
    exists (Exit GENERAL_ERROR). split.
    { unfold try_except.
      rewrite (bind_raise _ _ w1 JSONDecodeError w1)
        by (unfold json_load; rewrite Hw1; reflexivity).
      reflexivity. }
    split; [discriminate | split; [discriminate | split; [ | split]]].
    + intros code [= <-]. auto.
    + discriminate.
    + discriminate.
Qed.

(** [verify_wallet_integrity], case by case. *)
Lemma verify_wallet_integrity_spec w :
  verify_wallet_integrity w =
    (Return
       match files w !! get_wallet_file with
       | None => (false, Text "Wallet file not found")
       | Some f =>
           match content f with
           | Raw _ => (false, StrOf JSONDecodeError)
           | Json (JDict kv) =>
               let sc := match dict_get "checksum" kv with Some v => v | None => JStr "" end in
               match to_bytes (match dict_get "bytes" kv with Some v => v | None => JList [] end) with
               | Return bs =>
                   if negb (truthy sc) then (false, Text "No checksum stored")
                   else if ne_str sc (compute_wallet_checksum bs)
                   then (false, Text "Checksum mismatch")
                   else if keypair_ok bs then (true, Text "Wallet is valid")
                   else (false, StrOf ValueError)
               | Raise e => (false, StrOf e)
               | Exit _ => (false, Text "")
               end
           | Json _ => (false, Text "Legacy wallet format")
           end
       end, w).
Proof.
  unfold verify_wallet_integrity, try_except.
  destruct (files w !! get_wallet_file) as [[c m] | ] eqn:Hf.
  - rewrite (bind_return _ _ _ _ _ (exists_present _ _ _ Hf)). cbn [negb content].
    destruct c as [j | text].
    + rewrite (bind_return _ _ _ _ _ (json_load_json _ _ _ _ Hf)).
      destruct j as [ | bv | n | nz | text | l | kv]; try reflexivity.
      cbv [bind py_bytes ret raise Keypair_from_bytes]. cbv zeta.
      pose proof (to_bytes_no_exit
                    (match dict_get "bytes" kv with Some v => v | None => JList [] end)) as Hne.
      destruct (to_bytes (match dict_get "bytes" kv with Some v => v | None => JList [] end))
        as [bs | e | code]; [ | reflexivity | now contradiction (Hne code)].
      destruct (negb (truthy (match dict_get "checksum" kv with Some v => v | None => JStr "" end)));
        [reflexivity | ].
      destruct (ne_str _ _); [reflexivity | ].
      destruct (keypair_ok bs); reflexivity.
    + rewrite (bind_raise _ _ w JSONDecodeError w)
        by (unfold json_load; rewrite Hf; reflexivity).
      reflexivity.
  - rewrite (bind_return _ _ _ _ _ (exists_absent _ _ Hf)). reflexivity.
Qed.

(** X19: [verify_wallet_integrity] never raises, never exits and changes
    nothing. When its verdict is [True], the wallet file holds a record
    whose stored checksum is the checksum of its key bytes, and
    [load_wallet] returns those bytes (given that the library rejects the
    empty key, which is what a record without "bytes" counts as here). *)
Theorem verify_wallet_integrity_sound w :
  exists verdict msg,
    verify_wallet_integrity w = (Return (verdict, msg), w) /\
    (verdict = true ->
     msg = Text "Wallet is valid" /\
     exists f kv raw,
       files w !! get_wallet_file = Some f /\
       content f = Json (JDict kv) /\
       to_bytes (match dict_get "bytes" kv with Some v => v | None => JList [] end)
         = Return raw /\
       dict_get "checksum" kv = Some (JStr (compute_wallet_checksum raw)) /\
       keypair_ok raw = true /\
       (keypair_ok [] = false -> fst (load_wallet w) = Return raw)).
Proof.
  rewrite verify_wallet_integrity_spec.
  eexists _, _. split; [apply f_equal2; [apply f_equal; apply surjective_pairing | reflexivity] | ].
  destruct (files w !! get_wallet_file) as [f | ] eqn:Hf; cbn [fst snd]; [ | discriminate].
  destruct (content f) as [j | text] eqn:Hc; cbn [fst snd]; [ | discriminate].
  destruct j as [ | bv | n | nz | text | l | kv]; cbn [fst snd]; try discriminate.
  cbv zeta.
  set (item := match dict_get "bytes" kv with Some v => v | None => JList [] end).
  set (sc := match dict_get "checksum" kv with Some v => v | None => JStr "" end).
  destruct (to_bytes item) as [bs | e | code] eqn:Hbs; cbn [fst snd]; try discriminate.
  destruct (truthy sc) eqn:Htruthy; cbn [negb fst snd]; [ | discriminate].
  destruct (ne_str sc (compute_wallet_checksum bs)) eqn:Hne; cbn [fst snd]; [discriminate | ].
  destruct (keypair_ok bs) eqn:Hok; cbn [fst snd]; [ | discriminate].
  intros _. split; [reflexivity | ].
  assert (Hsc : dict_get "checksum" kv = Some (JStr (compute_wallet_checksum bs))).
  { subst sc. destruct (dict_get "checksum" kv) as [v | ].
    - destruct v; cbn [ne_str] in Hne; try discriminate.
      apply negb_false_iff, String.eqb_eq in Hne. now subst.
    - cbn in Htruthy. discriminate. }
  exists f, kv, bs.
  split; [reflexivity | split; [exact Hc | split; [exact Hbs | split; [exact Hsc | ]]]].
  split; [exact Hok | ].
  intros Hempty.
  destruct (load_wallet_present f w Hf) as (r & Hr & _ & _ & _ & Hdict & _).
  rewrite Hr. cbn [fst].
  destruct (dict_get "bytes" kv) as [v | ] eqn:Hitem.
  - rewrite (Hdict kv v bs Hc Hitem Hbs).
    fold sc. rewrite Hne, andb_false_r, Hok. reflexivity.
  - subst item. cbn in Hbs. injection Hbs as <-. congruence.
Qed.

(** X20: the integrity check of [load_wallet] is optional: a record whose
    checksum is missing or empty loads its key bytes unchecked, and
    [verify_wallet_integrity] reports "No checksum stored" for it. *)
Theorem load_wallet_without_checksum f kv item raw w :
  files w !! get_wallet_file = Some f ->
  content f = Json (JDict kv) ->
  dict_get "bytes" kv = Some item ->
  to_bytes item = Return raw ->
  keypair_ok raw = true ->
  truthy (match dict_get "checksum" kv with Some v => v | None => JStr "" end) = false ->
  fst (load_wallet w) = Return raw /\
  fst (verify_wallet_integrity w) = Return (false, Text "No checksum stored").
Proof.
  intros Hf Hc Hitem Hraw Hok Hsc. split.
  - destruct (load_wallet_present f w Hf) as (r & Hr & _ & _ & _ & Hdict & _).
    rewrite Hr. cbn [fst]. rewrite (Hdict kv item raw Hc Hitem Hraw), Hsc, Hok.
    reflexivity.
  - rewrite verify_wallet_integrity_spec, Hf, Hc, Hitem, Hraw. cbv zeta.
    rewrite Hsc. reflexivity.
Qed.

(** X21: a wallet file in the legacy format, the bare list of key bytes, is
    loaded without any integrity check, and [verify_wallet_integrity]
    reports "Legacy wallet format" for it. *)
Theorem load_wallet_legacy_format f raw w :
  files w !! get_wallet_file = Some f ->
  content f = Json (JList (map (fun x => JInt (byte.unsigned x)) raw)) ->
  keypair_ok raw = true ->
  fst (load_wallet w) = Return raw /\
  fst (verify_wallet_integrity w) = Return (false, Text "Legacy wallet format").
Proof.
  intros Hf Hc Hok. split.
  - destruct (load_wallet_present f w Hf) as (r & Hr & _ & _ & _ & _ & Hlist).
    rewrite Hr. cbn [fst]. rewrite (Hlist _ raw Hc), Hok; [reflexivity | ].
    cbn [to_bytes]. now rewrite byte_items_of_bytes.
  - rewrite verify_wallet_integrity_spec, Hf, Hc. reflexivity.
Qed.

(** The migration inside [load_wallet]: with no wallet file but one in the
    skill directory, the call goes on as if started with that file moved
    into place and made owner-only. *)
Lemma load_wallet_moves_legacy lf w :
  files w !! get_wallet_file = None ->
  files w !! join skill_dir "wallet.json" = Some lf ->
  load_wallet w =
    load_wallet
      (mkWorld (<[get_wallet_file := mkFile (content lf) 384]>
                  (delete (join skill_dir "wallet.json") (files w)))
         (flocked w) (held w)).
Proof.
  intros Hw Hl.
  set (w2 := mkWorld _ _ _).
  assert (Hw2 : files w2 !! get_wallet_file = Some (mkFile (content lf) 384))
    by (subst w2; cbn [files]; apply lookup_insert_eq).
  unfold load_wallet.
  rewrite (bind_return _ _ w tt w) by reflexivity.
  rewrite (bind_return _ _ w2 tt w2) by reflexivity.
  rewrite (bind_return _ _ _ _ _ (exists_absent _ _ Hw)).
  rewrite (bind_return _ _ _ _ _ (exists_present _ _ _ Hw2)).
  cbn [negb].
  rewrite (bind_return _ _ w2 tt w2) by reflexivity.
  rewrite (bind_return _ _ w tt w2); [reflexivity | ].
  rewrite (bind_return _ _ _ _ _ (exists_present _ _ _ Hl)).
  rewrite (bind_return _ _ w tt w) by reflexivity.
  rewrite (bind_return _ _ w tt
             (mkWorld (<[get_wallet_file := lf]> (delete (join skill_dir "wallet.json") (files w)))
                (flocked w) (held w)))
    by (unfold rename; rewrite Hl; reflexivity).
  unfold chmod. cbn [files]. rewrite lookup_insert_eq.
  unfold update_files. cbn [files flocked held]. rewrite insert_insert_eq. reflexivity.
Qed.

(** X22: how [load_wallet] can end (operating-system errors are not part
    of the file model). It never raises: it returns a key that
    the library accepts, or exits with NO_WALLET, SECURITY_ERROR or
    GENERAL_ERROR. It exits with NO_WALLET exactly when there is neither a
    wallet file nor one in the skill directory, and has then changed
    nothing. In every other case the wallet file is left without any
    permission for group or others. *)
Theorem load_wallet_outcomes w :
  exists r w',
    load_wallet w = (r, w') /\
    flocked w' = flocked w /\ held w' = held w /\
    (forall e, r <> Raise e) /\
    (forall k, r = Return k -> keypair_ok k = true) /\
    (forall code, r = Exit code ->
       code = NO_WALLET \/ code = SECURITY_ERROR \/ code = GENERAL_ERROR) /\
    (r = Exit NO_WALLET <->
       files w !! get_wallet_file = None /\
       files w !! join skill_dir "wallet.json" = None) /\
    (r = Exit NO_WALLET -> w' = w) /\
    (r <> Exit NO_WALLET ->
       exists f', files w' !! get_wallet_file = Some f' /\ Z.land (mode f') 63 = 0).
Proof.
  assert (Hpresent : forall f w0,
            files w0 !! get_wallet_file = Some f ->
            exists r w',
              load_wallet w0 = (r, w') /\
              flocked w' = flocked w0 /\ held w' = held w0 /\
              (forall e, r <> Raise e) /\
              (forall k, r = Return k -> keypair_ok k = true) /\
              (forall code, r = Exit code -> code = SECURITY_ERROR \/ code = GENERAL_ERROR) /\
              (exists f', files w' !! get_wallet_file = Some f' /\ Z.land (mode f') 63 = 0)).
  { intros f w0 Hf.
    destruct (load_wallet_present f w0 Hf) as (r & Hr & R1 & R2 & R3 & _).
    destruct (verify_file_permissions_tightens get_wallet_file w0)
      as (secure & fs & Hv & _ & _ & Hfile).
    destruct (Hfile f Hf) as (f' & Hf' & _ & Hmode & _).
    rewrite Hv in Hr. cbn [snd] in Hr.
    eexists r, _. split; [exact Hr | ]. cbn [flocked held files].
    repeat (split; [assumption || reflexivity | ]).
    exists f'. split; assumption. }
  destruct (files w !! get_wallet_file) as [f | ] eqn:Hw.
  - destruct (Hpresent f w Hw) as (r & w' & Hr & Hfl & Hh & R1 & R2 & R3 & Hmode).
    exists r, w'. split; [exact Hr | split; [exact Hfl | split; [exact Hh | ]]].
    split; [exact R1 | split; [exact R2 | split]].
    + intros code Hcode. right. exact (R3 code Hcode).
    + assert (Hno : r <> Exit NO_WALLET).
      { intros Hx. destruct (R3 _ Hx); discriminate. }
      split; [split; [intros Hx; now contradiction Hno | intros [Hx _]; discriminate] | ].
      split; [intros Hx; now contradiction Hno | intros _; exact Hmode].
  - destruct (files w !! join skill_dir "wallet.json") as [lf | ] eqn:Hl.
    + rewrite (load_wallet_moves_legacy lf w Hw Hl).
      set (w2 := mkWorld _ _ _).
      assert (Hw2 : files w2 !! get_wallet_file = Some (mkFile (content lf) 384))
        by (subst w2; cbn [files]; apply lookup_insert_eq).
      destruct (Hpresent _ w2 Hw2) as (r & w' & Hr & Hfl & Hh & R1 & R2 & R3 & Hmode).
      exists r, w'. split; [exact Hr | split; [exact Hfl | split; [exact Hh | ]]].
      split; [exact R1 | split; [exact R2 | split]].
      * intros code Hcode. right. exact (R3 code Hcode).
      * assert (Hno : r <> Exit NO_WALLET).
        { intros Hx. destruct (R3 _ Hx); discriminate. }
        split; [split; [intros Hx; now contradiction Hno | intros [_ Hx]; discriminate] | ].
        split; [intros Hx; now contradiction Hno | intros _; exact Hmode].
    + exists (Exit NO_WALLET), w. split.
      { unfold load_wallet.
        rewrite (bind_return _ _ w tt w) by reflexivity.
        rewrite (bind_return _ _ _ _ _ (exists_absent _ _ Hw)). cbn [negb].
        unfold bind at 1.
        rewrite (bind_return _ _ _ _ _ (exists_absent _ _ Hl)). reflexivity. }
      split; [reflexivity | split; [reflexivity | ]].
      split; [discriminate | split; [discriminate | split]].
      * intros code [= <-]. auto.
      * split; [split; [auto | reflexivity] | ].
        split; [reflexivity | intros Hx; now contradiction Hx].
Qed.

(** X23: with no wallet file but a [wallet.json] in the skill directory,
    [load_wallet] moves that file to the wallet path, makes it owner-only
    and loads it: it ends as it would have ended on the moved file, and no
    other file is touched. *)
Theorem load_wallet_migrates_legacy lf w :
  files w !! get_wallet_file = None ->
  files w !! join skill_dir "wallet.json" = Some lf ->
  exists r fs,
    load_wallet w = (r, mkWorld fs (flocked w) (held w)) /\
    fs !! get_wallet_file = Some (mkFile (content lf) 384) /\
    fs !! join skill_dir "wallet.json" = None /\
    (forall p, p <> get_wallet_file -> p <> join skill_dir "wallet.json" ->
       fs !! p = files w !! p) /\
    (forall raw checksum,
       content lf = Json (stored_record raw checksum) ->
       r = if negb (String.eqb checksum "")
              && negb (String.eqb checksum (compute_wallet_checksum raw))
           then Exit SECURITY_ERROR
           else if keypair_ok raw then Return raw else Exit GENERAL_ERROR).
Proof.
  intros Hw Hl.
  assert (Hne : get_wallet_file <> join skill_dir "wallet.json") by congruence.
  rewrite (load_wallet_moves_legacy lf w Hw Hl).
  set (fs := <[get_wallet_file := mkFile (content lf) 384]>
               (delete (join skill_dir "wallet.json") (files w))).
  assert (Hfs : fs !! get_wallet_file = Some (mkFile (content lf) 384))
    by apply lookup_insert_eq.
  destruct (load_wallet_present _ (mkWorld fs (flocked w) (held w)) Hfs)
    as (r & Hr & _ & _ & _ & Hdict & _).
  rewrite (verify_file_permissions_secure get_wallet_file (content lf)
             (mkWorld fs (flocked w) (held w)) Hfs) in Hr.
  cbn [snd] in Hr.
  exists r, fs. split; [exact Hr | split; [exact Hfs | split; [ | split]]].
  - subst fs. rewrite lookup_insert_ne by congruence. apply lookup_delete_eq.
  - intros p Hp1 Hp2. subst fs.
    rewrite lookup_insert_ne by congruence. now rewrite lookup_delete_ne by congruence.
  - intros raw checksum Hc.
    rewrite (load_wallet_stored raw checksum (mkWorld fs (flocked w) (held w))) in Hr.
    + now injection Hr as <-.
    + cbn [files]. rewrite Hfs, Hc. reflexivity.
Qed.

Lemma delete_lock_file_opened lock wallet tmp (rec : file) (fs : gmap string file) :
  delete lock (<[wallet := rec]> (delete tmp (lock_file_opened lock fs)))
  = delete lock (<[wallet := rec]> (delete tmp fs)).
Proof.
  unfold lock_file_opened. destruct (fs !! lock) eqn:Hl; [reflexivity | ].
  apply map_eq. intros p.
  destruct (decide (p = lock)) as [-> | Hp]; [now rewrite !lookup_delete_eq | ].
  rewrite !lookup_delete_ne by congruence.
  destruct (decide (p = wallet)) as [-> | Hw]; [now rewrite !lookup_insert_eq | ].
  rewrite !lookup_insert_ne by congruence.
  destruct (decide (p = tmp)) as [-> | Ht]; [now rewrite !lookup_delete_eq | ].
  rewrite !lookup_delete_ne by congruence.
  now rewrite lookup_insert_ne by congruence.
Qed.

(** The files [save_wallet] leaves behind, whatever the lock. *)
Lemma save_wallet_files keypair w :
  save_wallet keypair w =
    (Return tt,
     mkWorld
       (delete (with_suffix get_wallet_file ".lock")
          (<[get_wallet_file := mkFile (Json (wallet_record keypair)) 384]>
             (delete (with_suffix get_wallet_file ".tmp") (files w))))
       (flocked w) (held w)).
Proof.
  unfold save_wallet, ensure_data_dir.
  unfold bind at 1. cbn [ret].
  unfold bind at 1. rewrite acquire_file_lock_spec.
  destruct (negb HAS_FCNTL) eqn:Hfcntl;
    [ | destruct (bool_decide (_ ∈ flocked w ∪ held w)) eqn:Hheld ];
    unfold try_finally; rewrite write_and_rename, release_and_unlink;
    cbn [files flocked held]; rewrite ?Hfcntl, ?delete_lock_file_opened.
  - reflexivity.
  - reflexivity.
  - f_equal. f_equal.
    apply bool_decide_eq_false in Hheld.
    apply set_eq. intros p.
    rewrite elem_of_difference, elem_of_union, elem_of_singleton.
    rewrite elem_of_union in Hheld.
    split; [intros [[-> | Hp] Hn]; [contradiction | exact Hp] | ].
    intros Hp. split; [now right | ]. intros ->. apply Hheld. now right.
Qed.

(** X24: [save_wallet] leaves the record in the wallet file, owner-only, and
    neither its temporary file nor its lock file; no other file is
    touched. [load_wallet] then returns the key and
    [verify_wallet_integrity] finds the wallet valid. *)
Theorem save_wallet_then_load keypair w :
  with_suffix get_wallet_file ".lock" <> get_wallet_file ->
  with_suffix get_wallet_file ".tmp" <> get_wallet_file ->
  keypair_ok keypair = true ->
  compute_wallet_checksum keypair <> "" ->
  exists fs,
    save_wallet keypair w = (Return tt, mkWorld fs (flocked w) (held w)) /\
    fs !! get_wallet_file = Some (mkFile (Json (wallet_record keypair)) 384) /\
    fs !! with_suffix get_wallet_file ".lock" = None /\
    fs !! with_suffix get_wallet_file ".tmp" = None /\
    (forall p, p <> get_wallet_file -> p <> with_suffix get_wallet_file ".lock" ->
       p <> with_suffix get_wallet_file ".tmp" -> fs !! p = files w !! p) /\
    load_wallet (mkWorld fs (flocked w) (held w))
      = (Return keypair, mkWorld fs (flocked w) (held w)) /\
    verify_wallet_integrity (mkWorld fs (flocked w) (held w))
      = (Return (true, Text "Wallet is valid"), mkWorld fs (flocked w) (held w)).
Proof.
  intros Hlock Htmp Hok Hsum.
  rewrite save_wallet_files.
  set (lock := with_suffix get_wallet_file ".lock") in *.
  set (tmp := with_suffix get_wallet_file ".tmp") in *.
  set (fs := delete lock _).
  assert (Hfs : fs !! get_wallet_file = Some (mkFile (Json (wallet_record keypair)) 384)).
  { subst fs. rewrite lookup_delete_ne by exact Hlock. apply lookup_insert_eq. }
  exists fs. split; [reflexivity | split; [exact Hfs | split; [ | split; [ | split; [ | split]]]]].
  - subst fs. apply lookup_delete_eq.
  - subst fs. destruct (decide (lock = tmp)) as [<- | Hlt]; [apply lookup_delete_eq | ].
    rewrite lookup_delete_ne by exact Hlt. rewrite lookup_insert_ne by congruence.
    apply lookup_delete_eq.
  - intros p Hp1 Hp2 Hp3. subst fs.
    rewrite lookup_delete_ne by congruence. rewrite lookup_insert_ne by congruence.
    now rewrite lookup_delete_ne by congruence.
  - rewrite wallet_record_stored in Hfs.
    rewrite (load_wallet_stored _ _ (mkWorld fs (flocked w) (held w)) Hfs).
    rewrite String.eqb_refl, Hok. cbn [negb]. now rewrite andb_false_r.
  - rewrite verify_wallet_integrity_spec. cbn [files]. rewrite Hfs. cbn [content].
    unfold wallet_record.
    change (dict_get "bytes" _) with
      (Some (JList (map (fun x => JInt (byte.unsigned x)) keypair))).
    change (dict_get "checksum" _) with (Some (JStr (compute_wallet_checksum keypair))).
    cbv zeta. cbn [to_bytes]. rewrite byte_items_of_bytes.
    cbn [truthy ne_str]. rewrite String.eqb_refl.
    destruct (String.eqb_spec (compute_wallet_checksum keypair) "") as [Hx | _];
      [contradiction | ].
    cbn [negb]. rewrite Hok. reflexivity.
Qed.

(** X25: when the wallet file is itself named [*.lock], the lock file of
    [save_wallet] is the wallet file: the record is written and then
    removed with the lock, and the call still returns normally. *)
Theorem save_wallet_lock_alias keypair w :
  with_suffix get_wallet_file ".lock" = get_wallet_file ->
  exists fs,
    save_wallet keypair w = (Return tt, mkWorld fs (flocked w) (held w)) /\
    fs !! get_wallet_file = None.
Proof.
  intros Hlock. rewrite save_wallet_files, Hlock.
  eexists. split; [reflexivity | apply lookup_delete_eq].
Qed.




Lemma slice_last_length {A} (limit : Z) (l : list A) :
  0 < limit -> Z.of_nat (length (slice_last limit l)) = Z.min limit (Z.of_nat (length l)).
Proof.
  intros Hpos. unfold slice_last.
  destruct (Z.eqb_spec limit 0); [lia | ].
  destruct (Z.ltb_spec 0 limit); [ | lia].
  rewrite length_skipn. lia.
Qed.

Lemma slice_last_suffix {A} (limit : Z) (l : list A) :
  exists front, l = front ++ slice_last limit l.
Proof.
  unfold slice_last.
  destruct (limit =? 0); [exists []; reflexivity | ].
  destruct (0 <? limit); eexists; symmetry; apply firstn_skipn.
Qed.

(** [get_history], case by case. *)
Lemma get_history_spec limit w :
  get_history limit w =
    (Return
       match files w !! get_history_file with
       | Some f =>
           match content f with
           | Json (JList entries) => JList (slice_last limit entries)
           | Json (JStr text) => JStr (str_slice_last limit text)
           | _ => JList []
           end
       | None => JList []
       end, w).
Proof.
  unfold get_history.
  destruct (files w !! get_history_file) as [[c m] | ] eqn:Hf.
  - rewrite (bind_return _ _ _ _ _ (exists_present _ _ _ Hf)). cbn [content].
    destruct c as [j | text].
    + rewrite (bind_return _ _ _ _ _ (json_load_json _ _ _ _ Hf)).
      destruct j; reflexivity.
    + rewrite (bind_raise _ _ w JSONDecodeError w)
        by (unfold json_load; rewrite Hf; reflexivity).
      reflexivity.
  - rewrite (bind_return _ _ _ _ _ (exists_absent _ _ Hf)). reflexivity.
Qed.

(** X28: [get_history] never fails and changes nothing. On a history that is
    a list it returns the last [limit] entries when [limit] is positive,
    so at most [limit] of them, always a tail of the list; with [limit]
    zero it returns the whole history, not an empty one. A missing or
    unreadable history file gives the empty list. *)
Theorem get_history_tail limit w :
  exists result,
    get_history limit w = (Return result, w) /\
    (files w !! get_history_file = None -> result = JList []) /\
    (forall m text, files w !! get_history_file = Some (mkFile (Raw text) m) ->
       result = JList []) /\
    (forall m entries,
       files w !! get_history_file = Some (mkFile (Json (JList entries)) m) ->
       exists tail,
         result = JList tail /\
         (exists front, entries = front ++ tail) /\
         (0 < limit -> Z.of_nat (length tail) = Z.min limit (Z.of_nat (length entries))) /\
         (limit = 0 -> tail = entries)).
Proof.
  rewrite get_history_spec. eexists. split; [reflexivity | ].
  split; [intros ->; reflexivity | split].
  - intros m text ->. reflexivity.
  - intros m entries ->. cbn [content].
    exists (slice_last limit entries). split; [reflexivity | split; [ | split]].
    + apply slice_last_suffix.
    + apply slice_last_length.
    + intros ->. reflexivity.
Qed.

(** What [add_to_history] writes when the history is a list or missing. *)
Lemma add_to_history_appends action data w entries :
  (files w !! get_history_file = None /\ entries = [] \/
   exists m, files w !! get_history_file = Some (mkFile (Json (JList entries)) m)) ->
  exists m',
    add_to_history action data w =
      (Return tt,
       mkWorld
         (<[get_history_file :=
              mkFile (Json (JList (last_1000 (entries ++ [JDict ([
                  ("timestamp", JStr (utcnow_isoformat +:+ "Z"));
                  ("action", JStr action);
                  ("correlation_id", JStr correlation_id)] ++ data)])))) m']>
            (files w))
         (flocked w) (held w)).
Proof.
  intros Hh. unfold add_to_history, try_pass.
  rewrite (bind_return _ _ w tt w) by reflexivity.
  destruct Hh as [[Hh ->] | [m Hh]].
  - rewrite (bind_return _ _ _ _ _ (exists_absent _ _ Hh)).
    rewrite (bind_return _ _ w (JList []) w) by reflexivity.
    cbn [snd json_dump update_files files flocked held]. rewrite Hh.
    exists 420. reflexivity.
  - rewrite (bind_return _ _ _ _ _ (exists_present _ _ _ Hh)).
    rewrite (bind_return _ _ _ _ _ (json_load_json _ _ _ _ Hh)).
    cbn [snd json_dump update_files files flocked held]. rewrite Hh.
    exists m. reflexivity.
Qed.

(** X29: the entry [add_to_history] writes is the last one [get_history]
    returns ([data] bringing keys of its own, none of the three the entry
    starts with). On a history that is a list, or missing, the entry is
    appended, the history is cut to its last 1000 entries, and
    [get_history(1)] gives exactly the new entry. On a history file that
    does not hold a list, [add_to_history] silently writes nothing. *)
Theorem add_to_history_then_get action data w :
  (forall key, In key ["timestamp"; "action"; "correlation_id"] -> dict_get key data = None) ->
  (forall m entries,
     files w !! get_history_file = None /\ entries = [] \/
     files w !! get_history_file = Some (mkFile (Json (JList entries)) m) ->
     exists w' kept,
       add_to_history action data w = (Return tt, w') /\
       (forall limit, get_history limit w' = (Return (JList (slice_last limit kept)), w')) /\
       Z.of_nat (length kept) = Z.min 1000 (Z.of_nat (length entries) + 1) /\
       (exists front, entries ++ [JDict ([
            ("timestamp", JStr (utcnow_isoformat +:+ "Z"));
            ("action", JStr action);
            ("correlation_id", JStr correlation_id)] ++ data)] = front ++ kept) /\
       get_history 1 w' =
         (Return (JList [JDict ([
            ("timestamp", JStr (utcnow_isoformat +:+ "Z"));
            ("action", JStr action);
            ("correlation_id", JStr correlation_id)] ++ data)]), w')) /\
  (forall f, files w !! get_history_file = Some f ->
     (forall entries, content f <> Json (JList entries)) ->
     add_to_history action data w = (Return tt, w)).
Proof.
  intros _. split.
  - intros m entries Hh.
    set (entry := JDict _).
    destruct (add_to_history_appends action data w entries) as (m' & Hadd).
    { destruct Hh as [Hh | Hh]; [left; exact Hh | right; exists m; exact Hh]. }
    fold entry in Hadd.
    set (kept := last_1000 (entries ++ [entry])) in *.
    eexists _, kept. split; [exact Hadd | ].
    assert (Hget : forall limit,
              get_history limit
                (mkWorld (<[get_history_file := mkFile (Json (JList kept)) m']> (files w))
                   (flocked w) (held w))
              = (Return (JList (slice_last limit kept)),
                 mkWorld (<[get_history_file := mkFile (Json (JList kept)) m']> (files w))
                   (flocked w) (held w))).
    { intros limit. rewrite get_history_spec. cbn [files]. rewrite lookup_insert_eq.
      reflexivity. }
    assert (Hlen : length (entries ++ [entry]) = S (length entries))
      by (rewrite length_app; cbn [length]; lia).
    split; [exact Hget | split; [ | split]].
    + subst kept. unfold last_1000. rewrite length_skipn, Hlen. lia.
    + eexists. subst kept. unfold last_1000. symmetry. apply firstn_skipn.
    + rewrite Hget. f_equal. f_equal. f_equal.
      subst kept. unfold slice_last, last_1000.
      change (1 =? 0) with false. change (0 <? 1) with true. cbv iota.
      change (Z.to_nat 1) with 1%nat.
      rewrite skipn_skipn, length_skipn, Hlen.
      match goal with |- skipn ?n _ = _ => replace n with (length entries) by lia end.
      rewrite skipn_app, skipn_all, Nat.sub_diag. reflexivity.
  - intros f Hf Hnot. unfold add_to_history, try_pass.
    rewrite (bind_return _ _ w tt w) by reflexivity.
    rewrite (bind_return _ _ _ _ _ (exists_present _ _ _ Hf)).
    destruct f as [c m]. cbn [content] in Hnot.
    destruct c as [j | text].
    + rewrite (bind_return _ _ _ _ _ (json_load_json _ _ _ _ Hf)).
      destruct j; try reflexivity. now contradiction (Hnot l).
    + rewrite (bind_raise _ _ w JSONDecodeError w)
        by (unfold json_load; rewrite Hf; reflexivity).
      reflexivity.
Qed.

End MoreWalletFacts.

Section MoreWalletExamples.
Import Wallet Samples.
Existing Instances sample_host sample_hashlib sample_keypairs sample_strlib.

(** X23 on the sample host: the wallet left in the skill directory is
    moved into place and loaded. *)
Lemma load_wallet_migrates_legacy_witness :
  fst (load_wallet world_legacy_only) = Return key_a /\
  files (snd (load_wallet world_legacy_only)) !! get_wallet_file
    = Some (mkFile (Json (wallet_record key_a)) 384) /\
  files (snd (load_wallet world_legacy_only)) !! join skill_dir "wallet.json" = None.
Proof.
  destruct (load_wallet_migrates_legacy (mkFile (Json (wallet_record key_a)) 420)
              world_legacy_only)
    as (r & fs & Hrun & Hwallet & Hlegacy & _ & Hr);
    [vm_compute; reflexivity | vm_compute; reflexivity | ].
  rewrite Hrun. cbn [fst snd files].
  split; [ | split; [exact Hwallet | exact Hlegacy]].
  rewrite (Hr key_a (compute_wallet_checksum key_a) eq_refl).
  vm_compute. reflexivity.
Defined.

(** X20 on a record that holds the bytes of key A and nothing else. *)
Lemma load_wallet_without_checksum_witness :
  fst (load_wallet world_no_checksum) = Return key_a /\
  fst (verify_wallet_integrity world_no_checksum)
    = Return (false, Text "No checksum stored").
Proof.
  apply (load_wallet_without_checksum
           (mkFile (Json (JDict [("bytes", key_items key_a)])) 384)
           [("bytes", key_items key_a)] (key_items key_a) key_a world_no_checksum);
    vm_compute; reflexivity.
Defined.

(** X21 on the bare list of the bytes of key A. *)
Lemma load_wallet_legacy_format_witness :
  fst (load_wallet world_legacy_format) = Return key_a /\
  fst (verify_wallet_integrity world_legacy_format)
    = Return (false, Text "Legacy wallet format").
Proof.
  apply (load_wallet_legacy_format (mkFile (Json (key_items key_a)) 384) key_a
           world_legacy_format);
    vm_compute; reflexivity.
Defined.

(** X24 on the sample host, the lock being held elsewhere. *)
Lemma save_wallet_then_load_witness :
  exists fs,
    save_wallet key_a world_locked
      = (Return tt, mkWorld fs (flocked world_locked) (held world_locked)) /\
    fs !! get_wallet_file = Some (mkFile (Json (wallet_record key_a)) 384) /\
    fs !! with_suffix get_wallet_file ".lock" = None /\
    fs !! with_suffix get_wallet_file ".tmp" = None /\
    (forall p, p <> get_wallet_file -> p <> with_suffix get_wallet_file ".lock" ->
       p <> with_suffix get_wallet_file ".tmp" -> fs !! p = files world_locked !! p) /\
    load_wallet (mkWorld fs (flocked world_locked) (held world_locked))
      = (Return key_a, mkWorld fs (flocked world_locked) (held world_locked)) /\
    verify_wallet_integrity (mkWorld fs (flocked world_locked) (held world_locked))
      = (Return (true, Text "Wallet is valid"),
         mkWorld fs (flocked world_locked) (held world_locked)).
Proof.
  apply (save_wallet_then_load key_a world_locked).
  - vm_compute. discriminate.
  - vm_compute. discriminate.
  - reflexivity.
  - vm_compute. discriminate.
Defined.

(** X25 on the host started with [--wallet-file /home/ada/keys.lock]: the
    call returns and there is no wallet. *)
Lemma save_wallet_lock_alias_witness :
  exists fs,
    save_wallet (H := keys_lock_host) key_a (mkWorld ∅ ∅ ∅) = (Return tt, mkWorld fs ∅ ∅) /\
    fs !! "/home/ada/keys.lock" = None.
Proof.
  apply (save_wallet_lock_alias (H := keys_lock_host) key_a (mkWorld ∅ ∅ ∅)).
  vm_compute. reflexivity.
Defined.


(** X29 on the sample host: the first entry of a new history. *)
Lemma add_to_history_then_get_witness :
  fst (get_history 1
         (snd (add_to_history "backup" [("file", JStr "monday.json")] world_with_wallet)))
  = Return (JList [JDict [("timestamp", JStr "2025-03-01T12:00:00Z");
                          ("action", JStr "backup");
                          ("correlation_id", JStr "1f0c2a9e");
                          ("file", JStr "monday.json")]]).
Proof.
  destruct (add_to_history_then_get "backup" [("file", JStr "monday.json")] world_with_wallet)
    as [Hlist _].
  { intros key [<- | [<- | [<- | []]]]; reflexivity. }
  destruct (Hlist 0 [] (or_introl (conj eq_refl eq_refl)))
    as (w' & kept & Hadd & _ & _ & _ & Hget).
  rewrite Hadd. cbn [snd]. rewrite Hget. reflexivity.
Defined.

End MoreWalletExamples.

(** ** Moving the files of the skill directory *)

Section MigrationFacts.
Import Wallet.
Context `{Host}.

Lemma append_length (a b : string) :
  String.length (String.append a b) = (String.length a + String.length b)%nat.
Proof.
  induction a as [ | c a IH]; rewrite ?append_nil, ?append_cons; cbn [String.length];
    [reflexivity | now rewrite IH].
Qed.

(** Two texts that end in tails of the same length have the same tail. *)
Lemma append_tail_inj (a b x y : string) :
  String.length x = String.length y ->
  String.append a x = String.append b y -> a = b /\ x = y.
Proof.
  revert b. induction a as [ | c a IH]; intros b Hlen Heq.
  - destruct b as [ | c' b]; rewrite ?append_nil, ?append_cons in Heq.
    + split; [reflexivity | exact Heq].
    + apply (f_equal String.length) in Heq.
      rewrite <- append_cons, append_length in Heq. cbn [String.length] in Heq. lia.
  - destruct b as [ | c' b]; rewrite ?append_nil, ?append_cons in Heq.
    + apply (f_equal String.length) in Heq.
      rewrite <- append_cons, append_length in Heq. cbn [String.length] in Heq. lia.
    + injection Heq as -> Heq. destruct (IH b Hlen Heq) as [-> ->]. split; reflexivity.
Qed.

Lemma join_tail (p q front1 front2 tail1 tail2 : string) :
  String.length tail1 = String.length tail2 ->
  tail1 <> tail2 ->
  join p (String.append front1 tail1) <> join q (String.append front2 tail2).
Proof.
  intros Hlen Hne Heq. unfold join in Heq.
  rewrite <- !append_assoc_str in Heq.
  apply append_tail_inj in Heq as [_ Heq]; [contradiction | exact Hlen].
Qed.

Lemma join_inj_dir (p q name : string) : join p name = join q name -> p = q.
Proof.
  unfold join. intros Heq.
  apply append_tail_inj in Heq as [Heq _]; [exact Heq | reflexivity].
Qed.

Lemma migrated_lookup_ne l h fs p :
  p <> l -> p <> h -> migrated l h fs !! p = fs !! p.
Proof.
  intros Hl Hh. unfold migrated.
  destruct (fs !! l) as [f | ]; [ | reflexivity].
  destruct (fs !! h); [reflexivity | ].
  rewrite lookup_delete_ne by congruence. now rewrite lookup_insert_ne by congruence.
Qed.

(** What a move does at its own two paths depends on those two only. *)
Lemma migrated_lookup_own l h fs fs' :
  l <> h -> fs' !! l = fs !! l -> fs' !! h = fs !! h ->
  migrated l h fs' !! l = migrated l h fs !! l /\
  migrated l h fs' !! h = migrated l h fs !! h.
Proof.
  intros Hne Hl Hh. unfold migrated. rewrite Hl, Hh.
  destruct (fs !! l) as [f | ] eqn:El; [ | split; congruence].
  destruct (fs !! h) as [g | ] eqn:Eh; [split; congruence | ].
  rewrite !lookup_delete_eq.
  rewrite !lookup_delete_ne by congruence. rewrite !lookup_insert_eq. split; reflexivity.
Qed.

Lemma fold_migrated (pairs : list (string * string)) :
  List.NoDup (map fst pairs ++ map snd pairs) ->
  forall fs0,
    (forall p, ~ In p (map fst pairs ++ map snd pairs) ->
       fold_left (fun fs lh => migrated (fst lh) (snd lh) fs) pairs fs0 !! p = fs0 !! p) /\
    (forall l h, In (l, h) pairs ->
       fold_left (fun fs lh => migrated (fst lh) (snd lh) fs) pairs fs0 !! l
         = migrated l h fs0 !! l /\
       fold_left (fun fs lh => migrated (fst lh) (snd lh) fs) pairs fs0 !! h
         = migrated l h fs0 !! h).
Proof.
  induction pairs as [ | [l0 h0] pairs IH]; intros Hnd fs0.
  - split; [reflexivity | intros l h []].
  - cbn [map fst snd app] in Hnd.
    assert (Hnd' : List.NoDup (map fst pairs ++ map snd pairs)).
    { apply NoDup_cons_iff in Hnd as [_ Hnd].
      apply NoDup_remove_1 in Hnd. exact Hnd. }
    assert (Hl0 : ~ In l0 (map fst pairs ++ map snd pairs)).
    { apply NoDup_cons_iff in Hnd as [Hin _]. intros Hx. apply Hin.
      apply in_app_iff in Hx as [Hx | Hx]; apply in_app_iff; [left | right; right];
        exact Hx. }
    assert (Hh0 : ~ In h0 (map fst pairs ++ map snd pairs)).
    { apply NoDup_cons_iff in Hnd as [_ Hnd].
      apply NoDup_remove_2 in Hnd. exact Hnd. }
    assert (Hlh : l0 <> h0).
    { apply NoDup_cons_iff in Hnd as [Hin _]. intros ->. apply Hin.
      apply in_app_iff. right. left. reflexivity. }
    destruct (IH Hnd' (migrated l0 h0 fs0)) as [IHother IHown].
    cbn [fold_left fst snd]. split.
    + intros p Hp. rewrite IHother.
      * apply migrated_lookup_ne; intros ->; apply Hp; cbn [map fst snd app].
        -- left; reflexivity.
        -- right. apply in_app_iff. right. left. reflexivity.
      * intros Hx. apply Hp. cbn [map fst snd app]. right.
        apply in_app_iff in Hx as [Hx | Hx]; apply in_app_iff; [left | right; right];
          exact Hx.
    + intros l h [[= <- <-] | Hin].
      * rewrite !IHother by assumption. split; reflexivity.
      * destruct (IHown l h Hin) as [-> ->].
        assert (Hl : In l (map fst pairs ++ map snd pairs)).
        { apply in_app_iff. left. apply (in_map fst _ _ Hin). }
        assert (Hh : In h (map fst pairs ++ map snd pairs)).
        { apply in_app_iff. right. apply (in_map snd _ _ Hin). }
        assert (Hne : l <> h).
        { clear -Hnd' Hin. intros ->.
          apply in_split in Hin as (a & b & ->).
          rewrite !map_app in Hnd'. cbn [map fst snd] in Hnd'.
          rewrite <- List.app_assoc in Hnd'. cbn [app] in Hnd'.
          apply NoDup_remove_2 in Hnd'. apply Hnd'.
          rewrite !in_app_iff. right. right. right. left. reflexivity. }
        apply migrated_lookup_own; [exact Hne | | ];
          apply migrated_lookup_ne; intros ->; contradiction.
Qed.

(** One turn of the loop of [migrate_legacy_wallet]. *)
Lemma migrate_step dir_exists l h w :
  (legacy <- exists_ l ;;
   present <- exists_ h ;;
   if legacy && negb present then
     copy2_into dir_exists l h ;;
     chmod h 384 ;;
     unlink l
   else ret tt) w
  = if dir_exists
    then (Return tt, mkWorld (migrated l h (files w)) (flocked w) (held w))
    else match files w !! l, files w !! h with
         | Some _, None => (Raise FileNotFoundError, w)
         | _, _ => (Return tt, w)
         end.
Proof.
  unfold migrated.
  destruct (files w !! l) as [f | ] eqn:Hl.
  - rewrite (bind_return _ _ _ _ _ (exists_present _ _ _ Hl)).
    destruct (files w !! h) as [g | ] eqn:Hh.
    + rewrite (bind_return _ _ _ _ _ (exists_present _ _ _ Hh)). cbn [andb negb].
      destruct dir_exists; [rewrite world_eta | ]; reflexivity.
    + rewrite (bind_return _ _ _ _ _ (exists_absent _ _ Hh)). cbn [andb negb].
      destruct dir_exists; [ | reflexivity].
      assert (Hne : l <> h) by congruence.
      unfold copy2_into, bind, copy2, chmod, unlink, update_files.
      rewrite Hl. destruct (String.eqb_spec l h) as [Heq | _]; [contradiction | ].
      cbn [files flocked held]. rewrite lookup_insert_eq. cbn [files flocked held].
      rewrite insert_insert_eq, lookup_insert_ne, Hl by congruence. reflexivity.
  - rewrite (bind_return _ _ _ _ _ (exists_absent _ _ Hl)).
    assert (Hany : forall b, exists_ h w = (Return b, w) ->
              (present <- exists_ h ;; if false && negb present then
                 copy2_into dir_exists l h ;; chmod h 384 ;; unlink l else ret tt) w
              = (Return tt, w)).
    { intros b Hb. rewrite (bind_return _ _ _ _ _ Hb). reflexivity. }
    rewrite (Hany _ eq_refl).
    destruct dir_exists; [rewrite world_eta | destruct (files w !! h)]; reflexivity.
Qed.

(** The wallet's turn: it makes the directory when it moves the file. *)
Lemma migrate_wallet_step dir_exists l h (k : bool -> M unit) w :
  (legacy <- exists_ l ;;
   present <- exists_ h ;;
   home_dir_exists <-
     (if legacy && negb present then
        copy2 l h ;;
        chmod h 384 ;;
        unlink l ;;
        ret true
      else ret dir_exists) ;;
   k home_dir_exists) w
  = k match files w !! l, files w !! h with
      | Some _, None => true
      | _, _ => dir_exists
      end
      (mkWorld (migrated l h (files w)) (flocked w) (held w)).
Proof.
  unfold migrated.
  destruct (files w !! l) as [f | ] eqn:Hl.
  - rewrite (bind_return _ _ _ _ _ (exists_present _ _ _ Hl)).
    destruct (files w !! h) as [g | ] eqn:Hh.
    + rewrite (bind_return _ _ _ _ _ (exists_present _ _ _ Hh)). cbn [andb negb].
      rewrite world_eta. reflexivity.
    + rewrite (bind_return _ _ _ _ _ (exists_absent _ _ Hh)). cbn [andb negb].
      assert (Hne : l <> h) by congruence.
      unfold bind, copy2, chmod, unlink, update_files, ret.
      rewrite Hl. destruct (String.eqb_spec l h) as [Heq | _]; [contradiction | ].
      cbn [files flocked held]. rewrite lookup_insert_eq. cbn [files flocked held].
      rewrite insert_insert_eq, lookup_insert_ne, Hl by congruence. reflexivity.
  - rewrite (bind_return _ _ _ _ _ (exists_absent _ _ Hl)).
    unfold bind, exists_, ret. cbn [andb]. rewrite world_eta.
    destruct (files w !! h); reflexivity.
Qed.

(** [migrate_legacy_wallet] in one piece: with the data directory at hand,
    or made for the wallet, the four files are moved one after the other;
    otherwise nothing is. *)
Lemma migrate_legacy_wallet_files home_dir_exists w :
  migrate_legacy_wallet home_dir_exists w =
    (Return tt,
     mkWorld
       (if match files w !! join skill_dir "wallet.json",
                   files w !! join (join home ".mintyouragent") "wallet.json" with
             | Some _, None => true
             | _, _ => home_dir_exists
             end
        then
          fold_left (fun fs lh => migrated (fst lh) (snd lh) fs)
            [(join skill_dir "wallet.json", join (join home ".mintyouragent") "wallet.json");
             (join skill_dir "SEED_PHRASE.txt",
              join (join home ".mintyouragent") "SEED_PHRASE.txt");
             (join skill_dir "RECOVERY_KEY.txt",
              join (join home ".mintyouragent") "RECOVERY_KEY.txt");
             (join skill_dir "BACKUP.txt", join (join home ".mintyouragent") "BACKUP.txt")]
            (files w)
        else files w)
       (flocked w) (held w)).
Proof.
  unfold migrate_legacy_wallet, try_pass. cbv zeta.
  rewrite migrate_wallet_step.
  destruct (match files w !! join skill_dir "wallet.json",
                  files w !! join (join home ".mintyouragent") "wallet.json" with
            | Some _, None => true
            | _, _ => home_dir_exists
            end) eqn:Hdir.
  - cbn [for_each].
    rewrite (bind_return _ _ _ _ _ (migrate_step true _ _ _)). cbn [files flocked held].
    rewrite (bind_return _ _ _ _ _ (migrate_step true _ _ _)). cbn [files flocked held].
    rewrite (bind_return _ _ _ _ _ (migrate_step true _ _ _)). cbn [files flocked held].
    reflexivity.
  - assert (Hsame : migrated (join skill_dir "wallet.json")
                      (join (join home ".mintyouragent") "wallet.json") (files w) = files w).
    { unfold migrated.
      destruct (files w !! join skill_dir "wallet.json"); [ | reflexivity].
      destruct (files w !! join (join home ".mintyouragent") "wallet.json");
        [reflexivity | discriminate]. }
    rewrite Hsame, world_eta.
    assert (Hloop : forall names,
              snd (for_each names
                     (fun name =>
                        legacy <- exists_ (join skill_dir name) ;;
                        present <- exists_ (join (join home ".mintyouragent") name) ;;
                        if legacy && negb present then
                          copy2_into false (join skill_dir name)
                            (join (join home ".mintyouragent") name) ;;
                          chmod (join (join home ".mintyouragent") name) 384 ;;
                          unlink (join skill_dir name)
                        else ret tt) w) = w).
    { induction names as [ | name names IH]; [reflexivity | ].
      cbn [for_each]. unfold bind at 1. rewrite migrate_step.
      destruct (files w !! join skill_dir name);
        [destruct (files w !! join (join home ".mintyouragent") name) | ];
        try exact IH; reflexivity. }
    rewrite Hloop. destruct w; reflexivity.
Qed.

Lemma migration_paths_distinct :
  skill_dir <> join home ".mintyouragent" ->
  List.NoDup
    (map fst
       [(join skill_dir "wallet.json", join (join home ".mintyouragent") "wallet.json");
        (join skill_dir "SEED_PHRASE.txt", join (join home ".mintyouragent") "SEED_PHRASE.txt");
        (join skill_dir "RECOVERY_KEY.txt",
         join (join home ".mintyouragent") "RECOVERY_KEY.txt");
        (join skill_dir "BACKUP.txt", join (join home ".mintyouragent") "BACKUP.txt")]
     ++ map snd
       [(join skill_dir "wallet.json", join (join home ".mintyouragent") "wallet.json");
        (join skill_dir "SEED_PHRASE.txt", join (join home ".mintyouragent") "SEED_PHRASE.txt");
        (join skill_dir "RECOVERY_KEY.txt",
         join (join home ".mintyouragent") "RECOVERY_KEY.txt");
        (join skill_dir "BACKUP.txt", join (join home ".mintyouragent") "BACKUP.txt")]).
Proof.
  intros Hdir. cbn [map fst snd app].
  assert (Hw : forall p q, join p "wallet.json" = join q "wallet.json" -> p = q)
    by (intros p q; apply join_inj_dir).
  assert (Hs : forall p q, join p "SEED_PHRASE.txt" = join q "SEED_PHRASE.txt" -> p = q)
    by (intros p q; apply join_inj_dir).
  assert (Hr : forall p q, join p "RECOVERY_KEY.txt" = join q "RECOVERY_KEY.txt" -> p = q)
    by (intros p q; apply join_inj_dir).
  assert (Hb : forall p q, join p "BACKUP.txt" = join q "BACKUP.txt" -> p = q)
    by (intros p q; apply join_inj_dir).
  assert (Hws : forall p q, join p "wallet.json" <> join q "SEED_PHRASE.txt")
    by (intros p q; apply (join_tail p q "wallet.jso" "SEED_PHRASE.tx" "n" "t");
        [reflexivity | discriminate]).
  assert (Hwr : forall p q, join p "wallet.json" <> join q "RECOVERY_KEY.txt")
    by (intros p q; apply (join_tail p q "wallet.jso" "RECOVERY_KEY.tx" "n" "t");
        [reflexivity | discriminate]).
  assert (Hwb : forall p q, join p "wallet.json" <> join q "BACKUP.txt")
    by (intros p q; apply (join_tail p q "wallet.jso" "BACKUP.tx" "n" "t");
        [reflexivity | discriminate]).
  assert (Hsr : forall p q, join p "SEED_PHRASE.txt" <> join q "RECOVERY_KEY.txt")
    by (intros p q; apply (join_tail p q "SEED_PHRAS" "RECOVERY_KE" "E.txt" "Y.txt");
        [reflexivity | discriminate]).
  assert (Hsb : forall p q, join p "SEED_PHRASE.txt" <> join q "BACKUP.txt")
    by (intros p q; apply (join_tail p q "SEED_PHRAS" "BACKU" "E.txt" "P.txt");
        [reflexivity | discriminate]).
  assert (Hrb : forall p q, join p "RECOVERY_KEY.txt" <> join q "BACKUP.txt")
    by (intros p q; apply (join_tail p q "RECOVERY_KE" "BACKU" "Y.txt" "P.txt");
        [reflexivity | discriminate]).
  repeat (apply List.NoDup_cons; [cbn [In]; intros Hin | ]); [ .. | apply List.NoDup_nil].
  all: repeat match goal with
              | Hin : _ \/ _ |- _ => destruct Hin as [Hin | Hin]
              | Hin : False |- _ => contradiction
              end.
  all: try (apply Hw in Hin); try (apply Hs in Hin); try (apply Hr in Hin);
       try (apply Hb in Hin); try congruence.
  all: try (now apply Hws in Hin); try (now apply Hwr in Hin); try (now apply Hwb in Hin);
       try (now apply Hsr in Hin); try (now apply Hsb in Hin); try (now apply Hrb in Hin).
  all: symmetry in Hin.
  all: try (now apply Hws in Hin); try (now apply Hwr in Hin); try (now apply Hwb in Hin);
       try (now apply Hsr in Hin); try (now apply Hsb in Hin); try (now apply Hrb in Hin).
Qed.

Lemma migrated_moves l h fs f :
  l <> h -> fs !! l = Some f -> fs !! h = None ->
  migrated l h fs !! l = None /\
  migrated l h fs !! h = Some (mkFile (content f) 384).
Proof.
  intros Hne Hl Hh. unfold migrated. rewrite Hl, Hh.
  rewrite lookup_delete_eq, lookup_delete_ne, lookup_insert_eq by congruence.
  split; reflexivity.
Qed.

Lemma migrated_stays l h fs g : fs !! h = Some g -> migrated l h fs = fs.
Proof.
  intros Hh. unfold migrated. rewrite Hh. destruct (fs !! l); reflexivity.
Qed.

(** X30: [migrate_legacy_wallet] never fails, and it neither overwrites nor
    loses a file (the skill directory not being the data directory
    itself). A file already in the data directory stays as it is, and its
    namesake in the skill directory stays too; a file of the skill
    directory without a namesake is moved, owner-only, or else nothing at
    all was changed, which happens only to the recovery files and only
    when the data directory is missing. A wallet in the skill directory
    with no wallet in the data directory is always moved. *)
Theorem migrate_legacy_wallet_safe home_dir_exists w :
  skill_dir <> join home ".mintyouragent" ->
  exists fs,
    migrate_legacy_wallet home_dir_exists w = (Return tt, mkWorld fs (flocked w) (held w)) /\
    (forall name,
       In name ["wallet.json"; "SEED_PHRASE.txt"; "RECOVERY_KEY.txt"; "BACKUP.txt"] ->
       (forall g, files w !! join (join home ".mintyouragent") name = Some g ->
          fs !! join (join home ".mintyouragent") name = Some g /\
          fs !! join skill_dir name = files w !! join skill_dir name) /\
       (forall f, files w !! join skill_dir name = Some f ->
          files w !! join (join home ".mintyouragent") name = None ->
          fs !! join skill_dir name = None /\
          fs !! join (join home ".mintyouragent") name = Some (mkFile (content f) 384)
          \/ fs = files w /\ home_dir_exists = false /\ name <> "wallet.json")) /\
    (forall p,
       (forall name,
          In name ["wallet.json"; "SEED_PHRASE.txt"; "RECOVERY_KEY.txt"; "BACKUP.txt"] ->
          p <> join skill_dir name /\ p <> join (join home ".mintyouragent") name) ->
       fs !! p = files w !! p).
Proof.
  intros Hdir. rewrite migrate_legacy_wallet_files.
  eexists. split; [reflexivity | ].
  pose proof (migration_paths_distinct Hdir) as Hnd.
  set (pairs := [(join skill_dir "wallet.json", _); _; _; _]) in *.
  assert (Hpair : forall name,
            In name ["wallet.json"; "SEED_PHRASE.txt"; "RECOVERY_KEY.txt"; "BACKUP.txt"] ->
            In (join skill_dir name, join (join home ".mintyouragent") name) pairs).
  { intros name Hin. subst pairs. cbn [In] in *.
    destruct Hin as [<- | [<- | [<- | [<- | []]]]]; auto. }
  assert (Hlh : forall name, join skill_dir name <> join (join home ".mintyouragent") name).
  { intros name Heq. apply Hdir. exact (join_inj_dir _ _ _ Heq). }
  destruct (fold_migrated pairs Hnd (files w)) as [Hother Hown].
  destruct (match files w !! join skill_dir "wallet.json",
                  files w !! join (join home ".mintyouragent") "wallet.json" with
            | Some _, None => true
            | _, _ => home_dir_exists
            end) eqn:Hflag.
  - split.
    + intros name Hname. destruct (Hown _ _ (Hpair name Hname)) as [Hl Hh]. split.
      * intros g Hg. rewrite Hl, Hh, (migrated_stays _ _ _ _ Hg). split; [exact Hg | reflexivity].
      * intros f Hf Hnone. left. rewrite Hl, Hh.
        exact (migrated_moves _ _ _ f (Hlh name) Hf Hnone).
    + intros p Hp. apply Hother. intros Hin. subst pairs. cbn [map fst snd app In] in Hin.
      repeat match goal with
             | Hin : _ \/ _ |- _ => destruct Hin as [Hin | Hin]
             | Hin : False |- _ => contradiction
             end;
        match type of Hin with
        | join _ ?name = p =>
            destruct (Hp name ltac:(cbn [In]; auto 6)) as [H1 H2]; congruence
        end.
  - assert (Hno : home_dir_exists = false).
    { destruct (files w !! join skill_dir "wallet.json");
        [destruct (files w !! join (join home ".mintyouragent") "wallet.json") | ];
        congruence. }
    split; [ | reflexivity].
    intros name Hname. split.
    + intros g Hg. split; [exact Hg | reflexivity].
    + intros f Hf Hnone. right. split; [reflexivity | split; [exact Hno | ]].
      intros ->. rewrite Hf, Hnone in Hflag. discriminate.
Qed.

End MigrationFacts.

(** X30 on the sample host, the data directory not yet made: the wallet
    left in the skill directory is moved. *)
Lemma migrate_legacy_wallet_safe_witness :
  Wallet.files (snd (Wallet.migrate_legacy_wallet (H := Samples.sample_host) false
                Samples.world_legacy_only)) !! Samples.wallet_path
    = Some (Wallet.mkFile (Wallet.Json (Samples.sample_record Samples.key_a)) 384) /\
  Wallet.files (snd (Wallet.migrate_legacy_wallet (H := Samples.sample_host) false
                Samples.world_legacy_only)) !! Samples.legacy_wallet_path = None.
Proof.
  destruct (migrate_legacy_wallet_safe (H := Samples.sample_host) false
              Samples.world_legacy_only)
    as (fs & Hrun & Hnames & _); [vm_compute; discriminate | ].
  destruct (Hnames "wallet.json" (or_introl eq_refl)) as [_ Hmove].
  destruct (Hmove (Wallet.mkFile (Wallet.Json (Samples.sample_record Samples.key_a)) 420))
    as [[Hgone Hthere] | (_ & _ & Hname)];
    [vm_compute; reflexivity | vm_compute; reflexivity | | now contradiction Hname].
  rewrite Hrun. cbn [snd Wallet.files].
  split; [exact Hthere | exact Hgone].
Defined.
